(** * Reconciliation behaviour of the Railway Terraform provider resources

    A shallow embedding of the lifecycle callbacks of four resources of
    [internal/provider]:

      - [resource_service_limits.go]
      - [resource_service_instance.go]
      - [resource_private_network.go]
      - [resource_private_network_endpoint.go]

    Framework values ([types.String], [types.List], ...) are three-state
    (null, unknown, known); a callback is a computation over the response
    object it mutates, with Go's early [return] made explicit; the generated
    GraphQL client is a record of response functions and every call it
    receives is recorded. *)

From Stdlib Require Import String Ascii List Bool ZArith Lia PrimFloat.
Import ListNotations.
Open Scope string_scope.

Set Implicit Arguments.

(** ** Framework values *)

Module types.

(** [types.String] *)
Inductive String :=
| StringNull
| StringUnknown
| StringValue (s : string).

(** [types.Float64] *)
Inductive Float64 :=
| Float64Null
| Float64Unknown
| Float64Value (f : float).

(** [types.Int64] *)
Inductive Int64 :=
| Int64Null
| Int64Unknown
| Int64Value (z : Z).

(** [types.Bool] *)
Inductive Bool :=
| BoolNull
| BoolUnknown
| BoolValue (b : bool).

(** [types.List]; the elements are framework strings in every use here. *)
Inductive List :=
| ListNull
| ListUnknown
| ListValue (elems : list String).

End types.

Module String_.
Import types.

Definition IsNull (v : String) : bool :=
  match v with StringNull => true | _ => false end.

Definition IsUnknown (v : String) : bool :=
  match v with StringUnknown => true | _ => false end.

(** [ValueString] is the empty string for null and unknown values. *)
Definition ValueString (v : String) : string :=
  match v with StringValue s => s | _ => "" end.

(** [Equal]: same state and, when known, same value. *)
Definition Equal (v w : String) : bool :=
  match v, w with
  | StringNull, StringNull => true
  | StringUnknown, StringUnknown => true
  | StringValue s, StringValue t => String.eqb s t
  | _, _ => false
  end.

(** [ValueStringPointer] is nil for a null value, and points to the empty
    string for an unknown one. *)
Definition ValueStringPointer (v : String) : option string :=
  match v with
  | StringNull => None
  | StringUnknown => Some ""
  | StringValue s => Some s
  end.
End String_.

Module Float64_.
Import types.

Definition IsNull (v : Float64) : bool :=
  match v with Float64Null => true | _ => false end.

Definition ValueFloat64 (v : Float64) : float :=
  match v with Float64Value f => f | _ => 0%float end.
End Float64_.

Module Int64_.
Import types.

Definition IsNull (v : Int64) : bool :=
  match v with Int64Null => true | _ => false end.

Definition ValueInt64 (v : Int64) : Z :=
  match v with Int64Value z => z | _ => 0%Z end.
End Int64_.

Module Bool_.
Import types.

Definition IsNull (v : Bool) : bool :=
  match v with BoolNull => true | _ => false end.

Definition ValueBool (v : Bool) : bool :=
  match v with BoolValue b => b | _ => false end.

Definition ValueBoolPointer (v : Bool) : option bool :=
  match v with
  | BoolNull => None
  | BoolUnknown => Some false
  | BoolValue b => Some b
  end.
End Bool_.

(** ** Diagnostics *)

Inductive Severity := SeverityError | SeverityWarning.

Record Diagnostic := mkDiagnostic {
  severity : Severity;
  summary : string;
  detail : string
}.

Definition Diagnostics := list Diagnostic.

Definition isError (d : Diagnostic) : bool :=
  match severity d with SeverityError => true | SeverityWarning => false end.

Definition HasError (ds : Diagnostics) : bool := existsb isError ds.

Definition ErrorDiagnostic (s d : string) : Diagnostic :=
  mkDiagnostic SeverityError s d.

Module List_.
Import types.

Definition IsNull (v : List) : bool :=
  match v with ListNull => true | _ => false end.

Definition IsUnknown (v : List) : bool :=
  match v with ListUnknown => true | _ => false end.

Fixpoint elementsEqual (l m : list String) : bool :=
  match l, m with
  | [], [] => true
  | x :: l', y :: m' => String_.Equal x y && elementsEqual l' m'
  | _, _ => false
  end.

(** [Equal]: same state and, when known, equal elements in order. *)
Definition Equal (v w : List) : bool :=
  match v, w with
  | ListNull, ListNull => true
  | ListUnknown, ListUnknown => true
  | ListValue l, ListValue m => elementsEqual l m
  | _, _ => false
  end.

(** Conversion of the elements to Go strings: it stops at the first element
    that is null or unknown. *)
Fixpoint elementStrings (l : list String) : option (list string) :=
  match l with
  | [] => Some []
  | StringValue s :: r =>
      match elementStrings r with
      | Some ss => Some (s :: ss)
      | None => None
      end
  | _ :: _ => None
  end.

(** The error of a failed conversion. The framework's detail text names the
    path and the target type and is not reproduced; the callbacks test
    the severity only. *)
Definition conversionError : Diagnostic :=
  ErrorDiagnostic "Value Conversion Error"
    "An unexpected error was encountered trying to convert the list value.".

(** [ElementsAs(ctx, &target, false)] into a [[]string]: the target is left
    as it was (nil at every call site) when the conversion fails. *)
Definition ElementsAs (v : List) : list string * Diagnostics :=
  match v with
  | ListNull => ([], [])
  | ListUnknown => ([], [conversionError])
  | ListValue elems =>
      match elementStrings elems with
      | Some ss => (ss, [])
      | None => ([], [conversionError])
      end
  end.

(** [types.ListValueFrom(ctx, types.StringType, ss)] for a [[]string]. *)
Definition ListValueFrom (ss : list string) : List * Diagnostics :=
  (ListValue (map StringValue ss), []).
End List_.

(** ** Identity codec *)

Module IdentityCodec.

Definition delimiter : ascii := ":"%char.

(** [fmt.Sprintf("%s:%s", service_id, environment_id)]: the composite
    identifier [ServiceLimitsResource.Create] and
    [ServiceInstanceResource.Create] store in [id], over the Go strings
    [data.ServiceId.ValueString()] and [data.EnvironmentId.ValueString()]. *)
Definition encode (service_id environment_id : string) : string :=
  service_id ++ String delimiter environment_id.

Fixpoint contains (c : ascii) (s : string) : bool :=
  match s with
  | EmptyString => false
  | String x r => if Ascii.eqb x c then true else contains c r
  end.

End IdentityCodec.


(** ** The generated GraphQL client

    The request and response types and the query functions are generated
    code; they appear here with the fields the callbacks use. A Go pointer
    is an [option], a nil slice of pointers is [None]. *)

Inductive result (A : Type) :=
| Ok (a : A)
| Err (err : string).

Arguments Ok {A} a.
Arguments Err {A} err.

Record PrivateNetworkCreateOrGetInput := {
  pn_in_Name : string;
  pn_in_ProjectId : string;
  pn_in_EnvironmentId : string;
  pn_in_Tags : list string
}.

(** The network of [createOrGetPrivateNetwork] and of [getPrivateNetworks]. *)
Record PrivateNetwork := {
  pn_PublicId : string;
  pn_Name : string;
  pn_DnsName : string;
  pn_ProjectId : string;
  pn_EnvironmentId : string;
  pn_Tags : list string
}.

Record PrivateNetworkEndpointCreateOrGetInput := {
  ep_in_PrivateNetworkId : string;
  ep_in_ServiceId : string;
  ep_in_EnvironmentId : string;
  ep_in_ServiceName : string;
  ep_in_Tags : list string
}.

(** The endpoint of [createOrGetPrivateNetworkEndpoint]. *)
Record CreatedEndpoint := {
  cep_PublicId : string;
  cep_DnsName : string;
  cep_PrivateIps : list string;
  cep_Tags : list string
}.

(** The endpoint of [getPrivateNetworkEndpoint]: every field is a pointer. *)
Record ObservedEndpoint := {
  oep_PublicId : option string;
  oep_DnsName : option string;
  oep_PrivateIps : list (option string);
  oep_Tags : list (option string)
}.

Record ServiceInstanceLimitsUpdateInput := {
  lim_ServiceId : string;
  lim_EnvironmentId : string;
  lim_MemoryGB : option float;
  lim_VCPUs : option float
}.

Record ServiceSourceInput := {
  src_Image : option string;
  src_Repo : option string
}.

Record RegistryCredentialsInput := {
  cred_Username : string;
  cred_Password : string
}.

Record ServiceInstanceUpdateInput := {
  in_Source : option ServiceSourceInput;
  in_RegistryCredentials : option RegistryCredentialsInput;
  in_Builder : option string;
  in_BuildCommand : option string;
  in_StartCommand : option string;
  in_PreDeployCommand : option (list (option string));
  in_HealthcheckPath : option string;
  in_HealthcheckTimeout : option Z;
  in_RestartPolicyType : option string;
  in_RestartPolicyMaxRetries : option Z;
  in_SleepApplication : option bool
}.

(** [var input ServiceInstanceUpdateInput]: the zero value. *)
Definition zeroServiceInstanceUpdateInput : ServiceInstanceUpdateInput :=
  {| in_Source := None; in_RegistryCredentials := None; in_Builder := None;
     in_BuildCommand := None; in_StartCommand := None;
     in_PreDeployCommand := None; in_HealthcheckPath := None;
     in_HealthcheckTimeout := None; in_RestartPolicyType := None;
     in_RestartPolicyMaxRetries := None; in_SleepApplication := None |}.

Record ServiceSource := {
  obs_Image : option string;
  obs_Repo : option string
}.

(** [response.ServiceInstance] of [getServiceInstanceForResource]. *)
Record ServiceInstance := {
  si_Source : option ServiceSource;
  si_Builder : string;
  si_BuildCommand : option string;
  si_StartCommand : option string;
  si_HealthcheckPath : option string;
  si_HealthcheckTimeout : option Z;
  si_RestartPolicyType : string;
  si_RestartPolicyMaxRetries : Z;
  si_SleepApplication : option bool
}.

(** The remote operations the callbacks invoke, with their arguments. *)
Inductive RemoteCall :=
| createOrGetPrivateNetwork_ (input : PrivateNetworkCreateOrGetInput)
| getPrivateNetworks_ (environmentId : string)
| deletePrivateNetworksForEnvironment_ (environmentId : string)
| createOrGetPrivateNetworkEndpoint_ (input : PrivateNetworkEndpointCreateOrGetInput)
| getPrivateNetworkEndpoint_ (environmentId networkId serviceId : string)
| deletePrivateNetworkEndpoint_ (id : string)
| updateServiceInstanceLimits_ (input : ServiceInstanceLimitsUpdateInput)
| updateServiceInstanceWithEnv_ (environmentId serviceId : string)
                                (input : ServiceInstanceUpdateInput)
| redeployServiceInstanceWithEnv_ (environmentId serviceId : string)
| getServiceInstanceForResource_ (environmentId serviceId : string).

(** What the remote system answers: the client is only ever asked, so its
    answers are arbitrary functions of the request. *)
Record Client := {
  createOrGetPrivateNetwork :
    PrivateNetworkCreateOrGetInput -> result PrivateNetwork;
  getPrivateNetworks : string -> result (list PrivateNetwork);
  deletePrivateNetworksForEnvironment : string -> result bool;
  createOrGetPrivateNetworkEndpoint :
    PrivateNetworkEndpointCreateOrGetInput -> result CreatedEndpoint;
  getPrivateNetworkEndpoint :
    string -> string -> string -> result (option ObservedEndpoint);
  deletePrivateNetworkEndpoint : string -> result bool;
  updateServiceInstanceLimits : ServiceInstanceLimitsUpdateInput -> result bool;
  updateServiceInstanceWithEnv :
    string -> string -> ServiceInstanceUpdateInput -> result bool;
  redeployServiceInstanceWithEnv : string -> string -> result bool;
  getServiceInstanceForResource : string -> string -> result ServiceInstance
}.

Definition isErr {A} (r : result A) : bool :=
  match r with Ok _ => false | Err _ => true end.

(** One remote call as it happened: the request and whether it failed. *)
Record Event := {
  call : RemoteCall;
  failed : bool
}.

(** ** Callbacks

    A callback runs over the response it fills in: the diagnostics, the
    state to persist ([None] once the resource is removed or while nothing
    was written), the remote calls issued so far and the log. It yields
    [None] when the Go code returns early. *)

Record Resp (M : Type) := {
  Diagnostics_ : Diagnostics;
  State : option M;
  remote : list Event;
  tflog : list string
}.

Definition Callback (M A : Type) : Type := Resp M -> option A * Resp M.

Definition ret {M A} (a : A) : Callback M A := fun r => (Some a, r).

Definition bind {M A B} (m : Callback M A) (k : A -> Callback M B)
  : Callback M B :=
  fun r => match m r with
           | (Some a, r') => k a r'
           | (None, r') => (None, r')
           end.

Declare Scope callback_scope.
Delimit Scope callback_scope with callback.

Notation "x <- m ;; k" := (bind m (fun x => k))
  (at level 61, m at next level, right associativity) : callback_scope.
Notation "m ;;; k" := (bind m (fun _ => k))
  (at level 61, right associativity) : callback_scope.

Open Scope callback_scope.

(** Go's [return] in the middle of a callback. *)
Definition exit {M A} : Callback M A := fun r => (None, r).

(** [resp.Diagnostics.Append(ds...)] *)
Definition Append {M} (ds : Diagnostics) : Callback M unit :=
  fun r => (Some tt,
            {| Diagnostics_ := (Diagnostics_ r ++ ds)%list; State := State r;
               remote := remote r; tflog := tflog r |}).

(** [resp.Diagnostics.AddError(summary, detail)] *)
Definition AddError {M} (s d : string) : Callback M unit :=
  Append [ErrorDiagnostic s d].

(** [if resp.Diagnostics.HasError() { return }] *)
Definition returnIfError {M} : Callback M unit :=
  fun r => if HasError (Diagnostics_ r) then (None, r) else (Some tt, r).

(** [resp.State.Set(ctx, &data)]: the model has the schema's shape, the
    write yields no diagnostic. *)
Definition State_Set {M} (data : M) : Callback M Diagnostics :=
  fun r => (Some [],
            {| Diagnostics_ := Diagnostics_ r; State := Some data;
               remote := remote r; tflog := tflog r |}).

(** [resp.State.RemoveResource(ctx)] *)
Definition State_RemoveResource {M} : Callback M unit :=
  fun r => (Some tt,
            {| Diagnostics_ := Diagnostics_ r; State := None;
               remote := remote r; tflog := tflog r |}).

(** [tflog.Trace(ctx, msg)] *)
Definition Trace {M} (msg : string) : Callback M unit :=
  fun r => (Some tt,
            {| Diagnostics_ := Diagnostics_ r; State := State r;
               remote := remote r; tflog := (tflog r ++ [msg])%list |}).

(** A call through the client: the answer comes back and the call is
    recorded. *)
Definition invoke {M A} (c : RemoteCall) (answer : result A)
  : Callback M (result A) :=
  fun r => (Some answer,
            {| Diagnostics_ := Diagnostics_ r; State := State r;
               remote := (remote r ++ [{| call := c; failed := isErr answer |}])%list;
               tflog := tflog r |}).

(** [req.Plan] and [req.State]: the stored value and what decoding it into
    the model reports. *)
Record Stored (M : Type) := {
  Raw : M;
  GetDiagnostics : Diagnostics
}.

(** [resp.Diagnostics.Append(req.Plan.Get(ctx, &data)...)] *)
Definition Get {M} (v : Stored M) : Callback M M :=
  Append (GetDiagnostics v) ;;; ret (Raw v).

(** The response a callback starts from: Create starts from no state, the
    other callbacks from the prior state. *)
Definition freshResp {M} (prior : option M) : Resp M :=
  {| Diagnostics_ := []; State := prior; remote := []; tflog := [] |}.

Definition run {M} (prior : option M) (c : Callback M unit) : Resp M :=
  snd (c (freshResp prior)).

(** Some remote call of the run failed. *)
Definition remoteFault {M} (r : Resp M) : bool :=
  existsb failed (remote r).

(** ** [resource_service_limits.go] *)

Module ServiceLimitsResource.
Import types.

Record ServiceLimitsResourceModel := {
  Id : String;
  ServiceId : String;
  EnvironmentId : String;
  MemoryGB : Float64;
  VCPUs : Float64
}.

Definition Model := ServiceLimitsResourceModel.

Definition setId (data : Model) (v : String) : Model :=
  {| Id := v; ServiceId := ServiceId data;
     EnvironmentId := EnvironmentId data;
     MemoryGB := MemoryGB data; VCPUs := VCPUs data |}.

Definition buildLimitsInput (data : Model) : ServiceInstanceLimitsUpdateInput :=
  let input :=
    {| lim_ServiceId := String_.ValueString (ServiceId data);
       lim_EnvironmentId := String_.ValueString (EnvironmentId data);
       lim_MemoryGB := None;
       lim_VCPUs := None |} in
  let input :=
    if negb (Float64_.IsNull (MemoryGB data)) then
      let memoryGB := Float64_.ValueFloat64 (MemoryGB data) in
      {| lim_ServiceId := lim_ServiceId input;
         lim_EnvironmentId := lim_EnvironmentId input;
         lim_MemoryGB := Some memoryGB;
         lim_VCPUs := lim_VCPUs input |}
    else input in
  let input :=
    if negb (Float64_.IsNull (VCPUs data)) then
      let vcpus := Float64_.ValueFloat64 (VCPUs data) in
      {| lim_ServiceId := lim_ServiceId input;
         lim_EnvironmentId := lim_EnvironmentId input;
         lim_MemoryGB := lim_MemoryGB input;
         lim_VCPUs := Some vcpus |}
    else input in
  input.

Definition Create (client : Client) (plan : Stored Model)
  : Callback Model unit :=
  data <- Get plan ;;
  returnIfError ;;;
  let input := buildLimitsInput data in
  answer <- invoke (updateServiceInstanceLimits_ input)
                   (updateServiceInstanceLimits client input) ;;
  match answer with
  | Err err =>
      AddError "Client Error"
        ("Unable to set service limits, got error: " ++ err) ;;;
      exit
  | Ok _ =>
      Trace "set service instance limits" ;;;
      let data :=
        setId data
          (StringValue
             (IdentityCodec.encode
                (String_.ValueString (ServiceId data))
                (String_.ValueString (EnvironmentId data)))) in
      ds <- State_Set data ;;
      Append ds
  end.

(** The receiver's client is at hand and never asked. *)
Definition Read (client : Client) (state : Stored Model)
  : Callback Model unit :=
  data <- Get state ;;
  returnIfError ;;;
  ds <- State_Set data ;;
  Append ds.

Definition Update (client : Client) (plan : Stored Model)
  : Callback Model unit :=
  data <- Get plan ;;
  returnIfError ;;;
  let input := buildLimitsInput data in
  answer <- invoke (updateServiceInstanceLimits_ input)
                   (updateServiceInstanceLimits client input) ;;
  match answer with
  | Err err =>
      AddError "Client Error"
        ("Unable to update service limits, got error: " ++ err) ;;;
      exit
  | Ok _ =>
      Trace "updated service instance limits" ;;;
      ds <- State_Set data ;;
      Append ds
  end.

Definition Delete (client : Client) (state : Stored Model)
  : Callback Model unit :=
  Trace "service limits delete is a no-op - limits persist on the service".

(** [resource.ImportStatePassthroughID(ctx, path.Root("id"), req, resp)]:
    a non-empty ID goes to [id] as it is, every other attribute stays
    null; an empty ID sets nothing. *)
Definition ImportState (reqID : string) : Callback Model unit :=
  if String.eqb reqID "" then ret tt
  else
    ds <- State_Set {| Id := StringValue reqID; ServiceId := StringNull;
                       EnvironmentId := StringNull; MemoryGB := Float64Null;
                       VCPUs := Float64Null |} ;;
    Append ds.

End ServiceLimitsResource.

(** ** [resource_service_instance.go]

    The revision with the build, healthcheck, restart and sleep
    attributes. *)

Module ServiceInstanceResource.
Import types.

Record ServiceInstanceResourceModel := {
  Id : String;
  ServiceId : String;
  EnvironmentId : String;
  SourceImage : String;
  SourceRepo : String;
  RegistryCredentialsUser : String;
  RegistryCredentialsPass : String;
  Redeploy : Bool;
  Builder : String;
  BuildCommand : String;
  StartCommand : String;
  PreDeployCommand : List;
  HealthcheckPath : String;
  HealthcheckTimeout : Int64;
  RestartPolicyType : String;
  RestartPolicyMaxRetries : Int64;
  SleepApplication : Bool
}.

Definition Model := ServiceInstanceResourceModel.

Definition setId (data : Model) (v : String) : Model :=
  {| Id := v; ServiceId := ServiceId data;
     EnvironmentId := EnvironmentId data;
     SourceImage := SourceImage data; SourceRepo := SourceRepo data;
     RegistryCredentialsUser := RegistryCredentialsUser data;
     RegistryCredentialsPass := RegistryCredentialsPass data;
     Redeploy := Redeploy data; Builder := Builder data;
     BuildCommand := BuildCommand data; StartCommand := StartCommand data;
     PreDeployCommand := PreDeployCommand data;
     HealthcheckPath := HealthcheckPath data;
     HealthcheckTimeout := HealthcheckTimeout data;
     RestartPolicyType := RestartPolicyType data;
     RestartPolicyMaxRetries := RestartPolicyMaxRetries data;
     SleepApplication := SleepApplication data |}.

(** [source := &ServiceSourceInput{}] and its two conditional fields. *)
Definition buildSource (data : Model) : option ServiceSourceInput :=
  if negb (String_.IsNull (SourceImage data))
     || negb (String_.IsNull (SourceRepo data))
  then
    Some {| src_Image :=
              if negb (String_.IsNull (SourceImage data))
              then String_.ValueStringPointer (SourceImage data) else None;
            src_Repo :=
              if negb (String_.IsNull (SourceRepo data))
              then String_.ValueStringPointer (SourceRepo data) else None |}
  else None.

(** The slice of pointers built from [cmds]; the diagnostics of
    [ElementsAs] are dropped by the source. *)
Definition buildPreDeployCommand (data : Model)
  : option (list (option string)) :=
  if negb (List_.IsNull (PreDeployCommand data)) then
    let cmds := fst (List_.ElementsAs (PreDeployCommand data)) in
    Some (map (fun c => Some c) cmds)
  else None.

(** [int(v)] on the 64-bit platforms the provider is built for. *)
Definition int (z : Z) : Z := z.

Definition buildUpdateInput (data : Model) : ServiceInstanceUpdateInput :=
  {| in_Source := buildSource data;
     in_RegistryCredentials :=
       if negb (String_.IsNull (RegistryCredentialsUser data))
          && negb (String_.IsNull (RegistryCredentialsPass data))
       then Some {| cred_Username :=
                      String_.ValueString (RegistryCredentialsUser data);
                    cred_Password :=
                      String_.ValueString (RegistryCredentialsPass data) |}
       else None;
     in_Builder :=
       if negb (String_.IsNull (Builder data))
       then Some (String_.ValueString (Builder data)) else None;
     in_BuildCommand :=
       if negb (String_.IsNull (BuildCommand data))
       then String_.ValueStringPointer (BuildCommand data) else None;
     in_StartCommand :=
       if negb (String_.IsNull (StartCommand data))
       then String_.ValueStringPointer (StartCommand data) else None;
     in_PreDeployCommand := buildPreDeployCommand data;
     in_HealthcheckPath :=
       if negb (String_.IsNull (HealthcheckPath data))
       then String_.ValueStringPointer (HealthcheckPath data) else None;
     in_HealthcheckTimeout :=
       if negb (Int64_.IsNull (HealthcheckTimeout data))
       then Some (int (Int64_.ValueInt64 (HealthcheckTimeout data)))
       else None;
     in_RestartPolicyType :=
       if negb (String_.IsNull (RestartPolicyType data))
       then Some (String_.ValueString (RestartPolicyType data)) else None;
     in_RestartPolicyMaxRetries :=
       if negb (Int64_.IsNull (RestartPolicyMaxRetries data))
       then Some (int (Int64_.ValueInt64 (RestartPolicyMaxRetries data)))
       else None;
     in_SleepApplication :=
       if negb (Bool_.IsNull (SleepApplication data))
       then Bool_.ValueBoolPointer (SleepApplication data) else None |}.

Definition fromPointer (p : option string) : String :=
  match p with
  | Some s => StringValue s
  | None => StringNull
  end.

(** The assignments [readServiceInstance] makes to [data] once the query
    has answered. *)
Definition applyObservation (instance : ServiceInstance) (data : Model)
  : Model :=
  {| Id := Id data;
     ServiceId := ServiceId data;
     EnvironmentId := EnvironmentId data;
     SourceImage :=
       match si_Source instance with
       | Some source => fromPointer (obs_Image source)
       | None => SourceImage data
       end;
     SourceRepo :=
       match si_Source instance with
       | Some source => fromPointer (obs_Repo source)
       | None => SourceRepo data
       end;
     RegistryCredentialsUser := RegistryCredentialsUser data;
     RegistryCredentialsPass := RegistryCredentialsPass data;
     Redeploy := Redeploy data;
     Builder := StringValue (si_Builder instance);
     BuildCommand := fromPointer (si_BuildCommand instance);
     StartCommand := fromPointer (si_StartCommand instance);
     PreDeployCommand :=
       if List_.IsUnknown (PreDeployCommand data) then ListNull
       else PreDeployCommand data;
     HealthcheckPath := fromPointer (si_HealthcheckPath instance);
     HealthcheckTimeout :=
       match si_HealthcheckTimeout instance with
       | Some t => Int64Value t
       | None => Int64Null
       end;
     RestartPolicyType := StringValue (si_RestartPolicyType instance);
     RestartPolicyMaxRetries :=
       Int64Value (si_RestartPolicyMaxRetries instance);
     SleepApplication :=
       match si_SleepApplication instance with
       | Some b => BoolValue b
       | None => BoolNull
       end |}.

(** [data] is a pointer the function writes through: the updated model is
    returned next to the error. *)
Definition readServiceInstance (client : Client) (data : Model)
  : Callback Model (result Model) :=
  let environmentId := String_.ValueString (EnvironmentId data) in
  let serviceId := String_.ValueString (ServiceId data) in
  answer <- invoke (getServiceInstanceForResource_ environmentId serviceId)
                   (getServiceInstanceForResource client
                      environmentId serviceId) ;;
  match answer with
  | Err err => ret (Err err)
  | Ok instance => ret (Ok (applyObservation instance data))
  end.

(** The part [Create] and [Update] share: the update, the optional
    redeployment, and (for [Create], in between) the composite id. *)
Definition updateAndRedeploy (client : Client) (data : Model)
  : Callback Model unit :=
  let input := buildUpdateInput data in
  let environmentId := String_.ValueString (EnvironmentId data) in
  let serviceId := String_.ValueString (ServiceId data) in
  answer <- invoke (updateServiceInstanceWithEnv_ environmentId serviceId input)
                   (updateServiceInstanceWithEnv client
                      environmentId serviceId input) ;;
  match answer with
  | Err err =>
      AddError "Client Error"
        ("Unable to update service instance, got error: " ++ err) ;;;
      exit
  | Ok _ =>
      Trace "updated service instance" ;;;
      if Bool_.ValueBool (Redeploy data) then
        answer <- invoke (redeployServiceInstanceWithEnv_
                            environmentId serviceId)
                         (redeployServiceInstanceWithEnv client
                            environmentId serviceId) ;;
        match answer with
        | Err err =>
            AddError "Client Error"
              ("Unable to redeploy service instance, got error: " ++ err) ;;;
            exit
        | Ok _ => Trace "redeployed service instance"
        end
      else ret tt
  end.

Definition readBack (client : Client) (data : Model) : Callback Model unit :=
  outcome <- readServiceInstance client data ;;
  match outcome with
  | Err err =>
      AddError "Client Error"
        ("Unable to read service instance, got error: " ++ err) ;;;
      exit
  | Ok data =>
      ds <- State_Set data ;;
      Append ds
  end.

Definition Create (client : Client) (plan : Stored Model)
  : Callback Model unit :=
  data <- Get plan ;;
  returnIfError ;;;
  updateAndRedeploy client data ;;;
  let data :=
    setId data
      (StringValue
         (IdentityCodec.encode
            (String_.ValueString (ServiceId data))
            (String_.ValueString (EnvironmentId data)))) in
  readBack client data.

Definition Read (client : Client) (state : Stored Model)
  : Callback Model unit :=
  data <- Get state ;;
  returnIfError ;;;
  readBack client data.

Definition Update (client : Client) (plan : Stored Model)
  : Callback Model unit :=
  data <- Get plan ;;
  returnIfError ;;;
  updateAndRedeploy client data ;;;
  readBack client data.

Definition Delete (client : Client) (state : Stored Model)
  : Callback Model unit :=
  Trace "service instance delete is a no-op - instances are managed by the parent service".

(** [resource.ImportStatePassthroughID(ctx, path.Root("id"), req, resp)]:
    a non-empty ID goes to [id] as it is, every other attribute stays
    null; an empty ID sets nothing. *)
Definition ImportState (reqID : string) : Callback Model unit :=
  if String.eqb reqID "" then ret tt
  else
    ds <- State_Set {| Id := StringValue reqID; ServiceId := StringNull;
                       EnvironmentId := StringNull; SourceImage := StringNull;
                       SourceRepo := StringNull;
                       RegistryCredentialsUser := StringNull;
                       RegistryCredentialsPass := StringNull;
                       Redeploy := BoolNull; Builder := StringNull;
                       BuildCommand := StringNull; StartCommand := StringNull;
                       PreDeployCommand := ListNull;
                       HealthcheckPath := StringNull;
                       HealthcheckTimeout := Int64Null;
                       RestartPolicyType := StringNull;
                       RestartPolicyMaxRetries := Int64Null;
                       SleepApplication := BoolNull |} ;;
    Append ds.

(** The remote system reports for the instance what the update input
    carried: the source, the commands, the healthcheck and the sleep
    flag. *)
Definition echoes (input : ServiceInstanceUpdateInput)
           (instance : ServiceInstance) : Prop :=
  si_Source instance
  = option_map (fun s => {| obs_Image := src_Image s;
                            obs_Repo := src_Repo s |})
      (in_Source input)
  /\ si_BuildCommand instance = in_BuildCommand input
  /\ si_StartCommand instance = in_StartCommand input
  /\ si_HealthcheckPath instance = in_HealthcheckPath input
  /\ si_HealthcheckTimeout instance = in_HealthcheckTimeout input
  /\ si_SleepApplication instance = in_SleepApplication input.

End ServiceInstanceResource.

(** ** Resource schemas *)

Inductive PlanModifier :=
| UseStateForUnknown
| RequiresReplace.

Inductive Validator :=
| UTF8LengthAtLeast (n : nat)
| RegexMatches_uuidRegex.

Record Attribute := {
  Required : bool;
  Optional : bool;
  Computed : bool;
  PlanModifiers : list PlanModifier;
  Validators : list Validator
}.

(** [map[string]schema.Attribute], in the order of the source. *)
Definition Schema_ := list (string * Attribute).

Definition isRequiresReplace (m : PlanModifier) : bool :=
  match m with RequiresReplace => true | UseStateForUnknown => false end.

Definition requiresReplace (a : Attribute) : bool :=
  existsb isRequiresReplace (PlanModifiers a).

Fixpoint attribute (s : Schema_) (name : string) : option Attribute :=
  match s with
  | [] => None
  | (n, a) :: rest => if String.eqb n name then Some a else attribute rest name
  end.

(** What the framework plans for an existing resource, from the names of
    the attributes whose planned value differs from the state's: the
    [RequiresReplace] modifier of any of them asks for replacement, and
    without such a request the resource is updated in place. *)
Definition replaceRequired (s : Schema_) (changed : list string) : bool :=
  existsb (fun name => match attribute s name with
                       | Some a => requiresReplace a
                       | None => false
                       end) changed.

(** The attributes a configuration may set. *)
Definition configurable (a : Attribute) : bool := Required a || Optional a.

Definition namesWhere (p : Attribute -> bool) (s : Schema_) : list string :=
  map fst (filter (fun na => p (snd na)) s).

(** ** [resource_private_network.go] *)

Module PrivateNetworkResource.
Import types.

Record PrivateNetworkResourceModel := {
  Id : String;
  Name : String;
  ProjectId : String;
  EnvironmentId : String;
  DnsName : String;
  Tags : List
}.

Definition Model := PrivateNetworkResourceModel.

Definition Schema : Schema_ :=
  [ ("id",
     {| Required := false; Optional := false; Computed := true;
        PlanModifiers := [UseStateForUnknown]; Validators := [] |});
    ("name",
     {| Required := true; Optional := false; Computed := false;
        PlanModifiers := [RequiresReplace];
        Validators := [UTF8LengthAtLeast 1] |});
    ("project_id",
     {| Required := true; Optional := false; Computed := false;
        PlanModifiers := [RequiresReplace];
        Validators := [RegexMatches_uuidRegex] |});
    ("environment_id",
     {| Required := true; Optional := false; Computed := false;
        PlanModifiers := [RequiresReplace];
        Validators := [RegexMatches_uuidRegex] |});
    ("dns_name",
     {| Required := false; Optional := false; Computed := true;
        PlanModifiers := []; Validators := [] |});
    ("tags",
     {| Required := false; Optional := true; Computed := false;
        PlanModifiers := []; Validators := [] |}) ].

Definition setTags (data : Model) (v : List) : Model :=
  {| Id := Id data; Name := Name data; ProjectId := ProjectId data;
     EnvironmentId := EnvironmentId data; DnsName := DnsName data;
     Tags := v |}.

(** The attributes on which a plan differs from the state. *)
Definition changedAttributes (state plan : Model) : list string :=
  map fst
    (filter (fun nd => snd nd)
       [ ("id", negb (String_.Equal (Id state) (Id plan)));
         ("name", negb (String_.Equal (Name state) (Name plan)));
         ("project_id",
          negb (String_.Equal (ProjectId state) (ProjectId plan)));
         ("environment_id",
          negb (String_.Equal (EnvironmentId state) (EnvironmentId plan)));
         ("dns_name", negb (String_.Equal (DnsName state) (DnsName plan)));
         ("tags", negb (List_.Equal (Tags state) (Tags plan))) ]).

(** [if len(network.Tags) > 0 { ... data.Tags = tagList }] *)
Definition updateTags (tags : list string) (data : Model)
  : Callback Model Model :=
  if (0 <? length tags)%nat then
    let (tagList, diags) := List_.ListValueFrom tags in
    Append diags ;;;
    returnIfError ;;;
    ret (setTags data tagList)
  else ret data.

(** [input := PrivateNetworkCreateOrGetInput{...}] *)
Definition createInput (data : Model) (tags : list string)
  : PrivateNetworkCreateOrGetInput :=
  {| pn_in_Name := String_.ValueString (Name data);
     pn_in_ProjectId := String_.ValueString (ProjectId data);
     pn_in_EnvironmentId := String_.ValueString (EnvironmentId data);
     pn_in_Tags := tags |}.

Definition Create (client : Client) (plan : Stored Model)
  : Callback Model unit :=
  data <- Get plan ;;
  returnIfError ;;;
  tags <- (if negb (List_.IsNull (Tags data)) then
             let (tags, diags) := List_.ElementsAs (Tags data) in
             Append diags ;;;
             returnIfError ;;;
             ret tags
           else ret []) ;;
  let input := createInput data tags in
  answer <- invoke (createOrGetPrivateNetwork_ input)
                   (createOrGetPrivateNetwork client input) ;;
  match answer with
  | Err err =>
      AddError "Client Error"
        ("Unable to create private network, got error: " ++ err) ;;;
      exit
  | Ok network =>
      Trace "created private network" ;;;
      let data :=
        {| Id := StringValue (pn_PublicId network);
           Name := Name data; ProjectId := ProjectId data;
           EnvironmentId := EnvironmentId data;
           DnsName := StringValue (pn_DnsName network);
           Tags := Tags data |} in
      data <- updateTags (pn_Tags network) data ;;
      ds <- State_Set data ;;
      Append ds
  end.

(** The loop of [Read] over [response.PrivateNetworks]: it yields [found]
    and the model as the first network with the stored id left it. *)
Fixpoint findNetwork (networks : list PrivateNetwork) (data : Model)
  : Callback Model (bool * Model) :=
  match networks with
  | [] => ret (false, data)
  | network :: rest =>
      if String.eqb (pn_PublicId network) (String_.ValueString (Id data))
      then
        let data :=
          {| Id := Id data;
             Name := StringValue (pn_Name network);
             ProjectId := StringValue (pn_ProjectId network);
             EnvironmentId := StringValue (pn_EnvironmentId network);
             DnsName := StringValue (pn_DnsName network);
             Tags := Tags data |} in
        data <- updateTags (pn_Tags network) data ;;
        ret (true, data)
      else findNetwork rest data
  end.

(** The test of the loop, for statements about the network it stops at. *)
Definition hasId (data : Model) (network : PrivateNetwork) : bool :=
  String.eqb (pn_PublicId network) (String_.ValueString (Id data)).

Definition Read (client : Client) (state : Stored Model)
  : Callback Model unit :=
  data <- Get state ;;
  returnIfError ;;;
  let environmentId := String_.ValueString (EnvironmentId data) in
  answer <- invoke (getPrivateNetworks_ environmentId)
                   (getPrivateNetworks client environmentId) ;;
  match answer with
  | Err err =>
      AddError "Client Error"
        ("Unable to read private networks, got error: " ++ err) ;;;
      exit
  | Ok networks =>
      fd <- findNetwork networks data ;;
      let (found, data) := (fd : bool * Model) in
      if negb found then
        State_RemoveResource ;;;
        exit
      else
        ds <- State_Set data ;;
        Append ds
  end.

Definition Update (client : Client) (plan state : Stored Model)
  : Callback Model unit :=
  AddError "Update Not Supported"
    "Private networks cannot be updated. Changes require replacement.".

Definition Delete (client : Client) (state : Stored Model)
  : Callback Model unit :=
  data <- Get state ;;
  returnIfError ;;;
  let environmentId := String_.ValueString (EnvironmentId data) in
  answer <- invoke (deletePrivateNetworksForEnvironment_ environmentId)
                   (deletePrivateNetworksForEnvironment client environmentId) ;;
  match answer with
  | Err err =>
      AddError "Client Error"
        ("Unable to delete private network, got error: " ++ err) ;;;
      exit
  | Ok _ => Trace "deleted private network"
  end.

End PrivateNetworkResource.

(** ** [resource_private_network_endpoint.go] *)

Module PrivateNetworkEndpointResource.
Import types.

Record PrivateNetworkEndpointResourceModel := {
  Id : String;
  PrivateNetworkId : String;
  ServiceId : String;
  EnvironmentId : String;
  ServiceName : String;
  DnsName : String;
  PrivateIps : List;
  Tags : List
}.

Definition Model := PrivateNetworkEndpointResourceModel.

Definition setId (data : Model) (v : String) : Model :=
  {| Id := v; PrivateNetworkId := PrivateNetworkId data;
     ServiceId := ServiceId data; EnvironmentId := EnvironmentId data;
     ServiceName := ServiceName data; DnsName := DnsName data;
     PrivateIps := PrivateIps data; Tags := Tags data |}.

Definition setDnsName (data : Model) (v : String) : Model :=
  {| Id := Id data; PrivateNetworkId := PrivateNetworkId data;
     ServiceId := ServiceId data; EnvironmentId := EnvironmentId data;
     ServiceName := ServiceName data; DnsName := v;
     PrivateIps := PrivateIps data; Tags := Tags data |}.

Definition setPrivateIps (data : Model) (v : List) : Model :=
  {| Id := Id data; PrivateNetworkId := PrivateNetworkId data;
     ServiceId := ServiceId data; EnvironmentId := EnvironmentId data;
     ServiceName := ServiceName data; DnsName := DnsName data;
     PrivateIps := v; Tags := Tags data |}.

Definition setTags (data : Model) (v : List) : Model :=
  {| Id := Id data; PrivateNetworkId := PrivateNetworkId data;
     ServiceId := ServiceId data; EnvironmentId := EnvironmentId data;
     ServiceName := ServiceName data; DnsName := DnsName data;
     PrivateIps := PrivateIps data; Tags := v |}.

Definition Schema : Schema_ :=
  [ ("id",
     {| Required := false; Optional := false; Computed := true;
        PlanModifiers := [UseStateForUnknown]; Validators := [] |});
    ("private_network_id",
     {| Required := true; Optional := false; Computed := false;
        PlanModifiers := [RequiresReplace];
        Validators := [UTF8LengthAtLeast 1] |});
    ("service_id",
     {| Required := true; Optional := false; Computed := false;
        PlanModifiers := [RequiresReplace];
        Validators := [RegexMatches_uuidRegex] |});
    ("environment_id",
     {| Required := true; Optional := false; Computed := false;
        PlanModifiers := [RequiresReplace];
        Validators := [RegexMatches_uuidRegex] |});
    ("service_name",
     {| Required := true; Optional := false; Computed := false;
        PlanModifiers := [RequiresReplace];
        Validators := [UTF8LengthAtLeast 1] |});
    ("dns_name",
     {| Required := false; Optional := false; Computed := true;
        PlanModifiers := []; Validators := [] |});
    ("private_ips",
     {| Required := false; Optional := false; Computed := true;
        PlanModifiers := []; Validators := [] |});
    ("tags",
     {| Required := false; Optional := true; Computed := false;
        PlanModifiers := []; Validators := [] |}) ].

(** The attributes on which a plan differs from the state. *)
Definition changedAttributes (state plan : Model) : list string :=
  map fst
    (filter (fun nd => snd nd)
       [ ("id", negb (String_.Equal (Id state) (Id plan)));
         ("private_network_id",
          negb (String_.Equal (PrivateNetworkId state)
                              (PrivateNetworkId plan)));
         ("service_id",
          negb (String_.Equal (ServiceId state) (ServiceId plan)));
         ("environment_id",
          negb (String_.Equal (EnvironmentId state) (EnvironmentId plan)));
         ("service_name",
          negb (String_.Equal (ServiceName state) (ServiceName plan)));
         ("dns_name", negb (String_.Equal (DnsName state) (DnsName plan)));
         ("private_ips",
          negb (List_.Equal (PrivateIps state) (PrivateIps plan)));
         ("tags", negb (List_.Equal (Tags state) (Tags plan))) ]).

(** [if len(ips) > 0 { ... data.PrivateIps = ipList } else
    { data.PrivateIps = types.ListNull(types.StringType) }] *)
Definition updatePrivateIps (n : nat) (ips : list string) (data : Model)
  : Callback Model Model :=
  if (0 <? n)%nat then
    let (ipList, diags) := List_.ListValueFrom ips in
    Append diags ;;;
    returnIfError ;;;
    ret (setPrivateIps data ipList)
  else ret (setPrivateIps data ListNull).

(** [if len(tags) > 0 { ... data.Tags = tagList }] *)
Definition updateTags (n : nat) (tags : list string) (data : Model)
  : Callback Model Model :=
  if (0 <? n)%nat then
    let (tagList, diags) := List_.ListValueFrom tags in
    Append diags ;;;
    returnIfError ;;;
    ret (setTags data tagList)
  else ret data.

Definition Create (client : Client) (plan : Stored Model)
  : Callback Model unit :=
  data <- Get plan ;;
  returnIfError ;;;
  tags <- (if negb (List_.IsNull (Tags data)) then
             let (tags, diags) := List_.ElementsAs (Tags data) in
             Append diags ;;;
             returnIfError ;;;
             ret tags
           else ret []) ;;
  let input :=
    {| ep_in_PrivateNetworkId := String_.ValueString (PrivateNetworkId data);
       ep_in_ServiceId := String_.ValueString (ServiceId data);
       ep_in_EnvironmentId := String_.ValueString (EnvironmentId data);
       ep_in_ServiceName := String_.ValueString (ServiceName data);
       ep_in_Tags := tags |} in
  answer <- invoke (createOrGetPrivateNetworkEndpoint_ input)
                   (createOrGetPrivateNetworkEndpoint client input) ;;
  match answer with
  | Err err =>
      AddError "Client Error"
        ("Unable to create private network endpoint, got error: " ++ err) ;;;
      exit
  | Ok endpoint =>
      Trace "created private network endpoint" ;;;
      let data := setId data (StringValue (cep_PublicId endpoint)) in
      let data := setDnsName data (StringValue (cep_DnsName endpoint)) in
      data <- updatePrivateIps (length (cep_PrivateIps endpoint))
                (cep_PrivateIps endpoint) data ;;
      data <- updateTags (length (cep_Tags endpoint))
                (cep_Tags endpoint) data ;;
      ds <- State_Set data ;;
      Append ds
  end.

(** The conversion of a [[]*string] to a [[]string]: nil entries are
    skipped. *)
Fixpoint nonNil (ps : list (option string)) : list string :=
  match ps with
  | [] => []
  | Some s :: rest => s :: nonNil rest
  | None :: rest => nonNil rest
  end.

Definition Read (client : Client) (state : Stored Model)
  : Callback Model unit :=
  data <- Get state ;;
  returnIfError ;;;
  let envId := String_.ValueString (EnvironmentId data) in
  let networkId := String_.ValueString (PrivateNetworkId data) in
  let serviceId := String_.ValueString (ServiceId data) in
  answer <- invoke (getPrivateNetworkEndpoint_ envId networkId serviceId)
                   (getPrivateNetworkEndpoint client
                      envId networkId serviceId) ;;
  match answer with
  | Err err =>
      AddError "Client Error"
        ("Unable to read private network endpoint, got error: " ++ err) ;;;
      exit
  | Ok None =>
      State_RemoveResource ;;;
      exit
  | Ok (Some endpoint) =>
      let data :=
        match oep_PublicId endpoint with
        | Some id => setId data (StringValue id)
        | None => data
        end in
      let data :=
        match oep_DnsName endpoint with
        | Some dns => setDnsName data (StringValue dns)
        | None => data
        end in
      data <- updatePrivateIps (length (oep_PrivateIps endpoint))
                (nonNil (oep_PrivateIps endpoint)) data ;;
      data <- updateTags (length (oep_Tags endpoint))
                (nonNil (oep_Tags endpoint)) data ;;
      ds <- State_Set data ;;
      Append ds
  end.

Definition Update (client : Client) (plan state : Stored Model)
  : Callback Model unit :=
  AddError "Update Not Supported"
    "Private network endpoints cannot be updated. Changes require replacement.".

Definition Delete (client : Client) (state : Stored Model)
  : Callback Model unit :=
  data <- Get state ;;
  returnIfError ;;;
  let id := String_.ValueString (Id data) in
  answer <- invoke (deletePrivateNetworkEndpoint_ id)
                   (deletePrivateNetworkEndpoint client id) ;;
  match answer with
  | Err err =>
      AddError "Client Error"
        ("Unable to delete private network endpoint, got error: " ++ err) ;;;
      exit
  | Ok _ => Trace "deleted private network endpoint"
  end.

End PrivateNetworkEndpointResource.

(** ** Data sources

    [data_source_project.go], [data_source_service.go] and the environment
    data source. Their queries are generated code, as the client of the
    resources; the record of remote calls is kept for the operations of
    the resources, a query of a data source only gives its answer. *)

Record Project := {
  proj_Name : string;
  proj_Description : string;
  proj_IsPublic : bool;
  proj_PrDeploys : bool;
  (** [project.Workspace], with its [Id] *)
  proj_Workspace : option string;
  (** [project.Environments.Edges], each with its [Node.Id] *)
  proj_Environments : list string
}.

Record Service := {
  svc_Name : string;
  svc_ProjectId : string
}.

Record Environment := {
  env_Name : string;
  env_ProjectId : string
}.

Record DataSourceClient := {
  getProject : string -> result Project;
  getService : string -> result Service;
  getEnvironment : string -> result Environment
}.

Definition ask {M A} (answer : result A) : Callback M (result A) :=
  ret answer.

Module ProjectDataSource.
Import types.

Record ProjectDataSourceModel := {
  Id : String;
  Name : String;
  Description : String;
  IsPublic : Bool;
  HasPrDeploys : Bool;
  WorkspaceId : String;
  DefaultEnvironment : String
}.

Definition Model := ProjectDataSourceModel.

Definition Metadata (ProviderTypeName : string) : string :=
  ProviderTypeName ++ "_project".

Definition Read (client : DataSourceClient) (config : Stored Model)
  : Callback Model unit :=
  data <- Get config ;;
  returnIfError ;;;
  answer <- ask (getProject client (String_.ValueString (Id data))) ;;
  match answer with
  | Err err =>
      AddError "Client Error"
        ("Unable to read project, got error: " ++ err) ;;;
      exit
  | Ok project =>
      let data :=
        {| Id := Id data;
           Name := StringValue (proj_Name project);
           Description := StringValue (proj_Description project);
           IsPublic := BoolValue (proj_IsPublic project);
           HasPrDeploys := BoolValue (proj_PrDeploys project);
           WorkspaceId :=
             match proj_Workspace project with
             | Some id => StringValue id
             | None => StringNull
             end;
           DefaultEnvironment :=
             if (0 <? length (proj_Environments project))%nat
             then StringValue (nth 0 (proj_Environments project) "")
             else StringNull |} in
      ds <- State_Set data ;;
      Append ds
  end.

End ProjectDataSource.

Module ServiceDataSource.
Import types.

Record ServiceDataSourceModel := {
  Id : String;
  Name : String;
  ProjectId : String
}.

Definition Model := ServiceDataSourceModel.

Definition Metadata (ProviderTypeName : string) : string :=
  ProviderTypeName ++ "_service".

Definition Read (client : DataSourceClient) (config : Stored Model)
  : Callback Model unit :=
  data <- Get config ;;
  returnIfError ;;;
  answer <- ask (getService client (String_.ValueString (Id data))) ;;
  match answer with
  | Err err =>
      AddError "Client Error"
        ("Unable to read service, got error: " ++ err) ;;;
      exit
  | Ok service =>
      let data :=
        {| Id := Id data;
           Name := StringValue (svc_Name service);
           ProjectId := StringValue (svc_ProjectId service) |} in
      ds <- State_Set data ;;
      Append ds
  end.

End ServiceDataSource.

Module EnvironmentDataSource.
Import types.

Record EnvironmentDataSourceModel := {
  Id : String;
  Name : String;
  ProjectId : String
}.

Definition Model := EnvironmentDataSourceModel.

Definition Metadata (ProviderTypeName : string) : string :=
  ProviderTypeName ++ "_environment".

Definition Read (client : DataSourceClient) (config : Stored Model)
  : Callback Model unit :=
  data <- Get config ;;
  returnIfError ;;;
  answer <- ask (getEnvironment client (String_.ValueString (Id data))) ;;
  match answer with
  | Err err =>
      AddError "Client Error"
        ("Unable to read environment, got error: " ++ err) ;;;
      exit
  | Ok environment =>
      let data :=
        {| Id := Id data;
           Name := StringValue (env_Name environment);
           ProjectId := StringValue (env_ProjectId environment) |} in
      ds <- State_Set data ;;
      Append ds
  end.

End EnvironmentDataSource.

(** ** Type names

    [Metadata] of the four resources. *)

Definition ServiceLimits_Metadata (ProviderTypeName : string) : string :=
  ProviderTypeName ++ "_service_limits".

Definition ServiceInstance_Metadata (ProviderTypeName : string) : string :=
  ProviderTypeName ++ "_service_instance".

Definition PrivateNetwork_Metadata (ProviderTypeName : string) : string :=
  ProviderTypeName ++ "_private_network".

Definition PrivateNetworkEndpoint_Metadata (ProviderTypeName : string)
  : string :=
  ProviderTypeName ++ "_private_network_endpoint".

(** ** Fault discipline of a callback

    What a callback may do to the response once the remote system is
    involved, stated on computations so that it composes along [bind]. *)

Definition faultFree {M} (r : Resp M) : Prop := remoteFault r = false.

(** [c] ends the callback: it returns early, leaves an error among the
    diagnostics and touches neither the state nor the remote system. *)
Definition fails {M A} (c : Callback M A) : Prop :=
  forall r,
    fst (c r) = None
    /\ HasError (Diagnostics_ (snd (c r))) = true
    /\ State (snd (c r)) = State r
    /\ remote (snd (c r)) = remote r.

(** [c] asks nothing of the remote system. *)
Definition quiet {M A} (c : Callback M A) : Prop :=
  forall r, remote (snd (c r)) = remote r.

(** [c] never writes the state, goes on only while no remote call failed,
    and has an error among the diagnostics when it stops on a failed one. *)
Definition guarded {M A} (c : Callback M A) : Prop :=
  forall r,
    faultFree r ->
    State (snd (c r)) = State r
    /\ match fst (c r) with
       | Some _ => faultFree (snd (c r))
       | None =>
           remoteFault (snd (c r)) = true ->
           HasError (Diagnostics_ (snd (c r))) = true
       end.

(** A failed remote call during [c] leaves an error among the diagnostics
    and the state as [c] found it. *)
Definition atomic {M A} (c : Callback M A) : Prop :=
  forall r,
    faultFree r ->
    remoteFault (snd (c r)) = true ->
    HasError (Diagnostics_ (snd (c r))) = true
    /\ State (snd (c r)) = State r.

(** ** Error discipline of a callback

    When a callback may write the state, relative to the errors among the
    diagnostics. *)

Definition errorFree {M} (r : Resp M) : Prop :=
  HasError (Diagnostics_ r) = false.

(** [c] goes on only without an error among the diagnostics and without
    having written the state; when it stops on an error, the state is as it
    found it. *)
Definition careful {M A} (c : Callback M A) : Prop :=
  forall r,
    errorFree r ->
    match fst (c r) with
    | Some _ => errorFree (snd (c r)) /\ State (snd (c r)) = State r
    | None =>
        HasError (Diagnostics_ (snd (c r))) = true ->
        State (snd (c r)) = State r
    end.

(** A run of [c] that ends with an error among the diagnostics left the
    state as it found it. *)
Definition errorKeepsState {M A} (c : Callback M A) : Prop :=
  forall r,
    errorFree r ->
    HasError (Diagnostics_ (snd (c r))) = true ->
    State (snd (c r)) = State r.

(** The response of a run that ended in the decoding of its plan or
    state: the diagnostics of the decoding and nothing else. *)
Definition stopped {M} (v : Stored M) (prior : option M) : Resp M :=
  {| Diagnostics_ := GetDiagnostics v; State := prior;
     remote := []; tflog := [] |}.

(** ** Sample remote systems and states

    Concrete clients and stored values on which the callbacks are run. *)

Definition sampleNetwork (id : string) (tags : list string) : PrivateNetwork :=
  {| pn_PublicId := id; pn_Name := "internal"; pn_DnsName := "internal.railway";
     pn_ProjectId := "p1"; pn_EnvironmentId := "e1"; pn_Tags := tags |}.

Definition sampleInstance : ServiceInstance :=
  {| si_Source := None; si_Builder := "NIXPACKS"; si_BuildCommand := None;
     si_StartCommand := None; si_HealthcheckPath := None;
     si_HealthcheckTimeout := None; si_RestartPolicyType := "ON_FAILURE";
     si_RestartPolicyMaxRetries := 3%Z; si_SleepApplication := None |}.

(** A remote system that accepts every mutation, lists the given networks
    and knows no endpoint. *)
Definition clientListing (networks : list PrivateNetwork) : Client :=
  {| createOrGetPrivateNetwork :=
       fun input => Ok (sampleNetwork "net-1" []);
     getPrivateNetworks := fun _ => Ok networks;
     deletePrivateNetworksForEnvironment := fun _ => Ok true;
     createOrGetPrivateNetworkEndpoint :=
       fun _ => Ok {| cep_PublicId := "ep-1"; cep_DnsName := "api.internal";
                      cep_PrivateIps := []; cep_Tags := [] |};
     getPrivateNetworkEndpoint := fun _ _ _ => Ok None;
     deletePrivateNetworkEndpoint := fun _ => Ok true;
     updateServiceInstanceLimits := fun _ => Ok true;
     updateServiceInstanceWithEnv := fun _ _ _ => Ok true;
     redeployServiceInstanceWithEnv := fun _ _ => Ok true;
     getServiceInstanceForResource := fun _ _ => Ok sampleInstance |}.

(** A remote system that refuses every operation. *)
Definition clientRefusing : Client :=
  {| createOrGetPrivateNetwork := fun _ => Err "unavailable";
     getPrivateNetworks := fun _ => Err "unavailable";
     deletePrivateNetworksForEnvironment := fun _ => Err "unavailable";
     createOrGetPrivateNetworkEndpoint := fun _ => Err "unavailable";
     getPrivateNetworkEndpoint := fun _ _ _ => Err "unavailable";
     deletePrivateNetworkEndpoint := fun _ => Err "unavailable";
     updateServiceInstanceLimits := fun _ => Err "unavailable";
     updateServiceInstanceWithEnv := fun _ _ _ => Err "unavailable";
     redeployServiceInstanceWithEnv := fun _ _ => Err "unavailable";
     getServiceInstanceForResource := fun _ _ => Err "unavailable" |}.

(** A remote system that takes the update of a service instance and then
    refuses its redeployment. *)
Definition clientRedeployRefused : Client :=
  {| createOrGetPrivateNetwork := createOrGetPrivateNetwork (clientListing []);
     getPrivateNetworks := getPrivateNetworks (clientListing []);
     deletePrivateNetworksForEnvironment :=
       deletePrivateNetworksForEnvironment (clientListing []);
     createOrGetPrivateNetworkEndpoint :=
       createOrGetPrivateNetworkEndpoint (clientListing []);
     getPrivateNetworkEndpoint := getPrivateNetworkEndpoint (clientListing []);
     deletePrivateNetworkEndpoint :=
       deletePrivateNetworkEndpoint (clientListing []);
     updateServiceInstanceLimits :=
       updateServiceInstanceLimits (clientListing []);
     updateServiceInstanceWithEnv := fun _ _ _ => Ok true;
     redeployServiceInstanceWithEnv := fun _ _ => Err "deploy queue full";
     getServiceInstanceForResource :=
       getServiceInstanceForResource (clientListing []) |}.

(** A remote system that knows the endpoint, without id, with one nil
    tag and no private IP. *)
Definition clientNilTag : Client :=
  {| createOrGetPrivateNetwork := createOrGetPrivateNetwork (clientListing []);
     getPrivateNetworks := getPrivateNetworks (clientListing []);
     deletePrivateNetworksForEnvironment :=
       deletePrivateNetworksForEnvironment (clientListing []);
     createOrGetPrivateNetworkEndpoint :=
       createOrGetPrivateNetworkEndpoint (clientListing []);
     getPrivateNetworkEndpoint :=
       fun _ _ _ => Ok (Some {| oep_PublicId := None;
                                oep_DnsName := Some "api.internal";
                                oep_PrivateIps := [];
                                oep_Tags := [None] |});
     deletePrivateNetworkEndpoint :=
       deletePrivateNetworkEndpoint (clientListing []);
     updateServiceInstanceLimits :=
       updateServiceInstanceLimits (clientListing []);
     updateServiceInstanceWithEnv :=
       updateServiceInstanceWithEnv (clientListing []);
     redeployServiceInstanceWithEnv :=
       redeployServiceInstanceWithEnv (clientListing []);
     getServiceInstanceForResource :=
       getServiceInstanceForResource (clientListing []) |}.

Definition stored {M} (m : M) : Stored M :=
  {| Raw := m; GetDiagnostics := [] |}.

Definition sampleNetworkModel (id : string) (tags : types.List)
  : PrivateNetworkResource.Model :=
  {| PrivateNetworkResource.Id := types.StringValue id;
     PrivateNetworkResource.Name := types.StringValue "internal";
     PrivateNetworkResource.ProjectId := types.StringValue "p1";
     PrivateNetworkResource.EnvironmentId := types.StringValue "e1";
     PrivateNetworkResource.DnsName := types.StringValue "internal.railway";
     PrivateNetworkResource.Tags := tags |}.

Definition sampleEndpointModel : PrivateNetworkEndpointResource.Model :=
  {| PrivateNetworkEndpointResource.Id := types.StringValue "ep-1";
     PrivateNetworkEndpointResource.PrivateNetworkId := types.StringValue "net-1";
     PrivateNetworkEndpointResource.ServiceId := types.StringValue "s1";
     PrivateNetworkEndpointResource.EnvironmentId := types.StringValue "e1";
     PrivateNetworkEndpointResource.ServiceName := types.StringValue "api";
     PrivateNetworkEndpointResource.DnsName := types.StringValue "api.internal";
     PrivateNetworkEndpointResource.PrivateIps := types.ListNull;
     PrivateNetworkEndpointResource.Tags := types.ListNull |}.

Definition sampleLimitsModel : ServiceLimitsResource.Model :=
  {| ServiceLimitsResource.Id := types.StringValue "s1:e1";
     ServiceLimitsResource.ServiceId := types.StringValue "s1";
     ServiceLimitsResource.EnvironmentId := types.StringValue "e1";
     ServiceLimitsResource.MemoryGB := types.Float64Value 2%float;
     ServiceLimitsResource.VCPUs := types.Float64Null |}.

Definition sampleInstanceModel (redeploy : bool)
  : ServiceInstanceResource.Model :=
  {| ServiceInstanceResource.Id := types.StringValue "s1:e1";
     ServiceInstanceResource.ServiceId := types.StringValue "s1";
     ServiceInstanceResource.EnvironmentId := types.StringValue "e1";
     ServiceInstanceResource.SourceImage :=
       types.StringValue "ghcr.io/myorg/api:v1.2.3";
     ServiceInstanceResource.SourceRepo := types.StringNull;
     ServiceInstanceResource.RegistryCredentialsUser := types.StringNull;
     ServiceInstanceResource.RegistryCredentialsPass := types.StringNull;
     ServiceInstanceResource.Redeploy := types.BoolValue redeploy;
     ServiceInstanceResource.Builder := types.StringNull;
     ServiceInstanceResource.BuildCommand := types.StringNull;
     ServiceInstanceResource.StartCommand :=
       types.StringValue "npm run start:prod";
     ServiceInstanceResource.PreDeployCommand :=
       types.ListValue [types.StringValue "npm run db:migrate"];
     ServiceInstanceResource.HealthcheckPath := types.StringValue "/health";
     ServiceInstanceResource.HealthcheckTimeout := types.Int64Value 60%Z;
     ServiceInstanceResource.RestartPolicyType := types.StringNull;
     ServiceInstanceResource.RestartPolicyMaxRetries := types.Int64Null;
     ServiceInstanceResource.SleepApplication := types.BoolNull |}.

(** The answer of a remote system that took the update built from
    [sampleInstanceModel]. *)
Definition sampleEcho : ServiceInstance :=
  {| si_Source := Some {| obs_Image := Some "ghcr.io/myorg/api:v1.2.3";
                          obs_Repo := None |};
     si_Builder := "NIXPACKS"; si_BuildCommand := None;
     si_StartCommand := Some "npm run start:prod";
     si_HealthcheckPath := Some "/health";
     si_HealthcheckTimeout := Some 60%Z;
     si_RestartPolicyType := "ON_FAILURE";
     si_RestartPolicyMaxRetries := 3%Z; si_SleepApplication := None |}.

(** A remote system that accepts every mutation and reports [sampleEcho]
    for every instance. *)
Definition clientEchoing : Client :=
  {| createOrGetPrivateNetwork := createOrGetPrivateNetwork (clientListing []);
     getPrivateNetworks := getPrivateNetworks (clientListing []);
     deletePrivateNetworksForEnvironment :=
       deletePrivateNetworksForEnvironment (clientListing []);
     createOrGetPrivateNetworkEndpoint :=
       createOrGetPrivateNetworkEndpoint (clientListing []);
     getPrivateNetworkEndpoint := getPrivateNetworkEndpoint (clientListing []);
     deletePrivateNetworkEndpoint :=
       deletePrivateNetworkEndpoint (clientListing []);
     updateServiceInstanceLimits :=
       updateServiceInstanceLimits (clientListing []);
     updateServiceInstanceWithEnv :=
       updateServiceInstanceWithEnv (clientListing []);
     redeployServiceInstanceWithEnv :=
       redeployServiceInstanceWithEnv (clientListing []);
     getServiceInstanceForResource := fun _ _ => Ok sampleEcho |}.

(** A plan whose second pre-deploy command is not known yet. *)
Definition sampleUnknownCommand : ServiceInstanceResource.Model :=
  {| ServiceInstanceResource.Id := types.StringValue "s1:e1";
     ServiceInstanceResource.ServiceId := types.StringValue "s1";
     ServiceInstanceResource.EnvironmentId := types.StringValue "e1";
     ServiceInstanceResource.SourceImage := types.StringNull;
     ServiceInstanceResource.SourceRepo := types.StringNull;
     ServiceInstanceResource.RegistryCredentialsUser := types.StringNull;
     ServiceInstanceResource.RegistryCredentialsPass := types.StringNull;
     ServiceInstanceResource.Redeploy := types.BoolValue false;
     ServiceInstanceResource.Builder := types.StringNull;
     ServiceInstanceResource.BuildCommand := types.StringNull;
     ServiceInstanceResource.StartCommand := types.StringNull;
     ServiceInstanceResource.PreDeployCommand :=
       types.ListValue [types.StringValue "npm run db:migrate";
                        types.StringUnknown];
     ServiceInstanceResource.HealthcheckPath := types.StringNull;
     ServiceInstanceResource.HealthcheckTimeout := types.Int64Null;
     ServiceInstanceResource.RestartPolicyType := types.StringNull;
     ServiceInstanceResource.RestartPolicyMaxRetries := types.Int64Null;
     ServiceInstanceResource.SleepApplication := types.BoolNull |}.

Definition sampleProject (environments : list string) : Project :=
  {| proj_Name := "my-project"; proj_Description := "";
     proj_IsPublic := false; proj_PrDeploys := true;
     proj_Workspace := None; proj_Environments := environments |}.

Definition dataClient (environments : list string) : DataSourceClient :=
  {| getProject := fun _ => Ok (sampleProject environments);
     getService := fun _ => Err "service not found";
     getEnvironment :=
       fun _ => Ok {| env_Name := "production"; env_ProjectId := "p1" |} |}.

Definition projectConfig : ProjectDataSource.Model :=
  {| ProjectDataSource.Id := types.StringValue "p1";
     ProjectDataSource.Name := types.StringNull;
     ProjectDataSource.Description := types.StringNull;
     ProjectDataSource.IsPublic := types.BoolNull;
     ProjectDataSource.HasPrDeploys := types.BoolNull;
     ProjectDataSource.WorkspaceId := types.StringNull;
     ProjectDataSource.DefaultEnvironment := types.StringNull |}.

(** The plan [Create] receives for a configuration that sets the service,
    the environment and the image only: [redeploy] has its default, the
    computed attributes without default are unknown, the rest is null. *)
Definition sampleOmittedComputed : ServiceInstanceResource.Model :=
  {| ServiceInstanceResource.Id := types.StringUnknown;
     ServiceInstanceResource.ServiceId := types.StringValue "s1";
     ServiceInstanceResource.EnvironmentId := types.StringValue "e1";
     ServiceInstanceResource.SourceImage :=
       types.StringValue "ghcr.io/myorg/api:v1.2.3";
     ServiceInstanceResource.SourceRepo := types.StringNull;
     ServiceInstanceResource.RegistryCredentialsUser := types.StringNull;
     ServiceInstanceResource.RegistryCredentialsPass := types.StringNull;
     ServiceInstanceResource.Redeploy := types.BoolValue true;
     ServiceInstanceResource.Builder := types.StringUnknown;
     ServiceInstanceResource.BuildCommand := types.StringNull;
     ServiceInstanceResource.StartCommand := types.StringNull;
     ServiceInstanceResource.PreDeployCommand := types.ListNull;
     ServiceInstanceResource.HealthcheckPath := types.StringNull;
     ServiceInstanceResource.HealthcheckTimeout := types.Int64Null;
     ServiceInstanceResource.RestartPolicyType := types.StringUnknown;
     ServiceInstanceResource.RestartPolicyMaxRetries := types.Int64Unknown;
     ServiceInstanceResource.SleepApplication := types.BoolNull |}.

(** * Properties *)

(** ** The identity codec *)

Section Codec.
Import IdentityCodec.

(** A token is read up to its first delimiter in one way only. *)
Lemma encode_injective (a b a' b' : string) :
  contains delimiter a = false ->
  contains delimiter a' = false ->
  encode a b = encode a' b' ->
  a = a' /\ b = b'.
Proof.
  unfold encode. revert a'.
  induction a as [|x a IH]; intros [|x' a']; simpl.
  - intros _ _ Heq. injection Heq as ->. split; reflexivity.
  - intros _ Hfree' Heq. injection Heq as <- _.
    rewrite Ascii.eqb_refl in Hfree'. discriminate.
  - intros Hfree _ Heq. injection Heq as -> _.
    rewrite Ascii.eqb_refl in Hfree. discriminate.
  - intros Hfree Hfree' Heq. injection Heq as -> Heq.
    destruct (Ascii.eqb x' delimiter); [discriminate|].
    destruct (IH a' Hfree Hfree' Heq) as [-> ->]. split; reflexivity.
Qed.

End Codec.

(** C1, as stated, fails on both counts. The decoding done on import is
    [ImportState], which hands the token of two UUIDs to [id] and leaves
    the components null instead of returning the tuple; and two distinct
    tuples of strings share one token as soon as a component holds the
    delimiter. *)
Lemma C1_import_returns_no_tuple_and_encode_collides :
  (let token :=
     IdentityCodec.encode "0f8fad5b-d9cb-469f-a165-70867728950e"
                          "7c9e6679-7425-40de-944b-e07fc1f90ae7" in
   option_map ServiceLimitsResource.ServiceId
     (State (run None (ServiceLimitsResource.ImportState token)))
   = Some types.StringNull
   /\ option_map ServiceLimitsResource.EnvironmentId
        (State (run None (ServiceLimitsResource.ImportState token)))
      = Some types.StringNull
   /\ option_map ServiceInstanceResource.ServiceId
        (State (run None (ServiceInstanceResource.ImportState token)))
      = Some types.StringNull
   /\ option_map ServiceInstanceResource.EnvironmentId
        (State (run None (ServiceInstanceResource.ImportState token)))
      = Some types.StringNull)
  /\ IdentityCodec.encode "a:b" "c" = IdentityCodec.encode "a" "b:c"
  /\ ("a:b", "c") <> ("a", "b:c").
Proof.
  split; [repeat split; reflexivity|].
  split; [reflexivity|]. intros H; discriminate H.
Qed.

(** C1, amended: over tuples whose service id holds no [":"] (the schema
    admits only UUIDs for both components) the encoding is injective: two
    tuples with the same token are the same tuple. *)
Theorem C1_encode_injective_delimiter_free (a b a' b' : string) :
  IdentityCodec.contains IdentityCodec.delimiter a = false ->
  IdentityCodec.contains IdentityCodec.delimiter a' = false ->
  IdentityCodec.encode a b = IdentityCodec.encode a' b' ->
  (a, b) = (a', b').
Proof.
  intros Ha Ha' Heq.
  destruct (encode_injective a b a' b' Ha Ha' Heq) as [-> ->].
  reflexivity.
Qed.

Lemma C1_encode_injective_witness :
  ("0f8fad5b-d9cb-469f-a165-70867728950e",
   "7c9e6679-7425-40de-944b-e07fc1f90ae7")
  = ("0f8fad5b-d9cb-469f-a165-70867728950e",
     "7c9e6679-7425-40de-944b-e07fc1f90ae7").
Proof.
  apply (C1_encode_injective_delimiter_free
           "0f8fad5b-d9cb-469f-a165-70867728950e"
           "7c9e6679-7425-40de-944b-e07fc1f90ae7"
           "0f8fad5b-d9cb-469f-a165-70867728950e"
           "7c9e6679-7425-40de-944b-e07fc1f90ae7");
    reflexivity.
Defined.

(** [ImportState] does no decoding: the components stay null after the
    token went to [id]. *)
Remark ServiceLimits_ImportState_passthrough (token : string) :
  token <> "" ->
  State (run None (ServiceLimitsResource.ImportState token))
  = Some {| ServiceLimitsResource.Id := types.StringValue token;
            ServiceLimitsResource.ServiceId := types.StringNull;
            ServiceLimitsResource.EnvironmentId := types.StringNull;
            ServiceLimitsResource.MemoryGB := types.Float64Null;
            ServiceLimitsResource.VCPUs := types.Float64Null |}.
Proof.
  intros Htoken. unfold ServiceLimitsResource.ImportState.
  destruct (String.eqb_spec token ""); [contradiction | reflexivity].
Qed.

(** ** Diagnostics and runs *)

Lemma HasError_app (ds es : Diagnostics) :
  HasError (ds ++ es)%list = HasError ds || HasError es.
Proof. unfold HasError. apply existsb_app. Qed.

Lemma HasError_AddError (ds : Diagnostics) (s d : string) :
  HasError (ds ++ [ErrorDiagnostic s d])%list = true.
Proof. rewrite HasError_app. simpl. apply orb_true_r. Qed.

(** Unfolds a callback down to its case analysis on the client's answers. *)
Ltac callback :=
  unfold run, Get, AddError, Append, returnIfError, State_Set,
    State_RemoveResource, Trace, invoke, exit, bind, ret, freshResp,
    remoteFault in *;
  simpl in *.

(** ** Immutable attributes of the private network *)

(** [tags] is the one configurable attribute without the modifier. *)
Remark PrivateNetwork_tags_no_RequiresReplace :
  namesWhere (fun a => configurable a && negb (requiresReplace a))
             PrivateNetworkResource.Schema = ["tags"].
Proof. reflexivity. Qed.

(** [name], [project_id] and [environment_id], the required attributes,
    are the ones that carry the requires-replace plan modifier. *)
Lemma PrivateNetwork_required_RequiresReplace :
  namesWhere Required PrivateNetworkResource.Schema
  = ["name"; "project_id"; "environment_id"]
  /\ namesWhere requiresReplace PrivateNetworkResource.Schema
     = ["name"; "project_id"; "environment_id"].
Proof. split; reflexivity. Qed.

(** [Update], for every request that reaches it, adds the "Update Not
    Supported" error, asks nothing of the remote system and leaves the
    state as it was. *)
Lemma PrivateNetwork_Update_not_supported
      (client : Client) (plan state : Stored PrivateNetworkResource.Model)
      (prior : option PrivateNetworkResource.Model) :
  let r := run prior (PrivateNetworkResource.Update client plan state) in
  Diagnostics_ r
  = [ErrorDiagnostic "Update Not Supported"
       "Private networks cannot be updated. Changes require replacement."]
  /\ HasError (Diagnostics_ r) = true
  /\ State r = prior
  /\ remote r = [].
Proof. repeat split; reflexivity. Qed.

(** A change of a requires-replace attribute is planned as a
    replacement. *)
Example PrivateNetwork_name_change_replaces :
  replaceRequired PrivateNetworkResource.Schema
    (PrivateNetworkResource.changedAttributes
       (sampleNetworkModel "net-1" types.ListNull)
       {| PrivateNetworkResource.Id := types.StringValue "net-1";
          PrivateNetworkResource.Name := types.StringValue "renamed";
          PrivateNetworkResource.ProjectId := types.StringValue "p1";
          PrivateNetworkResource.EnvironmentId := types.StringValue "e1";
          PrivateNetworkResource.DnsName :=
            types.StringValue "internal.railway";
          PrivateNetworkResource.Tags := types.ListNull |})
  = true.
Proof. reflexivity. Qed.

(** C2, on a network whose plan adds a tag: [tags] is configurable and
    carries no requires-replace modifier, against the comment in [Update]
    ("enforced by RequiresReplace on all configurable fields"); the change
    is therefore not planned as a replacement, reaches [Update] and ends
    there with the "Update Not Supported" error and the state as it was:
    the resource is neither replaced nor updated. *)
Theorem C2_tags_change_is_not_replaced :
  let state :=
    sampleNetworkModel "net-1"
      (types.ListValue [types.StringValue "production"]) in
  let plan :=
    sampleNetworkModel "net-1"
      (types.ListValue [types.StringValue "production";
                        types.StringValue "internal"]) in
  let r := run (Some state)
             (PrivateNetworkResource.Update (clientListing [])
                (stored plan) (stored state)) in
  option_map configurable (attribute PrivateNetworkResource.Schema "tags")
  = Some true
  /\ option_map requiresReplace
       (attribute PrivateNetworkResource.Schema "tags")
     = Some false
  /\ PrivateNetworkResource.changedAttributes state plan = ["tags"]
  /\ replaceRequired PrivateNetworkResource.Schema
       (PrivateNetworkResource.changedAttributes state plan) = false
  /\ HasError (Diagnostics_ r) = true
  /\ State r = Some state.
Proof. repeat split; reflexivity. Qed.

(** ** Reading the private network back *)

Section FindNetwork.
Import PrivateNetworkResource.

(** No listed network carries the stored id: the loop ends with [found]
    unset and the model untouched. *)
Lemma findNetwork_absent (networks : list PrivateNetwork) (data : Model)
      (r : Resp Model) :
  (forall n, In n networks -> pn_PublicId n <> String_.ValueString (Id data)) ->
  findNetwork networks data r = (Some (false, data), r).
Proof.
  induction networks as [|n rest IH]; intros Habsent; simpl.
  - reflexivity.
  - destruct (String.eqb_spec (pn_PublicId n) (String_.ValueString (Id data)))
      as [Heq|_].
    + exfalso. apply (Habsent n); [left; reflexivity | exact Heq].
    + apply IH. intros m Hm. apply Habsent. right. exact Hm.
Qed.

(** The first network with the stored id reports no tag: the loop ends
    with [found] set and the tags of the model as they were. *)
Lemma findNetwork_untagged (networks : list PrivateNetwork) (data : Model)
      (r : Resp Model) (network : PrivateNetwork) :
  find (hasId data) networks = Some network ->
  pn_Tags network = [] ->
  exists data',
    findNetwork networks data r = (Some (true, data'), r)
    /\ Tags data' = Tags data.
Proof.
  induction networks as [|n rest IH]; intros Hfind Hnone; simpl in *.
  - discriminate.
  - unfold hasId in Hfind at 1.
    destruct (String.eqb (pn_PublicId n) (String_.ValueString (Id data))).
    + injection Hfind as ->. rewrite Hnone.
      eexists. split; reflexivity.
    + apply IH; assumption.
Qed.

End FindNetwork.

(** C3: when the fresh read reports the resource absent (the stored id is
    not among the listed private networks; the endpoint query answers nil),
    [Read] removes the resource from state and adds no diagnostic to the
    ones decoding the prior state gave, none of which is an error. *)
Theorem C3_vanished_is_removal_not_error :
  (forall (client : Client) (state : Stored PrivateNetworkResource.Model)
          (prior : option PrivateNetworkResource.Model)
          (networks : list PrivateNetwork),
      HasError (GetDiagnostics state) = false ->
      getPrivateNetworks client
        (String_.ValueString (PrivateNetworkResource.EnvironmentId (Raw state)))
      = Ok networks ->
      (forall n, In n networks ->
                 pn_PublicId n
                 <> String_.ValueString (PrivateNetworkResource.Id (Raw state))) ->
      let r := run prior (PrivateNetworkResource.Read client state) in
      State r = None
      /\ Diagnostics_ r = GetDiagnostics state
      /\ HasError (Diagnostics_ r) = false)
  /\
  (forall (client : Client)
          (state : Stored PrivateNetworkEndpointResource.Model)
          (prior : option PrivateNetworkEndpointResource.Model),
      HasError (GetDiagnostics state) = false ->
      getPrivateNetworkEndpoint client
        (String_.ValueString
           (PrivateNetworkEndpointResource.EnvironmentId (Raw state)))
        (String_.ValueString
           (PrivateNetworkEndpointResource.PrivateNetworkId (Raw state)))
        (String_.ValueString
           (PrivateNetworkEndpointResource.ServiceId (Raw state)))
      = Ok None ->
      let r := run prior (PrivateNetworkEndpointResource.Read client state) in
      State r = None
      /\ Diagnostics_ r = GetDiagnostics state
      /\ HasError (Diagnostics_ r) = false).
Proof.
  split.
  - intros client state prior networks Hget Hlist Habsent r. subst r.
    unfold PrivateNetworkResource.Read. callback.
    rewrite Hget, Hlist. rewrite findNetwork_absent by exact Habsent.
    simpl. repeat split; assumption || reflexivity.
  - intros client state prior Hget Hnil r. subst r.
    unfold PrivateNetworkEndpointResource.Read. callback.
    rewrite Hget, Hnil. simpl. repeat split; assumption || reflexivity.
Qed.

Lemma C3_vanished_witness :
  (let r := run (Some (sampleNetworkModel "net-9" types.ListNull))
              (PrivateNetworkResource.Read
                 (clientListing [sampleNetwork "net-1" []])
                 (stored (sampleNetworkModel "net-9" types.ListNull))) in
   State r = None /\ Diagnostics_ r = [] /\ HasError (Diagnostics_ r) = false)
  /\
  (let r := run (Some sampleEndpointModel)
              (PrivateNetworkEndpointResource.Read
                 (clientListing []) (stored sampleEndpointModel)) in
   State r = None /\ Diagnostics_ r = [] /\ HasError (Diagnostics_ r) = false).
Proof.
  split.
  - apply (proj1 C3_vanished_is_removal_not_error
             (clientListing [sampleNetwork "net-1" []])
             (stored (sampleNetworkModel "net-9" types.ListNull))
             (Some (sampleNetworkModel "net-9" types.ListNull))
             [sampleNetwork "net-1" []]).
    + reflexivity.
    + reflexivity.
    + intros n [<-|[]]. simpl. discriminate.
  - apply (proj2 C3_vanished_is_removal_not_error
             (clientListing []) (stored sampleEndpointModel)
             (Some sampleEndpointModel)); reflexivity.
Defined.

(** ** Write-only attributes *)

(** C4: [Read] of the service limits asks nothing of the remote system and
    hands the prior state back as stored, [memory_gb] and [vcpus] included;
    [readServiceInstance], whatever the remote system reports, leaves a
    configured (null or known) [pre_deploy_command] as it is, and so does
    [Read] of the service instance. *)
Theorem C4_write_only_carried_forward :
  (forall (client : Client) (state : Stored ServiceLimitsResource.Model),
      let r := run (Some (Raw state))
                 (ServiceLimitsResource.Read client state) in
      State r = Some (Raw state)
      /\ option_map ServiceLimitsResource.MemoryGB (State r)
         = Some (ServiceLimitsResource.MemoryGB (Raw state))
      /\ option_map ServiceLimitsResource.VCPUs (State r)
         = Some (ServiceLimitsResource.VCPUs (Raw state))
      /\ remote r = [])
  /\
  (forall (client : Client) (data : ServiceInstanceResource.Model)
          (instance : ServiceInstance)
          (r : Resp ServiceInstanceResource.Model),
      getServiceInstanceForResource client
        (String_.ValueString (ServiceInstanceResource.EnvironmentId data))
        (String_.ValueString (ServiceInstanceResource.ServiceId data))
      = Ok instance ->
      List_.IsUnknown (ServiceInstanceResource.PreDeployCommand data) = false ->
      exists data',
        fst (ServiceInstanceResource.readServiceInstance client data r)
        = Some (Ok data')
        /\ ServiceInstanceResource.PreDeployCommand data'
           = ServiceInstanceResource.PreDeployCommand data)
  /\
  (forall (client : Client) (state : Stored ServiceInstanceResource.Model)
          (prior : option ServiceInstanceResource.Model)
          (instance : ServiceInstance),
      HasError (GetDiagnostics state) = false ->
      getServiceInstanceForResource client
        (String_.ValueString
           (ServiceInstanceResource.EnvironmentId (Raw state)))
        (String_.ValueString (ServiceInstanceResource.ServiceId (Raw state)))
      = Ok instance ->
      List_.IsUnknown (ServiceInstanceResource.PreDeployCommand (Raw state))
      = false ->
      option_map ServiceInstanceResource.PreDeployCommand
        (State (run prior (ServiceInstanceResource.Read client state)))
      = Some (ServiceInstanceResource.PreDeployCommand (Raw state))).
Proof.
  split; [|split].
  - intros client state r. subst r.
    unfold ServiceLimitsResource.Read. callback.
    destruct (HasError (GetDiagnostics state)); simpl;
      repeat split; reflexivity.
  - intros client data instance r Hobs Hknown.
    unfold ServiceInstanceResource.readServiceInstance. callback.
    rewrite Hobs. simpl. eexists. split; [reflexivity|].
    simpl. rewrite Hknown. reflexivity.
  - intros client state prior instance Hget Hobs Hknown.
    unfold ServiceInstanceResource.Read, ServiceInstanceResource.readBack,
      ServiceInstanceResource.readServiceInstance. callback.
    rewrite Hget, Hobs. simpl. rewrite Hknown. reflexivity.
Qed.

Lemma C4_write_only_witness :
  option_map ServiceInstanceResource.PreDeployCommand
    (State (run (Some (sampleInstanceModel true))
              (ServiceInstanceResource.Read (clientListing [])
                 (stored (sampleInstanceModel true)))))
  = Some (types.ListValue [types.StringValue "npm run db:migrate"])
  /\ exists data',
       fst (ServiceInstanceResource.readServiceInstance (clientListing [])
              (sampleInstanceModel true) (freshResp None))
       = Some (Ok data')
       /\ ServiceInstanceResource.PreDeployCommand data'
          = types.ListValue [types.StringValue "npm run db:migrate"].
Proof.
  split.
  - apply (proj2 (proj2 C4_write_only_carried_forward)
             (clientListing []) (stored (sampleInstanceModel true))
             (Some (sampleInstanceModel true)) sampleInstance);
      reflexivity.
  - apply (proj1 (proj2 C4_write_only_carried_forward)
             (clientListing []) (sampleInstanceModel true) sampleInstance
             (freshResp None)); reflexivity.
Defined.

(** An unknown [pre_deploy_command] is the one value the read replaces, by
    null and not by anything observed. *)
Remark readServiceInstance_unknown_PreDeployCommand
       (instance : ServiceInstance) (data : ServiceInstanceResource.Model) :
  ServiceInstanceResource.PreDeployCommand data = types.ListUnknown ->
  ServiceInstanceResource.PreDeployCommand
    (ServiceInstanceResource.applyObservation instance data)
  = types.ListNull.
Proof. intros H. simpl. rewrite H. reflexivity. Qed.

(** ** Update payloads *)

(** The update inputs carry a field exactly when the model's attribute is
    not null, with what [ValueString], [ValueInt64], ... give for it:
    [buildLimitsInput] leaves [MemoryGB] (resp. [VCPUs]) nil for a null
    [memory_gb] (resp. [vcpus]); [buildUpdateInput] does the same for the
    source, the registry credentials (both attributes needed) and every
    build, healthcheck, restart and sleep field. The test is for null
    only: an unknown attribute is not null. *)
Lemma payload_omits_exactly_null_attributes :
  (forall data : ServiceLimitsResource.Model,
      let input := ServiceLimitsResource.buildLimitsInput data in
      lim_MemoryGB input
      = (if Float64_.IsNull (ServiceLimitsResource.MemoryGB data) then None
         else Some (Float64_.ValueFloat64 (ServiceLimitsResource.MemoryGB data)))
      /\ lim_VCPUs input
         = (if Float64_.IsNull (ServiceLimitsResource.VCPUs data) then None
            else Some (Float64_.ValueFloat64 (ServiceLimitsResource.VCPUs data))))
  /\
  (forall data : ServiceInstanceResource.Model,
      let input := ServiceInstanceResource.buildUpdateInput data in
      let pointer v :=
        if String_.IsNull v then None else Some (String_.ValueString v) in
      let number v :=
        if Int64_.IsNull v then None else Some (Int64_.ValueInt64 v) in
      in_Source input
      = (if String_.IsNull (ServiceInstanceResource.SourceImage data)
            && String_.IsNull (ServiceInstanceResource.SourceRepo data)
         then None
         else Some {| src_Image :=
                        pointer (ServiceInstanceResource.SourceImage data);
                      src_Repo :=
                        pointer (ServiceInstanceResource.SourceRepo data) |})
      /\ in_RegistryCredentials input
         = (if String_.IsNull (ServiceInstanceResource.RegistryCredentialsUser data)
               || String_.IsNull (ServiceInstanceResource.RegistryCredentialsPass data)
            then None
            else Some {| cred_Username :=
                           String_.ValueString
                             (ServiceInstanceResource.RegistryCredentialsUser data);
                         cred_Password :=
                           String_.ValueString
                             (ServiceInstanceResource.RegistryCredentialsPass data) |})
      /\ in_Builder input = pointer (ServiceInstanceResource.Builder data)
      /\ in_BuildCommand input
         = pointer (ServiceInstanceResource.BuildCommand data)
      /\ in_StartCommand input
         = pointer (ServiceInstanceResource.StartCommand data)
      /\ in_PreDeployCommand input
         = (if List_.IsNull (ServiceInstanceResource.PreDeployCommand data)
            then None
            else Some (map (fun c => Some c)
                         (fst (List_.ElementsAs
                                 (ServiceInstanceResource.PreDeployCommand data)))))
      /\ in_HealthcheckPath input
         = pointer (ServiceInstanceResource.HealthcheckPath data)
      /\ in_HealthcheckTimeout input
         = number (ServiceInstanceResource.HealthcheckTimeout data)
      /\ in_RestartPolicyType input
         = pointer (ServiceInstanceResource.RestartPolicyType data)
      /\ in_RestartPolicyMaxRetries input
         = number (ServiceInstanceResource.RestartPolicyMaxRetries data)
      /\ in_SleepApplication input
         = (if Bool_.IsNull (ServiceInstanceResource.SleepApplication data)
            then None
            else Some (Bool_.ValueBool
                         (ServiceInstanceResource.SleepApplication data)))).
Proof.
  split.
  - intros data input. subst input.
    unfold ServiceLimitsResource.buildLimitsInput.
    destruct (ServiceLimitsResource.MemoryGB data),
             (ServiceLimitsResource.VCPUs data); split; reflexivity.
  - intros data input pointer number. subst input pointer number.
    unfold ServiceInstanceResource.buildUpdateInput,
      ServiceInstanceResource.buildSource,
      ServiceInstanceResource.buildPreDeployCommand,
      ServiceInstanceResource.int.
    simpl.
    repeat split.
    + destruct (ServiceInstanceResource.SourceImage data),
               (ServiceInstanceResource.SourceRepo data); reflexivity.
    + destruct (ServiceInstanceResource.RegistryCredentialsUser data),
               (ServiceInstanceResource.RegistryCredentialsPass data);
        reflexivity.
    + destruct (ServiceInstanceResource.Builder data); reflexivity.
    + destruct (ServiceInstanceResource.BuildCommand data); reflexivity.
    + destruct (ServiceInstanceResource.StartCommand data); reflexivity.
    + destruct (ServiceInstanceResource.PreDeployCommand data); reflexivity.
    + destruct (ServiceInstanceResource.HealthcheckPath data); reflexivity.
    + destruct (ServiceInstanceResource.HealthcheckTimeout data); reflexivity.
    + destruct (ServiceInstanceResource.RestartPolicyType data); reflexivity.
    + destruct (ServiceInstanceResource.RestartPolicyMaxRetries data);
        reflexivity.
    + destruct (ServiceInstanceResource.SleepApplication data); reflexivity.
Qed.

(** An unknown attribute goes out as the zero value of its type. *)
Remark buildUpdateInput_unknown_is_zero (data : ServiceInstanceResource.Model) :
  (ServiceInstanceResource.Builder data = types.StringUnknown ->
   in_Builder (ServiceInstanceResource.buildUpdateInput data) = Some "")
  /\ (ServiceInstanceResource.RestartPolicyType data = types.StringUnknown ->
      in_RestartPolicyType (ServiceInstanceResource.buildUpdateInput data)
      = Some "")
  /\ (ServiceInstanceResource.RestartPolicyMaxRetries data
      = types.Int64Unknown ->
      in_RestartPolicyMaxRetries (ServiceInstanceResource.buildUpdateInput data)
      = Some 0%Z).
Proof.
  unfold ServiceInstanceResource.buildUpdateInput. simpl.
  repeat split; intros ->; reflexivity.
Qed.

(** C5, on the plan of a service instance whose configuration sets the
    service, the environment and the image and omits [builder],
    [restart_policy_type] and [restart_policy_max_retries]: the three are
    optional and computed without default, so they reach
    [buildUpdateInput] unknown, pass its test for null and are sent as the
    empty builder, the empty restart policy and zero retries. The payload
    holds three attributes the caller did not supply, as zero values. *)
Theorem C5_omitted_computed_attributes_sent_as_zero :
  ServiceInstanceResource.buildUpdateInput sampleOmittedComputed
  = {| in_Source := Some {| src_Image := Some "ghcr.io/myorg/api:v1.2.3";
                            src_Repo := None |};
       in_RegistryCredentials := None;
       in_Builder := Some "";
       in_BuildCommand := None;
       in_StartCommand := None;
       in_PreDeployCommand := None;
       in_HealthcheckPath := None;
       in_HealthcheckTimeout := None;
       in_RestartPolicyType := Some "";
       in_RestartPolicyMaxRetries := Some 0%Z;
       in_SleepApplication := None |}.
Proof. reflexivity. Qed.

(** The sample models through both builders: what is null is absent. *)
Example buildLimitsInput_sample :
  ServiceLimitsResource.buildLimitsInput sampleLimitsModel
  = {| lim_ServiceId := "s1"; lim_EnvironmentId := "e1";
       lim_MemoryGB := Some 2%float; lim_VCPUs := None |}.
Proof. reflexivity. Qed.

Example buildUpdateInput_sample :
  ServiceInstanceResource.buildUpdateInput (sampleInstanceModel true)
  = {| in_Source := Some {| src_Image := Some "ghcr.io/myorg/api:v1.2.3";
                            src_Repo := None |};
       in_RegistryCredentials := None;
       in_Builder := None;
       in_BuildCommand := None;
       in_StartCommand := Some "npm run start:prod";
       in_PreDeployCommand := Some [Some "npm run db:migrate"];
       in_HealthcheckPath := Some "/health";
       in_HealthcheckTimeout := Some 60%Z;
       in_RestartPolicyType := None;
       in_RestartPolicyMaxRetries := None;
       in_SleepApplication := None |}.
Proof. reflexivity. Qed.

(** ** Faults of the remote system *)

Section FaultLogic.
Context {M : Type}.

Lemma remoteFault_snoc (r : Resp M) (e : Event) :
  existsb failed (remote r ++ [e])%list = remoteFault r || failed e.
Proof.
  unfold remoteFault. rewrite existsb_app. simpl.
  rewrite orb_false_r. reflexivity.
Qed.

Lemma bind_assoc {A B C} (m : Callback M A) (f : A -> Callback M B)
      (g : B -> Callback M C) (r : Resp M) :
  bind (bind m f) g r = bind m (fun x => bind (f x) g) r.
Proof. unfold bind. destruct (m r) as [[a|] r']; reflexivity. Qed.

(** *** Callbacks that end the run *)

Lemma fails_AddError_exit {A} (s d : string) :
  fails (AddError s d ;;; (exit : Callback M A)).
Proof.
  intros r. unfold AddError, Append, exit, bind. simpl.
  repeat split. apply HasError_AddError.
Qed.

Lemma fails_ret_bind {A B} (a : A) (k : A -> Callback M B) :
  fails (k a) -> fails (bind (ret a) k).
Proof. intros H r. exact (H r). Qed.

(** *** Callbacks that ask nothing *)

Lemma quiet_ret {A} (a : A) : quiet (ret a : Callback M A).
Proof. intros r. reflexivity. Qed.

Lemma quiet_exit {A} : quiet (exit : Callback M A).
Proof. intros r. reflexivity. Qed.

Lemma quiet_Append (ds : Diagnostics) : quiet (Append ds : Callback M unit).
Proof. intros r. reflexivity. Qed.

Lemma quiet_returnIfError : quiet (returnIfError : Callback M unit).
Proof.
  intros r. unfold returnIfError.
  destruct (HasError (Diagnostics_ r)); reflexivity.
Qed.

Lemma quiet_Trace (msg : string) : quiet (Trace msg : Callback M unit).
Proof. intros r. reflexivity. Qed.

Lemma quiet_State_Set (data : M) : quiet (State_Set data).
Proof. intros r. reflexivity. Qed.

Lemma quiet_State_RemoveResource : quiet (State_RemoveResource (M := M)).
Proof. intros r. reflexivity. Qed.

Lemma quiet_bind {A B} (m : Callback M A) (k : A -> Callback M B) :
  quiet m -> (forall a, quiet (k a)) -> quiet (bind m k).
Proof.
  intros Hm Hk r. unfold bind.
  specialize (Hm r). destruct (m r) as [[a|] r']; simpl in *.
  - rewrite (Hk a r'). exact Hm.
  - exact Hm.
Qed.

(** *** Callbacks of the phase before the state is written *)

Lemma guarded_of_quiet {A} (c : Callback M A) :
  quiet c -> (forall r, State (snd (c r)) = State r) -> guarded c.
Proof.
  intros Hq Hs r Hfree. split; [apply Hs|].
  unfold faultFree, remoteFault in *.
  destruct (fst (c r)); rewrite (Hq r); [exact Hfree|].
  intros Hfault. rewrite Hfree in Hfault. discriminate.
Qed.

Lemma guarded_ret {A} (a : A) : guarded (ret a : Callback M A).
Proof. apply guarded_of_quiet; [apply quiet_ret | reflexivity]. Qed.

Lemma guarded_Append (ds : Diagnostics) :
  guarded (Append ds : Callback M unit).
Proof. apply guarded_of_quiet; [apply quiet_Append | reflexivity]. Qed.

Lemma guarded_returnIfError : guarded (returnIfError : Callback M unit).
Proof.
  apply guarded_of_quiet; [apply quiet_returnIfError|].
  intros r. unfold returnIfError.
  destruct (HasError (Diagnostics_ r)); reflexivity.
Qed.

Lemma guarded_Trace (msg : string) : guarded (Trace msg : Callback M unit).
Proof. apply guarded_of_quiet; [apply quiet_Trace | reflexivity]. Qed.

Lemma guarded_bind {A B} (m : Callback M A) (k : A -> Callback M B) :
  guarded m -> (forall a, guarded (k a)) -> guarded (bind m k).
Proof.
  intros Hm Hk r Hfree. unfold bind.
  destruct (Hm r Hfree) as [Hstate Hnext].
  destruct (m r) as [[a|] r']; simpl in *.
  - destruct (Hk a r' Hnext) as [Hstate' Hnext'].
    split; [congruence | exact Hnext'].
  - split; assumption.
Qed.

Lemma guarded_Get (v : Stored M) : guarded (Get v).
Proof.
  unfold Get. apply guarded_bind; [apply guarded_Append|].
  intros _. apply guarded_ret.
Qed.

(** A remote call whose error branch ends the run. *)
Lemma guarded_invoke {A B} (c : RemoteCall) (answer : result A)
      (k : result A -> Callback M B) :
  (forall a, guarded (k (Ok a))) ->
  (forall err, fails (k (Err err))) ->
  guarded (bind (invoke c answer) k).
Proof.
  intros Hok Herr r Hfree. unfold bind, invoke. simpl.
  set (r1 := {| Diagnostics_ := Diagnostics_ r; State := State r;
                remote := (remote r ++ [{| call := c;
                                           failed := isErr answer |}])%list;
                tflog := tflog r |}).
  destruct answer as [a|err].
  - assert (Hfree1 : faultFree r1).
    { unfold faultFree, remoteFault, r1. simpl.
      rewrite remoteFault_snoc. simpl.
      rewrite orb_false_r. exact Hfree. }
    exact (Hok a r1 Hfree1).
  - destruct (Herr err r1) as (Hnone & Herror & Hstate & _).
    rewrite Hnone. split; [exact Hstate|]. intros _. exact Herror.
Qed.

(** *** Whole callbacks *)

Lemma atomic_of_quiet {A} (c : Callback M A) : quiet c -> atomic c.
Proof.
  intros Hq r Hfree Hfault.
  unfold faultFree, remoteFault in *.
  rewrite (Hq r), Hfree in Hfault. discriminate.
Qed.

Lemma atomic_of_guarded {A} (c : Callback M A) : guarded c -> atomic c.
Proof.
  intros Hg r Hfree Hfault.
  destruct (Hg r Hfree) as [Hstate Hnext].
  split; [|exact Hstate].
  destruct (fst (c r)); [|exact (Hnext Hfault)].
  unfold faultFree in Hnext. rewrite Hnext in Hfault. discriminate.
Qed.

Lemma atomic_bind {A B} (m : Callback M A) (k : A -> Callback M B) :
  guarded m -> (forall a, atomic (k a)) -> atomic (bind m k).
Proof.
  intros Hm Hk r Hfree. unfold bind.
  destruct (Hm r Hfree) as [Hstate Hnext].
  destruct (m r) as [[a|] r']; simpl in *.
  - intros Hfault. destruct (Hk a r' Hnext Hfault) as [Herror Hstate'].
    split; [exact Herror | congruence].
  - intros Hfault. split; [exact (Hnext Hfault) | exact Hstate].
Qed.

Lemma atomic_invoke {A B} (c : RemoteCall) (answer : result A)
      (k : result A -> Callback M B) :
  (forall a, atomic (k (Ok a))) ->
  (forall err, fails (k (Err err))) ->
  atomic (bind (invoke c answer) k).
Proof.
  intros Hok Herr r Hfree. unfold bind, invoke. simpl.
  set (r1 := {| Diagnostics_ := Diagnostics_ r; State := State r;
                remote := (remote r ++ [{| call := c;
                                           failed := isErr answer |}])%list;
                tflog := tflog r |}).
  destruct answer as [a|err].
  - assert (Hfree1 : faultFree r1).
    { unfold faultFree, remoteFault, r1. simpl.
      rewrite remoteFault_snoc. simpl.
      rewrite orb_false_r. exact Hfree. }
    exact (Hok a r1 Hfree1).
  - destruct (Herr err r1) as (_ & Herror & Hstate & _).
    intros _. split; [exact Herror | exact Hstate].
Qed.

Lemma atomic_bind_assoc {A B C} (m : Callback M A) (f : A -> Callback M B)
      (g : B -> Callback M C) :
  atomic (bind m (fun x => bind (f x) g)) -> atomic (bind (bind m f) g).
Proof. intros H r. rewrite bind_assoc. exact (H r). Qed.

Lemma atomic_ret_bind {A B} (a : A) (k : A -> Callback M B) :
  atomic (k a) -> atomic (bind (ret a) k).
Proof. intros H r. exact (H r). Qed.

(** From the response the framework hands over, an atomic callback ends a
    faulted run with an error and the prior state. *)
Lemma atomic_run (c : Callback M unit) (prior : option M) :
  atomic c ->
  remoteFault (run prior c) = true ->
  HasError (Diagnostics_ (run prior c)) = true /\ State (run prior c) = prior.
Proof. intros Hc. apply (Hc (freshResp prior)). reflexivity. Qed.

End FaultLogic.

Create HintDb callback discriminated.

#[local] Hint Resolve quiet_ret quiet_exit quiet_Append quiet_returnIfError
  quiet_Trace quiet_State_Set quiet_State_RemoveResource
  guarded_ret guarded_Append guarded_returnIfError guarded_Trace guarded_Get
  fails_AddError_exit : callback.

(** The rules applied along the [bind]s of a callback; what no rule
    settles (a branch on the model, a helper) is left to the proof. *)
Ltac quiet_chain :=
  intros; cbv beta iota;
  lazymatch goal with
  | |- quiet (bind _ _) => apply quiet_bind; [quiet_chain | quiet_chain]
  | |- _ => first [ solve [auto with callback] | idtac ]
  end.

Ltac guarded_chain :=
  intros; cbv beta iota;
  lazymatch goal with
  | |- guarded (bind (invoke _ _) _) =>
      apply guarded_invoke; [guarded_chain | guarded_chain]
  | |- guarded (bind _ _) =>
      apply guarded_bind; [guarded_chain | guarded_chain]
  | |- _ => first [ solve [auto with callback] | idtac ]
  end.

Ltac atomic_chain :=
  intros; cbv beta iota;
  lazymatch goal with
  | |- atomic (bind (invoke _ _) _) =>
      apply atomic_invoke; [atomic_chain | solve [auto with callback]]
  | |- atomic (bind _ _) =>
      first [ apply atomic_of_quiet; solve [quiet_chain]
            | apply atomic_bind; [guarded_chain | atomic_chain] ]
  | |- _ =>
      first [ apply atomic_of_quiet; solve [quiet_chain]
            | solve [auto with callback]
            | idtac ]
  end.

Section PrivateNetworkFaults.
Import PrivateNetworkResource.

Lemma PrivateNetwork_updateTags_quiet (tags : list string) (data : Model) :
  quiet (updateTags tags data).
Proof.
  unfold updateTags. destruct (0 <? length tags)%nat; simpl; quiet_chain.
Qed.

Hint Resolve PrivateNetwork_updateTags_quiet : callback.

Lemma PrivateNetwork_Create_atomic (client : Client) (plan : Stored Model) :
  atomic (Create client plan).
Proof.
  unfold Create. atomic_chain.
  match goal with |- context [List_.ElementsAs ?l] =>
    destruct (negb (List_.IsNull l)); [|apply guarded_ret];
    destruct (List_.ElementsAs l) as [tags diags]
  end.
  guarded_chain.
Qed.

Lemma PrivateNetwork_Delete_atomic (client : Client) (state : Stored Model) :
  atomic (Delete client state).
Proof. unfold Delete. atomic_chain. Qed.

End PrivateNetworkFaults.

Section EndpointFaults.
Import PrivateNetworkEndpointResource.

Lemma Endpoint_updatePrivateIps_quiet (n : nat) (ips : list string)
      (data : Model) :
  quiet (updatePrivateIps n ips data).
Proof.
  unfold updatePrivateIps. destruct (0 <? n)%nat; simpl; quiet_chain.
Qed.

Lemma Endpoint_updateTags_quiet (n : nat) (tags : list string)
      (data : Model) :
  quiet (updateTags n tags data).
Proof.
  unfold updateTags. destruct (0 <? n)%nat; simpl; quiet_chain.
Qed.

Hint Resolve Endpoint_updatePrivateIps_quiet Endpoint_updateTags_quiet
  : callback.

Lemma Endpoint_Create_atomic (client : Client) (plan : Stored Model) :
  atomic (Create client plan).
Proof.
  unfold Create. atomic_chain.
  match goal with |- context [List_.ElementsAs ?l] =>
    destruct (negb (List_.IsNull l)); [|apply guarded_ret];
    destruct (List_.ElementsAs l) as [tags diags]
  end.
  guarded_chain.
Qed.

Lemma Endpoint_Delete_atomic (client : Client) (state : Stored Model) :
  atomic (Delete client state).
Proof. unfold Delete. atomic_chain. Qed.

End EndpointFaults.

Section ServiceLimitsFaults.
Import ServiceLimitsResource.

Lemma ServiceLimits_Create_atomic (client : Client) (plan : Stored Model) :
  atomic (Create client plan).
Proof. unfold Create. atomic_chain. Qed.

Lemma ServiceLimits_Update_atomic (client : Client) (plan : Stored Model) :
  atomic (Update client plan).
Proof. unfold Update. atomic_chain. Qed.

End ServiceLimitsFaults.

Section ServiceInstanceFaults.
Import ServiceInstanceResource.

Lemma updateAndRedeploy_guarded (client : Client) (data : Model) :
  guarded (updateAndRedeploy client data).
Proof.
  unfold updateAndRedeploy. guarded_chain.
  destruct (Bool_.ValueBool (Redeploy data)); guarded_chain.
Qed.

Lemma readBack_atomic (client : Client) (data : Model) :
  atomic (readBack client data).
Proof.
  unfold readBack, readServiceInstance.
  apply atomic_bind_assoc. apply atomic_invoke.
  - intros instance. apply atomic_ret_bind. atomic_chain.
  - intros err. apply fails_ret_bind. apply fails_AddError_exit.
Qed.

Hint Resolve updateAndRedeploy_guarded readBack_atomic : callback.

Lemma ServiceInstance_Create_atomic (client : Client) (plan : Stored Model) :
  atomic (Create client plan).
Proof. unfold Create. atomic_chain. Qed.

Lemma ServiceInstance_Update_atomic (client : Client) (plan : Stored Model) :
  atomic (Update client plan).
Proof. unfold Update. atomic_chain. Qed.

End ServiceInstanceFaults.

(** C6: in every Create, Update and Delete that calls the remote system, a
    call that returns an error ends the callback with an error diagnostic
    and with the state as it was when the callback began: no branch writes
    the state after a failed call. *)
Theorem C6_remote_fault_leaves_state (client : Client) :
  (forall (plan : Stored PrivateNetworkResource.Model) prior,
      let r := run prior (PrivateNetworkResource.Create client plan) in
      remoteFault r = true ->
      HasError (Diagnostics_ r) = true /\ State r = prior)
  /\ (forall (state : Stored PrivateNetworkResource.Model) prior,
      let r := run prior (PrivateNetworkResource.Delete client state) in
      remoteFault r = true ->
      HasError (Diagnostics_ r) = true /\ State r = prior)
  /\ (forall (plan : Stored PrivateNetworkEndpointResource.Model) prior,
      let r := run prior (PrivateNetworkEndpointResource.Create client plan) in
      remoteFault r = true ->
      HasError (Diagnostics_ r) = true /\ State r = prior)
  /\ (forall (state : Stored PrivateNetworkEndpointResource.Model) prior,
      let r := run prior (PrivateNetworkEndpointResource.Delete client state) in
      remoteFault r = true ->
      HasError (Diagnostics_ r) = true /\ State r = prior)
  /\ (forall (plan : Stored ServiceLimitsResource.Model) prior,
      let r := run prior (ServiceLimitsResource.Create client plan) in
      remoteFault r = true ->
      HasError (Diagnostics_ r) = true /\ State r = prior)
  /\ (forall (plan : Stored ServiceLimitsResource.Model) prior,
      let r := run prior (ServiceLimitsResource.Update client plan) in
      remoteFault r = true ->
      HasError (Diagnostics_ r) = true /\ State r = prior)
  /\ (forall (plan : Stored ServiceInstanceResource.Model) prior,
      let r := run prior (ServiceInstanceResource.Create client plan) in
      remoteFault r = true ->
      HasError (Diagnostics_ r) = true /\ State r = prior)
  /\ (forall (plan : Stored ServiceInstanceResource.Model) prior,
      let r := run prior (ServiceInstanceResource.Update client plan) in
      remoteFault r = true ->
      HasError (Diagnostics_ r) = true /\ State r = prior).
Proof.
  repeat match goal with |- _ /\ _ => split end;
    intros v prior r; subst r; apply atomic_run.
  - apply PrivateNetwork_Create_atomic.
  - apply PrivateNetwork_Delete_atomic.
  - apply Endpoint_Create_atomic.
  - apply Endpoint_Delete_atomic.
  - apply ServiceLimits_Create_atomic.
  - apply ServiceLimits_Update_atomic.
  - apply ServiceInstance_Create_atomic.
  - apply ServiceInstance_Update_atomic.
Qed.

Lemma C6_remote_fault_witness :
  (let r := run (Some sampleLimitsModel)
              (ServiceLimitsResource.Update clientRefusing
                 (stored sampleLimitsModel)) in
   HasError (Diagnostics_ r) = true /\ State r = Some sampleLimitsModel)
  /\
  (let r := run None
              (PrivateNetworkResource.Create clientRefusing
                 (stored (sampleNetworkModel "" types.ListNull))) in
   HasError (Diagnostics_ r) = true /\ State r = None)
  /\
  (let r := run (Some (sampleInstanceModel false))
              (ServiceInstanceResource.Update clientRedeployRefused
                 (stored (sampleInstanceModel true))) in
   HasError (Diagnostics_ r) = true
   /\ State r = Some (sampleInstanceModel false)).
Proof.
  split; [|split].
  - apply (proj1 (proj2 (proj2 (proj2 (proj2 (proj2
             (C6_remote_fault_leaves_state clientRefusing))))))
             (stored sampleLimitsModel) (Some sampleLimitsModel)).
    reflexivity.
  - apply (proj1 (C6_remote_fault_leaves_state clientRefusing)
             (stored (sampleNetworkModel "" types.ListNull)) None).
    reflexivity.
  - apply (proj2 (proj2 (proj2 (proj2 (proj2 (proj2 (proj2
             (C6_remote_fault_leaves_state clientRedeployRefused)))))))
             (stored (sampleInstanceModel true))
             (Some (sampleInstanceModel false))).
    reflexivity.
Defined.

(** ** Deletion *)

(** C7, as stated, fails: deleting service limits or a service instance
    ends without any diagnostic, so nothing like NotSupported is raised. *)
Lemma C7_delete_raises_nothing :
  HasError (Diagnostics_
              (run (Some sampleLimitsModel)
                 (ServiceLimitsResource.Delete (clientListing [])
                    (stored sampleLimitsModel)))) = false
  /\ HasError (Diagnostics_
                 (run (Some (sampleInstanceModel true))
                    (ServiceInstanceResource.Delete (clientListing [])
                       (stored (sampleInstanceModel true))))) = false.
Proof. split; reflexivity. Qed.

(** C7, amended: for service limits and service instances, which have no
    remote deletion, [Delete] is a no-op that only logs: for every client
    and state it adds no diagnostic, calls no remote operation and leaves
    the response state alone. *)
Theorem C7_delete_is_logged_noop :
  (forall (client : Client) (state : Stored ServiceLimitsResource.Model)
          (prior : option ServiceLimitsResource.Model),
      let r := run prior (ServiceLimitsResource.Delete client state) in
      Diagnostics_ r = []
      /\ remote r = []
      /\ State r = prior
      /\ tflog r
         = ["service limits delete is a no-op - limits persist on the service"])
  /\
  (forall (client : Client) (state : Stored ServiceInstanceResource.Model)
          (prior : option ServiceInstanceResource.Model),
      let r := run prior (ServiceInstanceResource.Delete client state) in
      Diagnostics_ r = []
      /\ remote r = []
      /\ State r = prior
      /\ tflog r
         = ["service instance delete is a no-op - instances are managed by the parent service"]).
Proof.
  split; intros client state prior r; subst r; repeat split; reflexivity.
Qed.

(** C8: [Delete] of a private network asks the remote system for one
    thing, the deletion of the private networks of the environment in
    state; the request names the environment and nothing else of the
    resource, so two networks of one environment issue the same request. *)
Theorem C8_private_network_delete_is_per_environment :
  (forall (client : Client) (state : Stored PrivateNetworkResource.Model)
          (prior : option PrivateNetworkResource.Model),
      map call (remote (run prior (PrivateNetworkResource.Delete client state)))
      = if HasError (GetDiagnostics state) then []
        else [deletePrivateNetworksForEnvironment_
                (String_.ValueString
                   (PrivateNetworkResource.EnvironmentId (Raw state)))])
  /\
  (forall (client : Client) (s1 s2 : Stored PrivateNetworkResource.Model)
          (prior1 prior2 : option PrivateNetworkResource.Model),
      HasError (GetDiagnostics s1) = false ->
      HasError (GetDiagnostics s2) = false ->
      PrivateNetworkResource.EnvironmentId (Raw s1)
      = PrivateNetworkResource.EnvironmentId (Raw s2) ->
      remote (run prior1 (PrivateNetworkResource.Delete client s1))
      = remote (run prior2 (PrivateNetworkResource.Delete client s2))).
Proof.
  split.
  - intros client state prior.
    unfold PrivateNetworkResource.Delete. callback.
    destruct (HasError (GetDiagnostics state)); simpl; [reflexivity|].
    destruct (deletePrivateNetworksForEnvironment client _); reflexivity.
  - intros client s1 s2 prior1 prior2 H1 H2 Henv.
    unfold PrivateNetworkResource.Delete. callback.
    rewrite H1, H2, Henv. simpl.
    destruct (deletePrivateNetworksForEnvironment client _); reflexivity.
Qed.

Lemma C8_private_network_delete_witness :
  remote (run (Some (sampleNetworkModel "net-1" types.ListNull))
            (PrivateNetworkResource.Delete (clientListing [])
               (stored (sampleNetworkModel "net-1" types.ListNull))))
  = remote (run (Some (sampleNetworkModel "net-2" types.ListNull))
              (PrivateNetworkResource.Delete (clientListing [])
                 (stored (sampleNetworkModel "net-2" types.ListNull)))).
Proof.
  apply (proj2 C8_private_network_delete_is_per_environment
           (clientListing [])
           (stored (sampleNetworkModel "net-1" types.ListNull))
           (stored (sampleNetworkModel "net-2" types.ListNull)));
    reflexivity.
Defined.

(** The endpoint, by contrast, is deleted by its own id. *)
Remark Endpoint_Delete_is_per_id
       (client : Client) (state : Stored PrivateNetworkEndpointResource.Model)
       (prior : option PrivateNetworkEndpointResource.Model) :
  HasError (GetDiagnostics state) = false ->
  map call (remote (run prior
                      (PrivateNetworkEndpointResource.Delete client state)))
  = [deletePrivateNetworkEndpoint_
       (String_.ValueString (PrivateNetworkEndpointResource.Id (Raw state)))].
Proof.
  intros Hget. unfold PrivateNetworkEndpointResource.Delete. callback.
  rewrite Hget. simpl.
  destruct (deletePrivateNetworkEndpoint client _); reflexivity.
Qed.

(** ** Tags of the private network *)

(** C10: when the remote network reports no tag, [Create] and [Read] of
    the private network write the tags to state as the plan (resp. the
    prior state) held them: the attribute is overwritten from the response
    only when the response lists at least one tag. *)
Theorem C10_empty_observed_tags_keep_local_tags :
  (forall (client : Client) (plan : Stored PrivateNetworkResource.Model)
          (prior : option PrivateNetworkResource.Model)
          (network : PrivateNetwork),
      HasError (GetDiagnostics plan) = false ->
      HasError (snd (List_.ElementsAs (PrivateNetworkResource.Tags (Raw plan))))
      = false ->
      createOrGetPrivateNetwork client
        (PrivateNetworkResource.createInput (Raw plan)
           (fst (List_.ElementsAs (PrivateNetworkResource.Tags (Raw plan)))))
      = Ok network ->
      pn_Tags network = [] ->
      option_map PrivateNetworkResource.Tags
        (State (run prior (PrivateNetworkResource.Create client plan)))
      = Some (PrivateNetworkResource.Tags (Raw plan)))
  /\
  (forall (client : Client) (state : Stored PrivateNetworkResource.Model)
          (prior : option PrivateNetworkResource.Model)
          (networks : list PrivateNetwork) (network : PrivateNetwork),
      HasError (GetDiagnostics state) = false ->
      getPrivateNetworks client
        (String_.ValueString (PrivateNetworkResource.EnvironmentId (Raw state)))
      = Ok networks ->
      find (PrivateNetworkResource.hasId (Raw state)) networks = Some network ->
      pn_Tags network = [] ->
      option_map PrivateNetworkResource.Tags
        (State (run prior (PrivateNetworkResource.Read client state)))
      = Some (PrivateNetworkResource.Tags (Raw state))).
Proof.
  split.
  - intros client plan prior network Hget Hconv Hanswer Hnone.
    unfold PrivateNetworkResource.Create. callback. rewrite Hget.
    destruct (PrivateNetworkResource.Tags (Raw plan)) as [| |elems] eqn:Htags;
      simpl in *.
    + rewrite Hanswer. simpl.
      unfold PrivateNetworkResource.updateTags. rewrite Hnone. reflexivity.
    + discriminate.
    + destruct (List_.elementStrings elems) as [ss|]; simpl in *;
        [|discriminate].
      rewrite app_nil_r, Hget, Hanswer. simpl.
      unfold PrivateNetworkResource.updateTags. rewrite Hnone. reflexivity.
  - intros client state prior networks network Hget Hlist Hfind Hnone.
    unfold PrivateNetworkResource.Read. callback. rewrite Hget, Hlist.
    destruct (findNetwork_untagged networks (Raw state)
                {| Diagnostics_ := GetDiagnostics state; State := prior;
                   remote := [{| call :=
                                   getPrivateNetworks_
                                     (String_.ValueString
                                        (PrivateNetworkResource.EnvironmentId
                                           (Raw state)));
                                 failed := false |}];
                   tflog := [] |} Hfind Hnone)
      as (data' & Hloop & Hkept).
    simpl. rewrite Hloop. simpl. f_equal. exact Hkept.
Qed.

(** A configured tag list survives both a creation and a refresh in which
    the remote system lists the network without tags. *)
Lemma C10_empty_observed_tags_witness :
  option_map PrivateNetworkResource.Tags
    (State (run None
              (PrivateNetworkResource.Create (clientListing [])
                 (stored (sampleNetworkModel ""
                            (types.ListValue
                               [types.StringValue "production"]))))))
  = Some (types.ListValue [types.StringValue "production"])
  /\
  option_map PrivateNetworkResource.Tags
    (State (run (Some (sampleNetworkModel "net-1"
                         (types.ListValue [types.StringValue "production"])))
              (PrivateNetworkResource.Read
                 (clientListing [sampleNetwork "net-0" ["x"];
                                 sampleNetwork "net-1" []])
                 (stored (sampleNetworkModel "net-1"
                            (types.ListValue
                               [types.StringValue "production"]))))))
  = Some (types.ListValue [types.StringValue "production"]).
Proof.
  split.
  - apply (proj1 C10_empty_observed_tags_keep_local_tags
             (clientListing [])
             (stored (sampleNetworkModel ""
                        (types.ListValue [types.StringValue "production"])))
             None (sampleNetwork "net-1" []));
      reflexivity.
  - apply (proj2 C10_empty_observed_tags_keep_local_tags
             (clientListing [sampleNetwork "net-0" ["x"];
                             sampleNetwork "net-1" []])
             (stored (sampleNetworkModel "net-1"
                        (types.ListValue [types.StringValue "production"])))
             (Some (sampleNetworkModel "net-1"
                      (types.ListValue [types.StringValue "production"])))
             [sampleNetwork "net-0" ["x"]; sampleNetwork "net-1" []]
             (sampleNetwork "net-1" []));
      reflexivity.
Defined.

(** With at least one tag reported, the observed tags replace the local
    ones. *)
Example Read_observed_tags_replace_local :
  option_map PrivateNetworkResource.Tags
    (State (run None
              (PrivateNetworkResource.Read
                 (clientListing [sampleNetwork "net-1" ["seen"]])
                 (stored (sampleNetworkModel "net-1"
                            (types.ListValue
                               [types.StringValue "production"]))))))
  = Some (types.ListValue [types.StringValue "seen"]).
Proof. reflexivity. Qed.

(** * Further properties of the callbacks *)

(** ** Errors and the state *)

Section ErrorLogic.
Context {M : Type}.

Lemma careful_ret {A} (a : A) : careful (ret a : Callback M A).
Proof. intros r Hfree. simpl. split; [exact Hfree | reflexivity]. Qed.

Lemma careful_Trace (msg : string) : careful (Trace msg : Callback M unit).
Proof. intros r Hfree. simpl. split; [exact Hfree | reflexivity]. Qed.

Lemma careful_invoke {A} (c : RemoteCall) (answer : result A) :
  careful (invoke c answer : Callback M (result A)).
Proof. intros r Hfree. simpl. split; [exact Hfree | reflexivity]. Qed.

Lemma careful_AddError_exit {A} (s d : string) :
  careful (AddError s d ;;; (exit : Callback M A)).
Proof. intros r Hfree. simpl. reflexivity. Qed.

Lemma careful_bind {A B} (m : Callback M A) (k : A -> Callback M B) :
  careful m -> (forall a, careful (k a)) -> careful (bind m k).
Proof.
  intros Hm Hk r Hfree. unfold bind.
  specialize (Hm r Hfree). destruct (m r) as [[a|] r1]; simpl in *.
  - destruct Hm as [Hfree1 Hstate1]. specialize (Hk a r1 Hfree1).
    destruct (fst (k a r1)).
    + destruct Hk as [Hfree2 Hstate2]. split; [exact Hfree2 | congruence].
    + intros Herr. rewrite (Hk Herr). exact Hstate1.
  - exact Hm.
Qed.

(** [resp.Diagnostics.Append(ds...)] followed by the test for errors. *)
Lemma careful_Append_check {A} (ds : Diagnostics)
      (k : unit -> Callback M A) :
  (forall u, careful (k u)) ->
  careful (bind (Append ds) (fun _ => bind returnIfError k)).
Proof.
  intros Hk r Hfree. unfold bind, Append, returnIfError. simpl.
  destruct (HasError (Diagnostics_ r ++ ds)%list) eqn:Herr; simpl.
  - reflexivity.
  - exact (Hk tt {| Diagnostics_ := (Diagnostics_ r ++ ds)%list;
                    State := State r; remote := remote r;
                    tflog := tflog r |} Herr).
Qed.

Lemma careful_Get_check {A} (v : Stored M) (k : M -> unit -> Callback M A) :
  (forall data u, careful (k data u)) ->
  careful (bind (Get v) (fun data => bind returnIfError (k data))).
Proof.
  intros Hk r Hfree. unfold Get, bind, Append, returnIfError, ret. simpl.
  destruct (HasError (Diagnostics_ r ++ GetDiagnostics v)%list) eqn:Herr; simpl.
  - reflexivity.
  - exact (Hk (Raw v) tt
             {| Diagnostics_ := (Diagnostics_ r ++ GetDiagnostics v)%list;
                State := State r; remote := remote r; tflog := tflog r |}
             Herr).
Qed.

(** *** Whole callbacks *)

Lemma errorKeepsState_of_careful {A} (c : Callback M A) :
  careful c -> errorKeepsState c.
Proof.
  intros Hc r Hfree Herr. specialize (Hc r Hfree).
  destruct (fst (c r)).
  - destruct Hc as [_ Hstate]. exact Hstate.
  - exact (Hc Herr).
Qed.

Lemma errorKeepsState_bind {A B} (m : Callback M A) (k : A -> Callback M B) :
  careful m -> (forall a, errorKeepsState (k a)) ->
  errorKeepsState (bind m k).
Proof.
  intros Hm Hk r Hfree. unfold bind.
  specialize (Hm r Hfree). destruct (m r) as [[a|] r1]; simpl in *.
  - destruct Hm as [Hfree1 Hstate1]. intros Herr.
    rewrite (Hk a r1 Hfree1 Herr). exact Hstate1.
  - exact Hm.
Qed.

Lemma errorKeepsState_Get_check {A} (v : Stored M)
      (k : M -> unit -> Callback M A) :
  (forall data u, errorKeepsState (k data u)) ->
  errorKeepsState (bind (Get v) (fun data => bind returnIfError (k data))).
Proof.
  intros Hk r Hfree. unfold Get, bind, Append, returnIfError, ret. simpl.
  destruct (HasError (Diagnostics_ r ++ GetDiagnostics v)%list) eqn:Herr; simpl.
  - reflexivity.
  - exact (Hk (Raw v) tt
             {| Diagnostics_ := (Diagnostics_ r ++ GetDiagnostics v)%list;
                State := State r; remote := remote r; tflog := tflog r |}
             Herr).
Qed.

(** The write that ends a callback: [resp.State.Set] and its diagnostics. *)
Lemma errorKeepsState_write (data : M) :
  errorKeepsState (ds <- State_Set data ;; Append ds).
Proof.
  intros r Hfree. unfold bind, State_Set, Append. simpl.
  rewrite app_nil_r. unfold errorFree in Hfree. rewrite Hfree. discriminate.
Qed.

Lemma errorKeepsState_remove {A} :
  errorKeepsState (State_RemoveResource ;;; (exit : Callback M A)).
Proof.
  intros r Hfree. unfold bind, State_RemoveResource, exit. simpl.
  unfold errorFree in Hfree. rewrite Hfree. discriminate.
Qed.

Lemma errorKeepsState_AddError (s d : string) :
  errorKeepsState (AddError s d : Callback M unit).
Proof. intros r _ _. reflexivity. Qed.

Lemma errorKeepsState_run (c : Callback M unit) (prior : option M) :
  errorKeepsState c ->
  HasError (Diagnostics_ (run prior c)) = true ->
  State (run prior c) = prior.
Proof. intros Hc. apply (Hc (freshResp prior)). reflexivity. Qed.

End ErrorLogic.

#[local] Hint Resolve careful_ret careful_Trace careful_invoke
  careful_AddError_exit errorKeepsState_write errorKeepsState_remove
  errorKeepsState_AddError : callback.

(** The rules along a callback, with the case analysis on what a remote
    call answered. *)
Ltac careful_chain :=
  intros; cbv beta iota;
  lazymatch goal with
  | |- careful (bind (AddError _ _) _) => apply careful_AddError_exit
  | |- careful (bind (Get _) _) =>
      apply careful_Get_check; careful_chain
  | |- careful (bind (Append _) _) =>
      apply careful_Append_check; careful_chain
  | |- careful (bind _ _) =>
      apply careful_bind; [careful_chain | careful_chain]
  | |- careful (match ?a with Ok _ => _ | Err _ => _ end) =>
      destruct a; careful_chain
  | |- careful (if ?b then _ else _) => destruct b; careful_chain
  | |- careful (let (_, _) := ?p in _) => destruct p; careful_chain
  | |- _ => first [ solve [auto with callback] | idtac ]
  end.

Ltac errorKeepsState_chain :=
  intros; cbv beta iota;
  lazymatch goal with
  | |- errorKeepsState (bind (AddError _ _) _) =>
      apply errorKeepsState_of_careful; apply careful_AddError_exit
  | |- errorKeepsState (bind (Get _) _) =>
      apply errorKeepsState_Get_check; errorKeepsState_chain
  | |- errorKeepsState (bind (State_Set _) _) =>
      apply errorKeepsState_write
  | |- errorKeepsState (bind State_RemoveResource _) =>
      apply errorKeepsState_remove
  | |- errorKeepsState (bind _ _) =>
      apply errorKeepsState_bind; [careful_chain | errorKeepsState_chain]
  | |- errorKeepsState (match ?a with Ok _ => _ | Err _ => _ end) =>
      destruct a; errorKeepsState_chain
  | |- errorKeepsState (match ?a with Some _ => _ | None => _ end) =>
      destruct a; errorKeepsState_chain
  | |- errorKeepsState (if ?b then _ else _) =>
      destruct b; errorKeepsState_chain
  | |- errorKeepsState (let (_, _) := ?p in _) =>
      destruct p; errorKeepsState_chain
  | |- _ =>
      first [ solve [auto with callback]
            | apply errorKeepsState_of_careful; solve [careful_chain]
            | idtac ]
  end.

Section PrivateNetworkErrors.
Import PrivateNetworkResource.

Lemma PrivateNetwork_updateTags_careful (tags : list string) (data : Model) :
  careful (updateTags tags data).
Proof.
  unfold updateTags. destruct (0 <? length tags)%nat; simpl; careful_chain.
Qed.

Hint Resolve PrivateNetwork_updateTags_careful : callback.

Lemma findNetwork_careful (networks : list PrivateNetwork) (data : Model) :
  careful (findNetwork networks data).
Proof.
  induction networks as [|n rest IH]; simpl.
  - apply careful_ret.
  - destruct (String.eqb (pn_PublicId n) (String_.ValueString (Id data)));
      [careful_chain | exact IH].
Qed.

Hint Resolve findNetwork_careful : callback.

Lemma PrivateNetwork_Create_errorKeepsState (client : Client)
      (plan : Stored Model) :
  errorKeepsState (Create client plan).
Proof. unfold Create. errorKeepsState_chain. Qed.

Lemma PrivateNetwork_Read_errorKeepsState (client : Client)
      (state : Stored Model) :
  errorKeepsState (Read client state).
Proof. unfold Read. errorKeepsState_chain. Qed.

End PrivateNetworkErrors.

Section EndpointErrors.
Import PrivateNetworkEndpointResource.

Lemma Endpoint_updatePrivateIps_careful (n : nat) (ips : list string)
      (data : Model) :
  careful (updatePrivateIps n ips data).
Proof.
  unfold updatePrivateIps. destruct (0 <? n)%nat; simpl; careful_chain.
Qed.

Lemma Endpoint_updateTags_careful (n : nat) (tags : list string)
      (data : Model) :
  careful (updateTags n tags data).
Proof.
  unfold updateTags. destruct (0 <? n)%nat; simpl; careful_chain.
Qed.

Hint Resolve Endpoint_updatePrivateIps_careful Endpoint_updateTags_careful
  : callback.

Lemma Endpoint_Create_errorKeepsState (client : Client)
      (plan : Stored Model) :
  errorKeepsState (Create client plan).
Proof. unfold Create. errorKeepsState_chain. Qed.

Lemma Endpoint_Read_errorKeepsState (client : Client)
      (state : Stored Model) :
  errorKeepsState (Read client state).
Proof. unfold Read. errorKeepsState_chain. Qed.

End EndpointErrors.

Section ServiceLimitsErrors.
Import ServiceLimitsResource.

Lemma ServiceLimits_Create_errorKeepsState (client : Client)
      (plan : Stored Model) :
  errorKeepsState (Create client plan).
Proof. unfold Create. errorKeepsState_chain. Qed.

Lemma ServiceLimits_Read_errorKeepsState (client : Client)
      (state : Stored Model) :
  errorKeepsState (Read client state).
Proof. unfold Read. errorKeepsState_chain. Qed.

Lemma ServiceLimits_Update_errorKeepsState (client : Client)
      (plan : Stored Model) :
  errorKeepsState (Update client plan).
Proof. unfold Update. errorKeepsState_chain. Qed.

End ServiceLimitsErrors.

Section ServiceInstanceErrors.
Import ServiceInstanceResource.

Lemma updateAndRedeploy_careful (client : Client) (data : Model) :
  careful (updateAndRedeploy client data).
Proof. unfold updateAndRedeploy. careful_chain. Qed.

Lemma readBack_errorKeepsState (client : Client) (data : Model) :
  errorKeepsState (readBack client data).
Proof. unfold readBack, readServiceInstance. errorKeepsState_chain. Qed.

Hint Resolve updateAndRedeploy_careful readBack_errorKeepsState : callback.

Lemma ServiceInstance_Create_errorKeepsState (client : Client)
      (plan : Stored Model) :
  errorKeepsState (Create client plan).
Proof. unfold Create. errorKeepsState_chain. Qed.

Lemma ServiceInstance_Read_errorKeepsState (client : Client)
      (state : Stored Model) :
  errorKeepsState (Read client state).
Proof. unfold Read. errorKeepsState_chain. Qed.

Lemma ServiceInstance_Update_errorKeepsState (client : Client)
      (plan : Stored Model) :
  errorKeepsState (Update client plan).
Proof. unfold Update. errorKeepsState_chain. Qed.

End ServiceInstanceErrors.

(** X1: whatever the remote system answers, a Create, Read or Update that
    ends with an error among its diagnostics has left the state as it found
    it: the state is written (or the resource removed) only by runs that
    end without an error. *)
Theorem X1_error_run_keeps_state (client : Client) :
  (forall (plan : Stored PrivateNetworkResource.Model) prior,
      let r := run prior (PrivateNetworkResource.Create client plan) in
      HasError (Diagnostics_ r) = true -> State r = prior)
  /\ (forall (state : Stored PrivateNetworkResource.Model) prior,
      let r := run prior (PrivateNetworkResource.Read client state) in
      HasError (Diagnostics_ r) = true -> State r = prior)
  /\ (forall (plan : Stored PrivateNetworkEndpointResource.Model) prior,
      let r := run prior (PrivateNetworkEndpointResource.Create client plan) in
      HasError (Diagnostics_ r) = true -> State r = prior)
  /\ (forall (state : Stored PrivateNetworkEndpointResource.Model) prior,
      let r := run prior (PrivateNetworkEndpointResource.Read client state) in
      HasError (Diagnostics_ r) = true -> State r = prior)
  /\ (forall (plan : Stored ServiceLimitsResource.Model) prior,
      let r := run prior (ServiceLimitsResource.Create client plan) in
      HasError (Diagnostics_ r) = true -> State r = prior)
  /\ (forall (state : Stored ServiceLimitsResource.Model) prior,
      let r := run prior (ServiceLimitsResource.Read client state) in
      HasError (Diagnostics_ r) = true -> State r = prior)
  /\ (forall (plan : Stored ServiceLimitsResource.Model) prior,
      let r := run prior (ServiceLimitsResource.Update client plan) in
      HasError (Diagnostics_ r) = true -> State r = prior)
  /\ (forall (plan : Stored ServiceInstanceResource.Model) prior,
      let r := run prior (ServiceInstanceResource.Create client plan) in
      HasError (Diagnostics_ r) = true -> State r = prior)
  /\ (forall (state : Stored ServiceInstanceResource.Model) prior,
      let r := run prior (ServiceInstanceResource.Read client state) in
      HasError (Diagnostics_ r) = true -> State r = prior)
  /\ (forall (plan : Stored ServiceInstanceResource.Model) prior,
      let r := run prior (ServiceInstanceResource.Update client plan) in
      HasError (Diagnostics_ r) = true -> State r = prior).
Proof.
  repeat match goal with |- _ /\ _ => split end;
    intros v prior r; subst r; apply errorKeepsState_run.
  - apply PrivateNetwork_Create_errorKeepsState.
  - apply PrivateNetwork_Read_errorKeepsState.
  - apply Endpoint_Create_errorKeepsState.
  - apply Endpoint_Read_errorKeepsState.
  - apply ServiceLimits_Create_errorKeepsState.
  - apply ServiceLimits_Read_errorKeepsState.
  - apply ServiceLimits_Update_errorKeepsState.
  - apply ServiceInstance_Create_errorKeepsState.
  - apply ServiceInstance_Read_errorKeepsState.
  - apply ServiceInstance_Update_errorKeepsState.
Qed.

Lemma X1_error_run_witness :
  (let r := run (Some (sampleNetworkModel "net-1" types.ListNull))
              (PrivateNetworkResource.Read clientRefusing
                 (stored (sampleNetworkModel "net-1" types.ListNull))) in
   State r = Some (sampleNetworkModel "net-1" types.ListNull))
  /\
  (let r := run None
              (PrivateNetworkEndpointResource.Create (clientListing [])
                 {| Raw := sampleEndpointModel;
                    GetDiagnostics :=
                      [ErrorDiagnostic "Value Conversion Error"
                         "mismatch between struct and object"] |}) in
   State r = None).
Proof.
  split.
  - apply (proj1 (proj2 (X1_error_run_keeps_state clientRefusing))
             (stored (sampleNetworkModel "net-1" types.ListNull))
             (Some (sampleNetworkModel "net-1" types.ListNull))).
    reflexivity.
  - apply (proj1 (proj2 (proj2 (X1_error_run_keeps_state (clientListing []))))
             {| Raw := sampleEndpointModel;
                GetDiagnostics :=
                  [ErrorDiagnostic "Value Conversion Error"
                     "mismatch between struct and object"] |} None).
    reflexivity.
Defined.

(** ** Failed reads *)

Section ReadFaults.

Lemma findNetwork_quiet (networks : list PrivateNetwork)
      (data : PrivateNetworkResource.Model) :
  quiet (PrivateNetworkResource.findNetwork networks data).
Proof.
  induction networks as [|n rest IH]; simpl.
  - apply quiet_ret.
  - destruct (String.eqb (pn_PublicId n)
                (String_.ValueString (PrivateNetworkResource.Id data)));
      [|exact IH].
    apply quiet_bind; [apply PrivateNetwork_updateTags_quiet|].
    intros data'. apply quiet_ret.
Qed.

Lemma PrivateNetwork_Read_atomic
      (client : Client) (state : Stored PrivateNetworkResource.Model) :
  atomic (PrivateNetworkResource.Read client state).
Proof.
  unfold PrivateNetworkResource.Read.
  apply atomic_bind; [apply guarded_Get | intros data].
  apply atomic_bind; [apply guarded_returnIfError | intros _].
  apply atomic_invoke; [intros networks | intros err; apply fails_AddError_exit].
  apply atomic_of_quiet.
  apply quiet_bind; [apply findNetwork_quiet|].
  intros [found data']. destruct (negb found); quiet_chain.
Qed.

Lemma Endpoint_Read_atomic
      (client : Client)
      (state : Stored PrivateNetworkEndpointResource.Model) :
  atomic (PrivateNetworkEndpointResource.Read client state).
Proof.
  unfold PrivateNetworkEndpointResource.Read.
  apply atomic_bind; [apply guarded_Get | intros data].
  apply atomic_bind; [apply guarded_returnIfError | intros _].
  apply atomic_invoke; [intros [endpoint|] | intros err; apply fails_AddError_exit].
  - apply atomic_of_quiet.
    apply quiet_bind; [apply Endpoint_updatePrivateIps_quiet|intros data1].
    apply quiet_bind; [apply Endpoint_updateTags_quiet|intros data2].
    quiet_chain.
  - apply atomic_of_quiet. quiet_chain.
Qed.

Lemma ServiceInstance_Read_atomic
      (client : Client) (state : Stored ServiceInstanceResource.Model) :
  atomic (ServiceInstanceResource.Read client state).
Proof.
  unfold ServiceInstanceResource.Read. atomic_chain. apply readBack_atomic.
Qed.

End ReadFaults.

(** X2: a refresh whose query fails reports the failure and keeps the
    resource: when the remote read of [Read] returns an error, the run
    ends with an error diagnostic and with the prior state, not with the
    resource removed. *)
Theorem X2_failed_read_keeps_resource (client : Client) :
  (forall (state : Stored PrivateNetworkResource.Model) prior,
      let r := run prior (PrivateNetworkResource.Read client state) in
      remoteFault r = true ->
      HasError (Diagnostics_ r) = true /\ State r = prior)
  /\ (forall (state : Stored PrivateNetworkEndpointResource.Model) prior,
      let r := run prior (PrivateNetworkEndpointResource.Read client state) in
      remoteFault r = true ->
      HasError (Diagnostics_ r) = true /\ State r = prior)
  /\ (forall (state : Stored ServiceInstanceResource.Model) prior,
      let r := run prior (ServiceInstanceResource.Read client state) in
      remoteFault r = true ->
      HasError (Diagnostics_ r) = true /\ State r = prior).
Proof.
  repeat match goal with |- _ /\ _ => split end;
    intros state prior r; subst r; apply atomic_run.
  - apply PrivateNetwork_Read_atomic.
  - apply Endpoint_Read_atomic.
  - apply ServiceInstance_Read_atomic.
Qed.

Lemma X2_failed_read_witness :
  (let r := run (Some sampleEndpointModel)
              (PrivateNetworkEndpointResource.Read clientRefusing
                 (stored sampleEndpointModel)) in
   HasError (Diagnostics_ r) = true /\ State r = Some sampleEndpointModel)
  /\
  (let r := run (Some (sampleInstanceModel true))
              (ServiceInstanceResource.Read clientRefusing
                 (stored (sampleInstanceModel true))) in
   HasError (Diagnostics_ r) = true
   /\ State r = Some (sampleInstanceModel true)).
Proof.
  split.
  - apply (proj1 (proj2 (X2_failed_read_keeps_resource clientRefusing))
             (stored sampleEndpointModel) (Some sampleEndpointModel)).
    reflexivity.
  - apply (proj2 (proj2 (X2_failed_read_keeps_resource clientRefusing))
             (stored (sampleInstanceModel true))
             (Some (sampleInstanceModel true))).
    reflexivity.
Defined.

(** ** Undecodable plans and states *)

(** A callback that begins by decoding its plan or state, run on one whose
    decoding reports an error: nothing but the decoding happened. *)
Lemma run_Get_check_stops {M A} (v : Stored M) (prior : option M)
      (k : M -> unit -> Callback M A) :
  HasError (GetDiagnostics v) = true ->
  snd (bind (Get v) (fun data => bind returnIfError (k data))
         (freshResp prior))
  = {| Diagnostics_ := GetDiagnostics v; State := prior;
       remote := []; tflog := [] |}.
Proof.
  intros Herr. unfold Get, bind, Append, returnIfError, ret, freshResp.
  simpl. rewrite Herr. reflexivity.
Qed.

(** X3: a callback whose plan or state does not decode without error
    stops there: it asks nothing of the remote system, logs nothing, leaves
    the state alone and reports exactly the diagnostics of the decoding. *)
Theorem X3_undecoded_input_stops_callback (client : Client) :
  (forall (v : Stored PrivateNetworkResource.Model) prior,
      HasError (GetDiagnostics v) = true ->
      run prior (PrivateNetworkResource.Create client v) = stopped v prior
      /\ run prior (PrivateNetworkResource.Read client v) = stopped v prior
      /\ run prior (PrivateNetworkResource.Delete client v) = stopped v prior)
  /\ (forall (v : Stored PrivateNetworkEndpointResource.Model) prior,
      HasError (GetDiagnostics v) = true ->
      run prior (PrivateNetworkEndpointResource.Create client v)
      = stopped v prior
      /\ run prior (PrivateNetworkEndpointResource.Read client v)
         = stopped v prior
      /\ run prior (PrivateNetworkEndpointResource.Delete client v)
         = stopped v prior)
  /\ (forall (v : Stored ServiceLimitsResource.Model) prior,
      HasError (GetDiagnostics v) = true ->
      run prior (ServiceLimitsResource.Create client v) = stopped v prior
      /\ run prior (ServiceLimitsResource.Read client v) = stopped v prior
      /\ run prior (ServiceLimitsResource.Update client v) = stopped v prior)
  /\ (forall (v : Stored ServiceInstanceResource.Model) prior,
      HasError (GetDiagnostics v) = true ->
      run prior (ServiceInstanceResource.Create client v) = stopped v prior
      /\ run prior (ServiceInstanceResource.Read client v) = stopped v prior
      /\ run prior (ServiceInstanceResource.Update client v)
         = stopped v prior).
Proof.
  repeat match goal with |- _ /\ _ => split end;
    intros v prior Herr;
    repeat match goal with |- _ /\ _ => split end;
    unfold stopped, run;
    apply (@run_Get_check_stops _ unit v prior); exact Herr.
Qed.

Lemma X3_undecoded_input_witness :
  run (Some sampleLimitsModel)
    (ServiceLimitsResource.Update (clientListing [])
       {| Raw := sampleLimitsModel;
          GetDiagnostics :=
            [ErrorDiagnostic "Value Conversion Error"
               "mismatch between struct and object"] |})
  = {| Diagnostics_ :=
         [ErrorDiagnostic "Value Conversion Error"
            "mismatch between struct and object"];
       State := Some sampleLimitsModel; remote := []; tflog := [] |}.
Proof.
  apply (proj2 (proj2 (proj1 (proj2 (proj2
           (X3_undecoded_input_stops_callback (clientListing []))))
           {| Raw := sampleLimitsModel;
              GetDiagnostics :=
                [ErrorDiagnostic "Value Conversion Error"
                   "mismatch between struct and object"] |}
           (Some sampleLimitsModel) eq_refl))).
Defined.

(** ** The private network, created and refreshed *)

Section PrivateNetworkResults.
Import PrivateNetworkResource.

(** What [updateTags] leaves, from a response without errors. *)
Lemma updateTags_result (tags : list string) (data : Model) (r : Resp Model) :
  HasError (Diagnostics_ r) = false ->
  fst (updateTags tags data r)
  = Some (setTags data
            match tags with
            | [] => Tags data
            | _ :: _ => types.ListValue (map types.StringValue tags)
            end)
  /\ Diagnostics_ (snd (updateTags tags data r)) = Diagnostics_ r
  /\ State (snd (updateTags tags data r)) = State r
  /\ remote (snd (updateTags tags data r)) = remote r
  /\ tflog (snd (updateTags tags data r)) = tflog r.
Proof.
  intros Hfree. unfold updateTags.
  destruct tags as [|t tags]; simpl.
  - destruct data; repeat split; reflexivity.
  - unfold bind, Append, returnIfError, ret. simpl.
    rewrite app_nil_r, Hfree. simpl. rewrite ?app_nil_r.
    repeat split; reflexivity.
Qed.

(** The loop of [Read], read as a search for the first network with the
    stored id. *)
Lemma findNetwork_result (networks : list PrivateNetwork) (data : Model)
      (r : Resp Model) :
  HasError (Diagnostics_ r) = false ->
  fst (findNetwork networks data r)
  = Some match find (hasId data) networks with
         | None => (false, data)
         | Some n =>
             (true,
              {| Id := Id data;
                 Name := types.StringValue (pn_Name n);
                 ProjectId := types.StringValue (pn_ProjectId n);
                 EnvironmentId := types.StringValue (pn_EnvironmentId n);
                 DnsName := types.StringValue (pn_DnsName n);
                 Tags := match pn_Tags n with
                         | [] => Tags data
                         | _ :: _ =>
                             types.ListValue
                               (map types.StringValue (pn_Tags n))
                         end |})
         end
  /\ Diagnostics_ (snd (findNetwork networks data r)) = Diagnostics_ r
  /\ State (snd (findNetwork networks data r)) = State r
  /\ remote (snd (findNetwork networks data r)) = remote r.
Proof.
  intros Hfree. induction networks as [|n rest IH]; simpl.
  - repeat split; reflexivity.
  - unfold hasId at 1.
    destruct (String.eqb (pn_PublicId n) (String_.ValueString (Id data)));
      [|exact IH].
    unfold bind.
    match goal with |- context [updateTags ?t ?d r] =>
      destruct (updateTags_result t d r Hfree) as (Hv & Hd & Hs & Hr & _);
      destruct (updateTags t d r) as [[d'|] r']; simpl in *
    end; [|discriminate].
    injection Hv as ->. repeat split; assumption.
Qed.

End PrivateNetworkResults.

(** X4: a creation the remote system accepts writes the network to state
    with the id and DNS name of the response and the name, project and
    environment of the plan; the tags are those of the response when it
    lists any and those of the plan otherwise. One request is sent, built
    from the plan, with an empty tag list for null tags, and no diagnostic
    is added. *)
Theorem X4_private_network_create_result
        (client : Client) (plan : Stored PrivateNetworkResource.Model)
        (prior : option PrivateNetworkResource.Model)
        (network : PrivateNetwork) :
  let data := Raw plan in
  let input :=
    PrivateNetworkResource.createInput data
      (fst (List_.ElementsAs (PrivateNetworkResource.Tags data))) in
  HasError (GetDiagnostics plan) = false ->
  HasError (snd (List_.ElementsAs (PrivateNetworkResource.Tags data))) = false ->
  createOrGetPrivateNetwork client input = Ok network ->
  let r := run prior (PrivateNetworkResource.Create client plan) in
  State r
  = Some {| PrivateNetworkResource.Id :=
              types.StringValue (pn_PublicId network);
            PrivateNetworkResource.Name := PrivateNetworkResource.Name data;
            PrivateNetworkResource.ProjectId :=
              PrivateNetworkResource.ProjectId data;
            PrivateNetworkResource.EnvironmentId :=
              PrivateNetworkResource.EnvironmentId data;
            PrivateNetworkResource.DnsName :=
              types.StringValue (pn_DnsName network);
            PrivateNetworkResource.Tags :=
              match pn_Tags network with
              | [] => PrivateNetworkResource.Tags data
              | _ :: _ =>
                  types.ListValue (map types.StringValue (pn_Tags network))
              end |}
  /\ Diagnostics_ r = GetDiagnostics plan
  /\ remote r = [{| call := createOrGetPrivateNetwork_ input;
                    failed := false |}]
  /\ (PrivateNetworkResource.Tags data = types.ListNull ->
      pn_in_Tags input = []).
Proof.
  intros data input Hget Hconv Hanswer r. subst r data input.
  unfold PrivateNetworkResource.Create. callback. rewrite Hget.
  destruct (PrivateNetworkResource.Tags (Raw plan)) as [| |elems] eqn:Htags;
    simpl in *.
  - rewrite Hanswer. simpl.
    match goal with |- context [PrivateNetworkResource.updateTags ?t ?d ?r0] =>
      destruct (updateTags_result t d r0 Hget) as (Hv & Hd & Hs & Hr & _);
      destruct (PrivateNetworkResource.updateTags t d r0) as [[d'|] r'];
      simpl in *
    end; [|discriminate].
    injection Hv as ->. rewrite ?app_nil_r, Hd, Hr.
    repeat split; reflexivity.
  - discriminate.
  - destruct (List_.elementStrings elems) as [ss|]; simpl in *;
      [|discriminate].
    rewrite ?app_nil_r, Hget, Hanswer. simpl.
    match goal with |- context [PrivateNetworkResource.updateTags ?t ?d ?r0] =>
      assert (Hfree0 : HasError (Diagnostics_ r0) = false)
        by (simpl; rewrite ?app_nil_r; exact Hget);
      destruct (updateTags_result t d r0 Hfree0) as (Hv & Hd & Hs & Hr & _);
      destruct (PrivateNetworkResource.updateTags t d r0) as [[d'|] r'];
      simpl in *
    end; [|discriminate].
    injection Hv as ->. rewrite ?app_nil_r, Hd, Hr, ?app_nil_r.
    repeat split; first [reflexivity | discriminate].
Qed.

Lemma X4_private_network_create_witness :
  State (run None
           (PrivateNetworkResource.Create (clientListing [])
              (stored (sampleNetworkModel "" types.ListNull))))
  = Some (sampleNetworkModel "net-1" types.ListNull).
Proof.
  apply (X4_private_network_create_result (clientListing [])
           (stored (sampleNetworkModel "" types.ListNull)) None
           (network := sampleNetwork "net-1" []));
    reflexivity.
Defined.

(** X5: a refresh the remote system answers removes the resource exactly
    when no listed network has the stored id; otherwise the first listed
    network with that id decides the state: its name, DNS name, project and
    environment replace the stored ones, its tags do when it has any, and
    the id stays. No diagnostic is added either way. *)
Theorem X5_private_network_read_result
        (client : Client) (state : Stored PrivateNetworkResource.Model)
        (prior : option PrivateNetworkResource.Model)
        (networks : list PrivateNetwork) :
  let data := Raw state in
  HasError (GetDiagnostics state) = false ->
  getPrivateNetworks client
    (String_.ValueString (PrivateNetworkResource.EnvironmentId data))
  = Ok networks ->
  let r := run prior (PrivateNetworkResource.Read client state) in
  State r
  = match find (PrivateNetworkResource.hasId data) networks with
    | None => None
    | Some n =>
        Some {| PrivateNetworkResource.Id := PrivateNetworkResource.Id data;
                PrivateNetworkResource.Name := types.StringValue (pn_Name n);
                PrivateNetworkResource.ProjectId :=
                  types.StringValue (pn_ProjectId n);
                PrivateNetworkResource.EnvironmentId :=
                  types.StringValue (pn_EnvironmentId n);
                PrivateNetworkResource.DnsName :=
                  types.StringValue (pn_DnsName n);
                PrivateNetworkResource.Tags :=
                  match pn_Tags n with
                  | [] => PrivateNetworkResource.Tags data
                  | _ :: _ =>
                      types.ListValue (map types.StringValue (pn_Tags n))
                  end |}
    end
  /\ Diagnostics_ r = GetDiagnostics state
  /\ (State r = None <->
      forall n, In n networks ->
                pn_PublicId n
                <> String_.ValueString (PrivateNetworkResource.Id data)).
Proof.
  intros data Hget Hlist r.
  assert (Hmain :
            State r
            = match find (PrivateNetworkResource.hasId data) networks with
              | None => None
              | Some n =>
                  Some {| PrivateNetworkResource.Id :=
                            PrivateNetworkResource.Id data;
                          PrivateNetworkResource.Name :=
                            types.StringValue (pn_Name n);
                          PrivateNetworkResource.ProjectId :=
                            types.StringValue (pn_ProjectId n);
                          PrivateNetworkResource.EnvironmentId :=
                            types.StringValue (pn_EnvironmentId n);
                          PrivateNetworkResource.DnsName :=
                            types.StringValue (pn_DnsName n);
                          PrivateNetworkResource.Tags :=
                            match pn_Tags n with
                            | [] => PrivateNetworkResource.Tags data
                            | _ :: _ =>
                                types.ListValue
                                  (map types.StringValue (pn_Tags n))
                            end |}
              end
            /\ Diagnostics_ r = GetDiagnostics state).
  { subst r data. unfold PrivateNetworkResource.Read. callback.
    rewrite Hget, Hlist. simpl.
    match goal with
    | |- context [PrivateNetworkResource.findNetwork networks (Raw state) ?r0] =>
        destruct (findNetwork_result networks (Raw state) r0 Hget)
          as (Hv & Hd & Hs & _);
        destruct (PrivateNetworkResource.findNetwork networks (Raw state) r0)
          as [[[found data']|] r'];
        simpl in *
    end; [|discriminate].
    destruct (find (PrivateNetworkResource.hasId (Raw state)) networks);
      injection Hv as -> ->; simpl; rewrite ?app_nil_r;
      split; first [reflexivity | assumption]. }
  destruct Hmain as [Hstate Hdiags].
  split; [exact Hstate|]. split; [exact Hdiags|].
  rewrite Hstate. split.
  - destruct (find (PrivateNetworkResource.hasId data) networks) as [n|] eqn:Hfind;
      [discriminate|].
    intros _ n Hin Heq.
    pose proof (find_none _ _ Hfind n Hin) as Hno.
    unfold PrivateNetworkResource.hasId in Hno.
    rewrite Heq, String.eqb_refl in Hno. discriminate.
  - intros Habsent.
    destruct (find (PrivateNetworkResource.hasId data) networks) as [n|] eqn:Hfind;
      [|reflexivity].
    destruct (find_some _ _ Hfind) as [Hin Hid].
    unfold PrivateNetworkResource.hasId in Hid.
    apply String.eqb_eq in Hid. destruct (Habsent n Hin Hid).
Qed.

Lemma X5_private_network_read_witness :
  State (run (Some (sampleNetworkModel "net-1" types.ListNull))
           (PrivateNetworkResource.Read
              (clientListing [sampleNetwork "net-0" ["x"];
                              sampleNetwork "net-1" ["seen"];
                              sampleNetwork "net-1" ["later"]])
              (stored (sampleNetworkModel "net-1" types.ListNull))))
  = Some (sampleNetworkModel "net-1"
            (types.ListValue [types.StringValue "seen"])).
Proof.
  apply (X5_private_network_read_result
           (clientListing [sampleNetwork "net-0" ["x"];
                           sampleNetwork "net-1" ["seen"];
                           sampleNetwork "net-1" ["later"]])
           (stored (sampleNetworkModel "net-1" types.ListNull))
           (Some (sampleNetworkModel "net-1" types.ListNull))
           (networks := [sampleNetwork "net-0" ["x"];
                         sampleNetwork "net-1" ["seen"];
                         sampleNetwork "net-1" ["later"]]));
    reflexivity.
Defined.

(** X6: a creation whose planned tags cannot be turned into strings (an
    unknown list, or a null or unknown element) reports the conversion
    error and stops before the remote system is asked: no network or
    endpoint is created and no state is written. *)
Theorem X6_unconvertible_tags_stop_create (client : Client) :
  (forall (plan : Stored PrivateNetworkResource.Model) prior,
      HasError (GetDiagnostics plan) = false ->
      HasError (snd (List_.ElementsAs
                       (PrivateNetworkResource.Tags (Raw plan)))) = true ->
      let r := run prior (PrivateNetworkResource.Create client plan) in
      remote r = [] /\ State r = prior /\ HasError (Diagnostics_ r) = true)
  /\
  (forall (plan : Stored PrivateNetworkEndpointResource.Model) prior,
      HasError (GetDiagnostics plan) = false ->
      HasError (snd (List_.ElementsAs
                       (PrivateNetworkEndpointResource.Tags (Raw plan)))) = true ->
      let r := run prior (PrivateNetworkEndpointResource.Create client plan) in
      remote r = [] /\ State r = prior /\ HasError (Diagnostics_ r) = true).
Proof.
  split; intros plan prior Hget Hconv r; subst r.
  - unfold PrivateNetworkResource.Create. callback. rewrite Hget.
    destruct (PrivateNetworkResource.Tags (Raw plan)) as [| |elems];
      simpl in *; [discriminate| |].
    + unfold List_.conversionError. rewrite HasError_AddError.
      repeat split. apply HasError_AddError.
    + destruct (List_.elementStrings elems); simpl in *; [discriminate|].
      unfold List_.conversionError. rewrite HasError_AddError.
      repeat split. apply HasError_AddError.
  - unfold PrivateNetworkEndpointResource.Create. callback. rewrite Hget.
    destruct (PrivateNetworkEndpointResource.Tags (Raw plan)) as [| |elems];
      simpl in *; [discriminate| |].
    + unfold List_.conversionError. rewrite HasError_AddError.
      repeat split. apply HasError_AddError.
    + destruct (List_.elementStrings elems); simpl in *; [discriminate|].
      unfold List_.conversionError. rewrite HasError_AddError.
      repeat split. apply HasError_AddError.
Qed.

Lemma X6_unconvertible_tags_witness :
  let r := run None
             (PrivateNetworkResource.Create (clientListing [])
                (stored (sampleNetworkModel ""
                           (types.ListValue [types.StringValue "a";
                                             types.StringUnknown])))) in
  remote r = [] /\ State r = None /\ HasError (Diagnostics_ r) = true.
Proof.
  apply (proj1 (X6_unconvertible_tags_stop_create (clientListing []))
           (stored (sampleNetworkModel ""
                      (types.ListValue [types.StringValue "a";
                                        types.StringUnknown])))
           None); reflexivity.
Defined.

(** ** Deletion, accepted *)

(** X7: a deletion the remote system accepts adds no diagnostic and leaves
    the response state alone, after exactly one request: the private
    networks of the stored environment, resp. the endpoint with the stored
    id. *)
Theorem X7_accepted_delete_result (client : Client) :
  (forall (state : Stored PrivateNetworkResource.Model) prior ok,
      HasError (GetDiagnostics state) = false ->
      deletePrivateNetworksForEnvironment client
        (String_.ValueString (PrivateNetworkResource.EnvironmentId (Raw state)))
      = Ok ok ->
      run prior (PrivateNetworkResource.Delete client state)
      = {| Diagnostics_ := GetDiagnostics state;
           State := prior;
           remote :=
             [{| call :=
                   deletePrivateNetworksForEnvironment_
                     (String_.ValueString
                        (PrivateNetworkResource.EnvironmentId (Raw state)));
                 failed := false |}];
           tflog := ["deleted private network"] |})
  /\
  (forall (state : Stored PrivateNetworkEndpointResource.Model) prior ok,
      HasError (GetDiagnostics state) = false ->
      deletePrivateNetworkEndpoint client
        (String_.ValueString (PrivateNetworkEndpointResource.Id (Raw state)))
      = Ok ok ->
      run prior (PrivateNetworkEndpointResource.Delete client state)
      = {| Diagnostics_ := GetDiagnostics state;
           State := prior;
           remote :=
             [{| call :=
                   deletePrivateNetworkEndpoint_
                     (String_.ValueString
                        (PrivateNetworkEndpointResource.Id (Raw state)));
                 failed := false |}];
           tflog := ["deleted private network endpoint"] |}).
Proof.
  split; intros state prior ok Hget Hanswer.
  - unfold PrivateNetworkResource.Delete. callback.
    rewrite Hget, Hanswer. reflexivity.
  - unfold PrivateNetworkEndpointResource.Delete. callback.
    rewrite Hget, Hanswer. reflexivity.
Qed.

Lemma X7_accepted_delete_witness :
  run (Some sampleEndpointModel)
    (PrivateNetworkEndpointResource.Delete (clientListing [])
       (stored sampleEndpointModel))
  = {| Diagnostics_ := []; State := Some sampleEndpointModel;
       remote := [{| call := deletePrivateNetworkEndpoint_ "ep-1";
                     failed := false |}];
       tflog := ["deleted private network endpoint"] |}.
Proof.
  apply (proj2 (X7_accepted_delete_result (clientListing []))
           (stored sampleEndpointModel) (Some sampleEndpointModel) true);
    reflexivity.
Defined.

(** ** The endpoint, created and refreshed *)

Section EndpointResults.
Import PrivateNetworkEndpointResource.

Lemma nonNil_pointers (ss : list string) :
  nonNil (map (fun s => Some s) ss) = ss.
Proof. induction ss as [|s ss IH]; simpl; [|rewrite IH]; reflexivity. Qed.

Lemma nonNil_length (ps : list (option string)) :
  (length (nonNil ps) <= length ps)%nat.
Proof.
  induction ps as [|[s|] ps IH]; simpl; lia.
Qed.

Lemma In_nonNil (ps : list (option string)) (s : string) :
  In s (nonNil ps) <-> In (Some s) ps.
Proof.
  induction ps as [|[t|] ps IH]; simpl.
  - tauto.
  - rewrite IH. split; intros [H|H]; auto.
    + left. congruence.
    + left. congruence.
  - rewrite IH. split; [auto|]. intros [H|H]; [discriminate | exact H].
Qed.

Lemma updatePrivateIps_result (n : nat) (ips : list string) (data : Model)
      (r : Resp Model) :
  HasError (Diagnostics_ r) = false ->
  exists r',
    updatePrivateIps n ips data r
    = (Some (setPrivateIps data
               (if (0 <? n)%nat
                then types.ListValue (map types.StringValue ips)
                else types.ListNull)), r')
    /\ Diagnostics_ r' = Diagnostics_ r
    /\ State r' = State r
    /\ remote r' = remote r.
Proof.
  intros Hfree. unfold updatePrivateIps.
  destruct (0 <? n)%nat; simpl.
  - unfold bind, Append, returnIfError, ret. simpl.
    rewrite app_nil_r, Hfree. eexists. split; [reflexivity|].
    simpl. rewrite ?app_nil_r. repeat split; reflexivity.
  - eexists. split; [reflexivity|]. repeat split; reflexivity.
Qed.

Lemma Endpoint_updateTags_result (n : nat) (tags : list string)
      (data : Model) (r : Resp Model) :
  HasError (Diagnostics_ r) = false ->
  exists r',
    updateTags n tags data r
    = (Some (setTags data
               (if (0 <? n)%nat
                then types.ListValue (map types.StringValue tags)
                else Tags data)), r')
    /\ Diagnostics_ r' = Diagnostics_ r
    /\ State r' = State r
    /\ remote r' = remote r.
Proof.
  intros Hfree. unfold updateTags.
  destruct (0 <? n)%nat; simpl.
  - unfold bind, Append, returnIfError, ret. simpl.
    rewrite app_nil_r, Hfree. eexists. split; [reflexivity|].
    simpl. rewrite ?app_nil_r. repeat split; reflexivity.
  - exists r. destruct data. repeat split; reflexivity.
Qed.

End EndpointResults.

(** The two helpers that end [Create] and [Read] of the endpoint, taken
    one after the other, from a response without errors. *)
Ltac endpoint_helpers Hfree :=
  match goal with
  | |- context [PrivateNetworkEndpointResource.updatePrivateIps ?n ?i ?d ?r0] =>
      let r1 := fresh "r1" in
      let Hv := fresh "Hv" in
      let Hd := fresh "Hd" in
      let Hs := fresh "Hs" in
      let Hr := fresh "Hr" in
      destruct (updatePrivateIps_result n i d r0 Hfree)
        as (r1 & Hv & Hd & Hs & Hr);
      rewrite Hv; simpl;
      match goal with
      | |- context [PrivateNetworkEndpointResource.updateTags ?m ?t ?e r1] =>
          let r2 := fresh "r2" in
          let Hv' := fresh "Hv" in
          let Hd' := fresh "Hd" in
          let Hs' := fresh "Hs" in
          let Hr' := fresh "Hr" in
          destruct (Endpoint_updateTags_result m t e r1
                      (eq_trans (f_equal HasError Hd) Hfree))
            as (r2 & Hv' & Hd' & Hs' & Hr');
          rewrite Hv'; simpl;
          rewrite ?app_nil_r, ?Hd', ?Hr', ?Hd, ?Hr
      end
  end.

(** X8: a creation of an endpoint the remote system accepts writes the
    endpoint to state with the id and DNS name of the response; its private
    IPs are null when the response lists none and the listed ones
    otherwise; its tags are those of the response when it lists any and
    those of the plan otherwise; the four planned attributes are written as
    planned. One request is sent and no diagnostic is added. *)
Theorem X8_endpoint_create_result
        (client : Client) (plan : Stored PrivateNetworkEndpointResource.Model)
        (prior : option PrivateNetworkEndpointResource.Model)
        (endpoint : CreatedEndpoint) :
  let data := Raw plan in
  let input :=
    {| ep_in_PrivateNetworkId :=
         String_.ValueString
           (PrivateNetworkEndpointResource.PrivateNetworkId data);
       ep_in_ServiceId :=
         String_.ValueString (PrivateNetworkEndpointResource.ServiceId data);
       ep_in_EnvironmentId :=
         String_.ValueString
           (PrivateNetworkEndpointResource.EnvironmentId data);
       ep_in_ServiceName :=
         String_.ValueString (PrivateNetworkEndpointResource.ServiceName data);
       ep_in_Tags :=
         fst (List_.ElementsAs (PrivateNetworkEndpointResource.Tags data)) |} in
  HasError (GetDiagnostics plan) = false ->
  HasError (snd (List_.ElementsAs (PrivateNetworkEndpointResource.Tags data)))
  = false ->
  createOrGetPrivateNetworkEndpoint client input = Ok endpoint ->
  let r := run prior (PrivateNetworkEndpointResource.Create client plan) in
  State r
  = Some {| PrivateNetworkEndpointResource.Id :=
              types.StringValue (cep_PublicId endpoint);
            PrivateNetworkEndpointResource.PrivateNetworkId :=
              PrivateNetworkEndpointResource.PrivateNetworkId data;
            PrivateNetworkEndpointResource.ServiceId :=
              PrivateNetworkEndpointResource.ServiceId data;
            PrivateNetworkEndpointResource.EnvironmentId :=
              PrivateNetworkEndpointResource.EnvironmentId data;
            PrivateNetworkEndpointResource.ServiceName :=
              PrivateNetworkEndpointResource.ServiceName data;
            PrivateNetworkEndpointResource.DnsName :=
              types.StringValue (cep_DnsName endpoint);
            PrivateNetworkEndpointResource.PrivateIps :=
              match cep_PrivateIps endpoint with
              | [] => types.ListNull
              | _ :: _ =>
                  types.ListValue
                    (map types.StringValue (cep_PrivateIps endpoint))
              end;
            PrivateNetworkEndpointResource.Tags :=
              match cep_Tags endpoint with
              | [] => PrivateNetworkEndpointResource.Tags data
              | _ :: _ =>
                  types.ListValue (map types.StringValue (cep_Tags endpoint))
              end |}
  /\ Diagnostics_ r = GetDiagnostics plan
  /\ remote r = [{| call := createOrGetPrivateNetworkEndpoint_ input;
                    failed := false |}].
Proof.
  intros data input Hget Hconv Hanswer r. subst r data input.
  unfold PrivateNetworkEndpointResource.Create. callback. rewrite Hget.
  destruct (PrivateNetworkEndpointResource.Tags (Raw plan)) as [| |elems] eqn:Htags;
    simpl in *; [| discriminate |].
  - rewrite Hanswer. simpl. endpoint_helpers Hget.
    simpl. rewrite Htags.
    destruct (cep_PrivateIps endpoint), (cep_Tags endpoint);
      repeat split; reflexivity.
  - destruct (List_.elementStrings elems) as [ss|]; simpl in *;
      [|discriminate].
    rewrite ?app_nil_r, Hget, Hanswer. simpl.
    endpoint_helpers Hget.
    simpl. rewrite Htags, ?app_nil_r.
    destruct (cep_PrivateIps endpoint), (cep_Tags endpoint);
      repeat split; reflexivity.
Qed.

Lemma X8_endpoint_create_witness :
  State (run None
           (PrivateNetworkEndpointResource.Create (clientListing [])
              (stored sampleEndpointModel)))
  = Some sampleEndpointModel.
Proof.
  apply (X8_endpoint_create_result (clientListing [])
           (stored sampleEndpointModel) None
           (endpoint := {| cep_PublicId := "ep-1";
                           cep_DnsName := "api.internal";
                           cep_PrivateIps := []; cep_Tags := [] |}));
    reflexivity.
Defined.

(** X9: a refresh that finds the endpoint replaces the id and the DNS name
    only by values the response carries (a nil pointer leaves the stored
    one). The private IPs become null when the response lists none and
    otherwise the non-nil entries; the tags are kept when the response
    lists none and otherwise become the non-nil entries, so that a list of
    nil entries only empties them. The four configured attributes are
    never refreshed. *)
Theorem X9_endpoint_read_result
        (client : Client) (state : Stored PrivateNetworkEndpointResource.Model)
        (prior : option PrivateNetworkEndpointResource.Model)
        (endpoint : ObservedEndpoint) :
  let data := Raw state in
  HasError (GetDiagnostics state) = false ->
  getPrivateNetworkEndpoint client
    (String_.ValueString (PrivateNetworkEndpointResource.EnvironmentId data))
    (String_.ValueString (PrivateNetworkEndpointResource.PrivateNetworkId data))
    (String_.ValueString (PrivateNetworkEndpointResource.ServiceId data))
  = Ok (Some endpoint) ->
  let r := run prior (PrivateNetworkEndpointResource.Read client state) in
  State r
  = Some {| PrivateNetworkEndpointResource.Id :=
              match oep_PublicId endpoint with
              | Some id => types.StringValue id
              | None => PrivateNetworkEndpointResource.Id data
              end;
            PrivateNetworkEndpointResource.PrivateNetworkId :=
              PrivateNetworkEndpointResource.PrivateNetworkId data;
            PrivateNetworkEndpointResource.ServiceId :=
              PrivateNetworkEndpointResource.ServiceId data;
            PrivateNetworkEndpointResource.EnvironmentId :=
              PrivateNetworkEndpointResource.EnvironmentId data;
            PrivateNetworkEndpointResource.ServiceName :=
              PrivateNetworkEndpointResource.ServiceName data;
            PrivateNetworkEndpointResource.DnsName :=
              match oep_DnsName endpoint with
              | Some dns => types.StringValue dns
              | None => PrivateNetworkEndpointResource.DnsName data
              end;
            PrivateNetworkEndpointResource.PrivateIps :=
              match oep_PrivateIps endpoint with
              | [] => types.ListNull
              | _ :: _ =>
                  types.ListValue
                    (map types.StringValue
                       (PrivateNetworkEndpointResource.nonNil
                          (oep_PrivateIps endpoint)))
              end;
            PrivateNetworkEndpointResource.Tags :=
              match oep_Tags endpoint with
              | [] => PrivateNetworkEndpointResource.Tags data
              | _ :: _ =>
                  types.ListValue
                    (map types.StringValue
                       (PrivateNetworkEndpointResource.nonNil
                          (oep_Tags endpoint)))
              end |}
  /\ Diagnostics_ r = GetDiagnostics state.
Proof.
  intros data Hget Hanswer r. subst r data.
  unfold PrivateNetworkEndpointResource.Read. callback.
  rewrite Hget, Hanswer. simpl. endpoint_helpers Hget. simpl.
  destruct (Raw state), (oep_PublicId endpoint), (oep_DnsName endpoint),
    (oep_PrivateIps endpoint), (oep_Tags endpoint);
    split; reflexivity.
Qed.

(** The remote system lists one nil tag and no private IP. *)
Lemma X9_endpoint_read_witness :
  option_map PrivateNetworkEndpointResource.Tags
    (State (run (Some sampleEndpointModel)
              (PrivateNetworkEndpointResource.Read clientNilTag
                 (stored sampleEndpointModel))))
  = Some (types.ListValue []).
Proof.
  rewrite (proj1 (X9_endpoint_read_result clientNilTag
                    (stored sampleEndpointModel) (Some sampleEndpointModel)
                    (endpoint := {| oep_PublicId := None;
                                    oep_DnsName := Some "api.internal";
                                    oep_PrivateIps := [];
                                    oep_Tags := [None] |})
                    eq_refl eq_refl)).
  reflexivity.
Defined.

(** X10: the conversion of a slice of string pointers keeps exactly the
    non-nil entries, in order: a string is in the result exactly when a
    pointer to it is in the slice, the result is never longer than the
    slice, and a slice without nil entries is converted entry by entry. *)
Theorem X10_nonNil_keeps_non_nil_entries :
  (forall (ps : list (option string)) (s : string),
      In s (PrivateNetworkEndpointResource.nonNil ps) <-> In (Some s) ps)
  /\ (forall ps : list (option string),
         (length (PrivateNetworkEndpointResource.nonNil ps) <= length ps)%nat)
  /\ (forall ps qs : list (option string),
         PrivateNetworkEndpointResource.nonNil (ps ++ qs)
         = (PrivateNetworkEndpointResource.nonNil ps
            ++ PrivateNetworkEndpointResource.nonNil qs)%list)
  /\ (forall ss : list string,
         PrivateNetworkEndpointResource.nonNil (map (fun s => Some s) ss) = ss).
Proof.
  split; [exact In_nonNil|]. split; [exact nonNil_length|].
  split; [|exact nonNil_pointers].
  intros ps qs. induction ps as [|[s|] ps IH]; simpl;
    [reflexivity | rewrite IH; reflexivity | exact IH].
Qed.

(** ** Service limits, set and updated *)

(** X11: a creation of service limits the remote system accepts sends one
    request, the limits built from the plan, and writes the plan to state
    with the id [service_id:environment_id]; for plans whose service ids
    hold no [":"], creations that write the same id were planned for the
    same service and environment. *)
Theorem X11_service_limits_create_result
        (client : Client) (plan plan' : Stored ServiceLimitsResource.Model)
        (prior prior' : option ServiceLimitsResource.Model) (ok ok' : bool) :
  let sid v := String_.ValueString (ServiceLimitsResource.ServiceId (Raw v)) in
  let eid v :=
    String_.ValueString (ServiceLimitsResource.EnvironmentId (Raw v)) in
  HasError (GetDiagnostics plan) = false ->
  HasError (GetDiagnostics plan') = false ->
  updateServiceInstanceLimits client
    (ServiceLimitsResource.buildLimitsInput (Raw plan)) = Ok ok ->
  updateServiceInstanceLimits client
    (ServiceLimitsResource.buildLimitsInput (Raw plan')) = Ok ok' ->
  let r := run prior (ServiceLimitsResource.Create client plan) in
  let r' := run prior' (ServiceLimitsResource.Create client plan') in
  r = {| Diagnostics_ := GetDiagnostics plan;
         State :=
           Some (ServiceLimitsResource.setId (Raw plan)
                   (types.StringValue
                      (IdentityCodec.encode (sid plan) (eid plan))));
         remote :=
           [{| call :=
                 updateServiceInstanceLimits_
                   (ServiceLimitsResource.buildLimitsInput (Raw plan));
               failed := false |}];
         tflog := ["set service instance limits"] |}
  /\ (IdentityCodec.contains IdentityCodec.delimiter (sid plan) = false ->
      IdentityCodec.contains IdentityCodec.delimiter (sid plan') = false ->
      option_map ServiceLimitsResource.Id (State r)
      = option_map ServiceLimitsResource.Id (State r') ->
      sid plan = sid plan' /\ eid plan = eid plan').
Proof.
  intros sid eid Hget Hget' Hanswer Hanswer' r r'.
  assert (Hrun : forall (p : Stored ServiceLimitsResource.Model) pr o,
             HasError (GetDiagnostics p) = false ->
             updateServiceInstanceLimits client
               (ServiceLimitsResource.buildLimitsInput (Raw p)) = Ok o ->
             run pr (ServiceLimitsResource.Create client p)
             = {| Diagnostics_ := GetDiagnostics p;
                  State :=
                    Some (ServiceLimitsResource.setId (Raw p)
                            (types.StringValue
                               (IdentityCodec.encode (sid p) (eid p))));
                  remote :=
                    [{| call :=
                          updateServiceInstanceLimits_
                            (ServiceLimitsResource.buildLimitsInput (Raw p));
                        failed := false |}];
                  tflog := ["set service instance limits"] |}).
  { intros p pr o Hp Ho. unfold ServiceLimitsResource.Create. callback.
    rewrite Hp, Ho. simpl. rewrite app_nil_r. reflexivity. }
  split; [exact (Hrun plan prior ok Hget Hanswer)|].
  intros Hfree Hfree'. subst r r'.
  rewrite (Hrun plan prior ok Hget Hanswer),
          (Hrun plan' prior' ok' Hget' Hanswer').
  simpl. intros Hid. injection Hid as Hid.
  exact (encode_injective _ _ _ _ Hfree Hfree' Hid).
Qed.

Lemma X11_service_limits_create_witness :
  run None (ServiceLimitsResource.Create (clientListing [])
              (stored sampleLimitsModel))
  = {| Diagnostics_ := [];
       State := Some sampleLimitsModel;
       remote :=
         [{| call :=
               updateServiceInstanceLimits_
                 {| lim_ServiceId := "s1"; lim_EnvironmentId := "e1";
                    lim_MemoryGB := Some 2%float; lim_VCPUs := None |};
             failed := false |}];
       tflog := ["set service instance limits"] |}
  /\ ("s1" = "s1" /\ "e1" = "e1").
Proof.
  split.
  - apply (proj1 (@X11_service_limits_create_result (clientListing [])
                    (stored sampleLimitsModel) (stored sampleLimitsModel)
                    None None true true eq_refl eq_refl eq_refl eq_refl)).
  - apply (proj2 (@X11_service_limits_create_result (clientListing [])
                    (stored sampleLimitsModel) (stored sampleLimitsModel)
                    None None true true eq_refl eq_refl eq_refl eq_refl));
      reflexivity.
Defined.

(** X12: for one plan, Create and Update of the service limits send the
    remote system the same request, and so do Create and Update of the
    service instance (the update, the redeployment if any, the read):
    creating either resource is an update of what the service already
    has. *)
Theorem X12_create_sends_what_update_sends (client : Client) :
  (forall (plan : Stored ServiceLimitsResource.Model) prior prior',
      remote (run prior (ServiceLimitsResource.Create client plan))
      = remote (run prior' (ServiceLimitsResource.Update client plan)))
  /\
  (forall (plan : Stored ServiceInstanceResource.Model) prior prior',
      remote (run prior (ServiceInstanceResource.Create client plan))
      = remote (run prior' (ServiceInstanceResource.Update client plan))).
Proof.
  split; intros plan prior prior'.
  - unfold ServiceLimitsResource.Create, ServiceLimitsResource.Update.
    callback.
    destruct (HasError (GetDiagnostics plan)); simpl; [reflexivity|].
    destruct (updateServiceInstanceLimits client _); reflexivity.
  - unfold ServiceInstanceResource.Create, ServiceInstanceResource.Update,
      ServiceInstanceResource.updateAndRedeploy,
      ServiceInstanceResource.readBack,
      ServiceInstanceResource.readServiceInstance.
    callback.
    destruct (HasError (GetDiagnostics plan)); simpl; [reflexivity|].
    destruct (updateServiceInstanceWithEnv client _ _ _); simpl;
      [|reflexivity].
    destruct (Bool_.ValueBool (ServiceInstanceResource.Redeploy (Raw plan)));
      simpl.
    + destruct (redeployServiceInstanceWithEnv client _ _); simpl;
        [|reflexivity].
      destruct (getServiceInstanceForResource client _ _); reflexivity.
    + destruct (getServiceInstanceForResource client _ _); reflexivity.
Qed.

(** ** The service instance, updated and read back *)

(** X13: the requests of an update of the service instance, in order: the
    update; then, only if it was accepted and [redeploy] is true (not
    false, null or unknown), the redeployment; then, only if nothing
    failed, the read. A failed request is the last one. *)
Theorem X13_service_instance_update_requests
        (client : Client) (plan : Stored ServiceInstanceResource.Model)
        (prior : option ServiceInstanceResource.Model) :
  let data := Raw plan in
  let env := String_.ValueString (ServiceInstanceResource.EnvironmentId data) in
  let svc := String_.ValueString (ServiceInstanceResource.ServiceId data) in
  let input := ServiceInstanceResource.buildUpdateInput data in
  HasError (GetDiagnostics plan) = false ->
  map call (remote (run prior (ServiceInstanceResource.Update client plan)))
  = updateServiceInstanceWithEnv_ env svc input
    :: (if isErr (updateServiceInstanceWithEnv client env svc input) then []
        else if Bool_.ValueBool (ServiceInstanceResource.Redeploy data)
             then redeployServiceInstanceWithEnv_ env svc
                  :: (if isErr (redeployServiceInstanceWithEnv client env svc)
                      then []
                      else [getServiceInstanceForResource_ env svc])
             else [getServiceInstanceForResource_ env svc]).
Proof.
  intros data env svc input Hget. subst data env svc input.
  unfold ServiceInstanceResource.Update,
    ServiceInstanceResource.updateAndRedeploy,
    ServiceInstanceResource.readBack,
    ServiceInstanceResource.readServiceInstance.
  callback. rewrite Hget. simpl.
  destruct (updateServiceInstanceWithEnv client _ _ _); simpl;
    [|reflexivity].
  destruct (Bool_.ValueBool (ServiceInstanceResource.Redeploy (Raw plan)));
    simpl.
  - destruct (redeployServiceInstanceWithEnv client _ _); simpl;
      [|reflexivity].
    destruct (getServiceInstanceForResource client _ _); reflexivity.
  - destruct (getServiceInstanceForResource client _ _); reflexivity.
Qed.

Lemma X13_service_instance_update_witness :
  map call (remote (run None
                      (ServiceInstanceResource.Update clientRedeployRefused
                         (stored (sampleInstanceModel true)))))
  = [updateServiceInstanceWithEnv_ "e1" "s1"
       (ServiceInstanceResource.buildUpdateInput (sampleInstanceModel true));
     redeployServiceInstanceWithEnv_ "e1" "s1"].
Proof.
  apply (X13_service_instance_update_requests clientRedeployRefused
           (stored (sampleInstanceModel true)) None eq_refl).
Defined.

(** X14: what a refresh of the service instance never touches: for every
    answer of the remote system, the id, the service and environment ids,
    the registry credentials and [redeploy] are written to state as the
    prior state held them, and so are the source image and repository when
    the answer carries no source. *)
Theorem X14_service_instance_read_keeps_local
        (client : Client) (state : Stored ServiceInstanceResource.Model)
        (prior : option ServiceInstanceResource.Model)
        (instance : ServiceInstance) :
  let data := Raw state in
  HasError (GetDiagnostics state) = false ->
  getServiceInstanceForResource client
    (String_.ValueString (ServiceInstanceResource.EnvironmentId data))
    (String_.ValueString (ServiceInstanceResource.ServiceId data))
  = Ok instance ->
  exists data',
    State (run prior (ServiceInstanceResource.Read client state)) = Some data'
    /\ ServiceInstanceResource.Id data' = ServiceInstanceResource.Id data
    /\ ServiceInstanceResource.ServiceId data'
       = ServiceInstanceResource.ServiceId data
    /\ ServiceInstanceResource.EnvironmentId data'
       = ServiceInstanceResource.EnvironmentId data
    /\ ServiceInstanceResource.RegistryCredentialsUser data'
       = ServiceInstanceResource.RegistryCredentialsUser data
    /\ ServiceInstanceResource.RegistryCredentialsPass data'
       = ServiceInstanceResource.RegistryCredentialsPass data
    /\ ServiceInstanceResource.Redeploy data'
       = ServiceInstanceResource.Redeploy data
    /\ (si_Source instance = None ->
        ServiceInstanceResource.SourceImage data'
        = ServiceInstanceResource.SourceImage data
        /\ ServiceInstanceResource.SourceRepo data'
           = ServiceInstanceResource.SourceRepo data).
Proof.
  intros data Hget Hanswer. subst data.
  unfold ServiceInstanceResource.Read, ServiceInstanceResource.readBack,
    ServiceInstanceResource.readServiceInstance.
  callback. rewrite Hget, Hanswer. simpl.
  eexists. split; [reflexivity|]. simpl.
  repeat match goal with |- _ /\ _ => split end; try reflexivity.
  intros Hnone. rewrite Hnone. split; reflexivity.
Qed.

Lemma X14_service_instance_read_witness :
  exists data',
    State (run None
             (ServiceInstanceResource.Read (clientListing [])
                (stored (sampleInstanceModel true)))) = Some data'
    /\ ServiceInstanceResource.SourceImage data'
       = types.StringValue "ghcr.io/myorg/api:v1.2.3".
Proof.
  destruct (X14_service_instance_read_keeps_local (clientListing [])
              (stored (sampleInstanceModel true)) None
              (instance := sampleInstance) eq_refl eq_refl)
    as (data' & Hstate & _ & _ & _ & _ & _ & _ & Hsource).
  exists data'. split; [exact Hstate|].
  exact (proj1 (Hsource eq_refl)).
Defined.

(** What the read-back assigns when the remote system reports back what
    the update input carried. *)
Lemma applyObservation_of_echo
        (data : ServiceInstanceResource.Model) (instance : ServiceInstance) :
  String_.IsUnknown (ServiceInstanceResource.SourceImage data) = false ->
  String_.IsUnknown (ServiceInstanceResource.SourceRepo data) = false ->
  String_.IsUnknown (ServiceInstanceResource.BuildCommand data) = false ->
  String_.IsUnknown (ServiceInstanceResource.StartCommand data) = false ->
  String_.IsUnknown (ServiceInstanceResource.HealthcheckPath data) = false ->
  ServiceInstanceResource.HealthcheckTimeout data <> types.Int64Unknown ->
  ServiceInstanceResource.SleepApplication data <> types.BoolUnknown ->
  List_.IsUnknown (ServiceInstanceResource.PreDeployCommand data) = false ->
  ServiceInstanceResource.echoes
    (ServiceInstanceResource.buildUpdateInput data) instance ->
  let data' := ServiceInstanceResource.applyObservation instance data in
  ServiceInstanceResource.SourceImage data'
  = ServiceInstanceResource.SourceImage data
  /\ ServiceInstanceResource.SourceRepo data'
     = ServiceInstanceResource.SourceRepo data
  /\ ServiceInstanceResource.BuildCommand data'
     = ServiceInstanceResource.BuildCommand data
  /\ ServiceInstanceResource.StartCommand data'
     = ServiceInstanceResource.StartCommand data
  /\ ServiceInstanceResource.HealthcheckPath data'
     = ServiceInstanceResource.HealthcheckPath data
  /\ ServiceInstanceResource.HealthcheckTimeout data'
     = ServiceInstanceResource.HealthcheckTimeout data
  /\ ServiceInstanceResource.SleepApplication data'
     = ServiceInstanceResource.SleepApplication data
  /\ ServiceInstanceResource.PreDeployCommand data'
     = ServiceInstanceResource.PreDeployCommand data.
Proof.
  intros Himage Hrepo Hbuild Hstart Hpath Htimeout Hsleep Hpre
         (Hsource & Hb & Hs & Hp & Ht & Hsl) data'.
  subst data'. simpl in *.
  rewrite Hsource, Hb, Hs, Hp, Ht, Hsl, Hpre.
  unfold ServiceInstanceResource.buildSource, ServiceInstanceResource.int.
  repeat match goal with |- _ /\ _ => split end.
  - destruct (ServiceInstanceResource.SourceImage data),
             (ServiceInstanceResource.SourceRepo data);
      try discriminate; reflexivity.
  - destruct (ServiceInstanceResource.SourceImage data),
             (ServiceInstanceResource.SourceRepo data);
      try discriminate; reflexivity.
  - destruct (ServiceInstanceResource.BuildCommand data);
      try discriminate; reflexivity.
  - destruct (ServiceInstanceResource.StartCommand data);
      try discriminate; reflexivity.
  - destruct (ServiceInstanceResource.HealthcheckPath data);
      try discriminate; reflexivity.
  - destruct (ServiceInstanceResource.HealthcheckTimeout data);
      try congruence; reflexivity.
  - destruct (ServiceInstanceResource.SleepApplication data);
      try congruence; reflexivity.
  - reflexivity.
Qed.

(** X15: no drift after an accepted update. When no request of an update
    fails and the remote system reports back what the update input
    carried, the state is written with the source image and repository,
    the build and start commands, the healthcheck path and timeout, the
    sleep flag and the pre-deploy commands as the plan has them, for every
    plan in which these attributes are known or null. *)
Theorem X15_update_of_echo_writes_the_plan
        (client : Client) (plan : Stored ServiceInstanceResource.Model)
        (prior : option ServiceInstanceResource.Model)
        (instance : ServiceInstance) :
  let data := Raw plan in
  let r := run prior (ServiceInstanceResource.Update client plan) in
  HasError (GetDiagnostics plan) = false ->
  remoteFault r = false ->
  getServiceInstanceForResource client
    (String_.ValueString (ServiceInstanceResource.EnvironmentId data))
    (String_.ValueString (ServiceInstanceResource.ServiceId data))
  = Ok instance ->
  ServiceInstanceResource.echoes
    (ServiceInstanceResource.buildUpdateInput data) instance ->
  String_.IsUnknown (ServiceInstanceResource.SourceImage data) = false ->
  String_.IsUnknown (ServiceInstanceResource.SourceRepo data) = false ->
  String_.IsUnknown (ServiceInstanceResource.BuildCommand data) = false ->
  String_.IsUnknown (ServiceInstanceResource.StartCommand data) = false ->
  String_.IsUnknown (ServiceInstanceResource.HealthcheckPath data) = false ->
  ServiceInstanceResource.HealthcheckTimeout data <> types.Int64Unknown ->
  ServiceInstanceResource.SleepApplication data <> types.BoolUnknown ->
  List_.IsUnknown (ServiceInstanceResource.PreDeployCommand data) = false ->
  exists data',
    State r = Some data'
    /\ ServiceInstanceResource.SourceImage data'
       = ServiceInstanceResource.SourceImage data
    /\ ServiceInstanceResource.SourceRepo data'
       = ServiceInstanceResource.SourceRepo data
    /\ ServiceInstanceResource.BuildCommand data'
       = ServiceInstanceResource.BuildCommand data
    /\ ServiceInstanceResource.StartCommand data'
       = ServiceInstanceResource.StartCommand data
    /\ ServiceInstanceResource.HealthcheckPath data'
       = ServiceInstanceResource.HealthcheckPath data
    /\ ServiceInstanceResource.HealthcheckTimeout data'
       = ServiceInstanceResource.HealthcheckTimeout data
    /\ ServiceInstanceResource.SleepApplication data'
       = ServiceInstanceResource.SleepApplication data
    /\ ServiceInstanceResource.PreDeployCommand data'
       = ServiceInstanceResource.PreDeployCommand data.
Proof.
  intros data r Hget Hnofault Hobs Hecho
         Himage Hrepo Hbuild Hstart Hpath Htimeout Hsleep Hpre.
  pose proof (applyObservation_of_echo Himage Hrepo Hbuild Hstart Hpath
                Htimeout Hsleep Hpre Hecho) as Hfields.
  exists (ServiceInstanceResource.applyObservation instance data).
  split; [|exact Hfields].
  clear Hfields Hecho. subst r data.
  unfold ServiceInstanceResource.Update,
    ServiceInstanceResource.updateAndRedeploy,
    ServiceInstanceResource.readBack,
    ServiceInstanceResource.readServiceInstance in *.
  callback. rewrite Hget in *. simpl in *.
  destruct (updateServiceInstanceWithEnv client _ _ _); simpl in *;
    [|discriminate].
  destruct (Bool_.ValueBool (ServiceInstanceResource.Redeploy (Raw plan)));
    simpl in *.
  - destruct (redeployServiceInstanceWithEnv client _ _); simpl in *;
      [|discriminate].
    rewrite Hobs. reflexivity.
  - rewrite Hobs. reflexivity.
Qed.

Lemma X15_update_of_echo_witness :
  exists data',
    State (run None
             (ServiceInstanceResource.Update clientEchoing
                (stored (sampleInstanceModel true)))) = Some data'
    /\ ServiceInstanceResource.StartCommand data'
       = types.StringValue "npm run start:prod".
Proof.
  destruct (X15_update_of_echo_writes_the_plan clientEchoing
              (stored (sampleInstanceModel true)) None
              (instance := sampleEcho))
    as (data' & Hstate & _ & _ & _ & Hstart & _);
    try reflexivity; try discriminate.
  - repeat split; reflexivity.
  - exists data'. split; [exact Hstate | exact Hstart].
Defined.

(** X16: pre-deploy commands that cannot be turned into strings (an
    unknown list, or a null or unknown element) are sent as an empty list,
    not omitted and not reported: the conversion's diagnostics are
    dropped. A null list is omitted, a list of known strings is sent as it
    is. *)
Theorem X16_pre_deploy_command_payload
        (data : ServiceInstanceResource.Model) :
  let sent := in_PreDeployCommand
                (ServiceInstanceResource.buildUpdateInput data) in
  (ServiceInstanceResource.PreDeployCommand data = types.ListNull ->
   sent = None)
  /\ (forall cmds : list string,
         ServiceInstanceResource.PreDeployCommand data
         = types.ListValue (map types.StringValue cmds) ->
         sent = Some (map (fun c => Some c) cmds))
  /\ (ServiceInstanceResource.PreDeployCommand data <> types.ListNull ->
      HasError (snd (List_.ElementsAs
                       (ServiceInstanceResource.PreDeployCommand data)))
      = true ->
      sent = Some []).
Proof.
  intros sent. subst sent.
  unfold ServiceInstanceResource.buildUpdateInput,
    ServiceInstanceResource.buildPreDeployCommand. simpl.
  repeat match goal with |- _ /\ _ => split end.
  - intros ->. reflexivity.
  - intros cmds ->. simpl.
    assert (Hconv : List_.elementStrings (map types.StringValue cmds)
                    = Some cmds).
    { induction cmds as [|c cmds IH]; simpl; [|rewrite IH]; reflexivity. }
    rewrite Hconv. reflexivity.
  - intros Hnonnull Herr.
    destruct (ServiceInstanceResource.PreDeployCommand data) as [| |elems];
      simpl in *; [congruence | reflexivity |].
    destruct (List_.elementStrings elems); simpl in *;
      [discriminate | reflexivity].
Qed.

Lemma X16_pre_deploy_command_witness :
  in_PreDeployCommand
    (ServiceInstanceResource.buildUpdateInput sampleUnknownCommand)
  = Some [].
Proof.
  apply (proj2 (proj2 (X16_pre_deploy_command_payload sampleUnknownCommand)));
    [discriminate | reflexivity].
Defined.

(** ** Import *)

(** X17: an import stores a non-empty token as the id and nothing else,
    whatever the token holds: the service and environment ids stay null, a
    refresh of imported service limits hands that state back, and a
    refresh of an imported service instance asks the remote system for the
    instance of the empty environment and service id. *)
Theorem X17_import_leaves_components_null (client : Client) (token : string) :
  token <> "" ->
  (exists m,
      State (run None (ServiceLimitsResource.ImportState token)) = Some m
      /\ ServiceLimitsResource.Id m = types.StringValue token
      /\ ServiceLimitsResource.ServiceId m = types.StringNull
      /\ ServiceLimitsResource.EnvironmentId m = types.StringNull
      /\ State (run (Some m) (ServiceLimitsResource.Read client (stored m)))
         = Some m)
  /\
  (exists m,
      State (run None (ServiceInstanceResource.ImportState token)) = Some m
      /\ ServiceInstanceResource.Id m = types.StringValue token
      /\ ServiceInstanceResource.ServiceId m = types.StringNull
      /\ ServiceInstanceResource.EnvironmentId m = types.StringNull
      /\ map call
           (remote (run (Some m)
                      (ServiceInstanceResource.Read client (stored m))))
         = [getServiceInstanceForResource_ "" ""]).
Proof.
  intros Htoken.
  unfold ServiceLimitsResource.ImportState,
    ServiceInstanceResource.ImportState.
  destruct (String.eqb_spec token ""); [contradiction|].
  split.
  - eexists. split; [reflexivity|]. repeat split; reflexivity.
  - eexists. split; [reflexivity|]. repeat split; try reflexivity.
    unfold ServiceInstanceResource.Read, ServiceInstanceResource.readBack,
      ServiceInstanceResource.readServiceInstance.
    callback.
    destruct (getServiceInstanceForResource client "" ""); reflexivity.
Qed.

Lemma X17_import_witness :
  (exists m,
      State (run None (ServiceLimitsResource.ImportState "s1:e1")) = Some m
      /\ ServiceLimitsResource.Id m = types.StringValue "s1:e1"
      /\ ServiceLimitsResource.ServiceId m = types.StringNull
      /\ ServiceLimitsResource.EnvironmentId m = types.StringNull
      /\ State (run (Some m)
                  (ServiceLimitsResource.Read (clientListing []) (stored m)))
         = Some m)
  /\
  (exists m,
      State (run None (ServiceInstanceResource.ImportState "s1:e1")) = Some m
      /\ ServiceInstanceResource.Id m = types.StringValue "s1:e1"
      /\ ServiceInstanceResource.ServiceId m = types.StringNull
      /\ ServiceInstanceResource.EnvironmentId m = types.StringNull
      /\ map call
           (remote (run (Some m)
                      (ServiceInstanceResource.Read (clientListing [])
                         (stored m))))
         = [getServiceInstanceForResource_ "" ""]).
Proof.
  apply (X17_import_leaves_components_null (clientListing []) (token := "s1:e1")).
  discriminate.
Defined.

(** An import with an empty ID sets no state. *)
Remark ImportState_empty_ID :
  State (run None (ServiceLimitsResource.ImportState "")) = None
  /\ State (run None (ServiceInstanceResource.ImportState "")) = None.
Proof. split; reflexivity. Qed.

(** ** Replacement and update in place *)

(** X18: by the plan modifiers of the schemas, a changed private network
    is planned as a replacement exactly when its name, project or
    environment differs from the state, and a changed endpoint exactly when
    its network, service, environment or service name does; a change
    confined to [tags] (or to computed attributes) never is. What is not
    replaced reaches [Update], which changes nothing and fails for every
    request. *)
Theorem X18_replacement_is_planned_for_required_attributes :
  (forall state plan : PrivateNetworkResource.Model,
      replaceRequired PrivateNetworkResource.Schema
        (PrivateNetworkResource.changedAttributes state plan)
      = negb (String_.Equal (PrivateNetworkResource.Name state)
                            (PrivateNetworkResource.Name plan))
        || negb (String_.Equal (PrivateNetworkResource.ProjectId state)
                               (PrivateNetworkResource.ProjectId plan))
        || negb (String_.Equal (PrivateNetworkResource.EnvironmentId state)
                               (PrivateNetworkResource.EnvironmentId plan)))
  /\
  (forall state plan : PrivateNetworkEndpointResource.Model,
      replaceRequired PrivateNetworkEndpointResource.Schema
        (PrivateNetworkEndpointResource.changedAttributes state plan)
      = negb (String_.Equal
                (PrivateNetworkEndpointResource.PrivateNetworkId state)
                (PrivateNetworkEndpointResource.PrivateNetworkId plan))
        || negb (String_.Equal
                   (PrivateNetworkEndpointResource.ServiceId state)
                   (PrivateNetworkEndpointResource.ServiceId plan))
        || negb (String_.Equal
                   (PrivateNetworkEndpointResource.EnvironmentId state)
                   (PrivateNetworkEndpointResource.EnvironmentId plan))
        || negb (String_.Equal
                   (PrivateNetworkEndpointResource.ServiceName state)
                   (PrivateNetworkEndpointResource.ServiceName plan)))
  /\
  (forall (client : Client)
          (plan state : Stored PrivateNetworkEndpointResource.Model) prior,
      let r := run prior
                 (PrivateNetworkEndpointResource.Update client plan state) in
      HasError (Diagnostics_ r) = true /\ State r = prior /\ remote r = [])
  /\
  (forall (client : Client)
          (plan state : Stored PrivateNetworkResource.Model) prior,
      let r := run prior (PrivateNetworkResource.Update client plan state) in
      HasError (Diagnostics_ r) = true /\ State r = prior /\ remote r = []).
Proof.
  repeat match goal with |- _ /\ _ => split end.
  - intros state plan.
    unfold PrivateNetworkResource.changedAttributes, replaceRequired.
    destruct (String_.Equal (PrivateNetworkResource.Id state) _),
      (String_.Equal (PrivateNetworkResource.Name state) _),
      (String_.Equal (PrivateNetworkResource.ProjectId state) _),
      (String_.Equal (PrivateNetworkResource.EnvironmentId state) _),
      (String_.Equal (PrivateNetworkResource.DnsName state) _),
      (List_.Equal (PrivateNetworkResource.Tags state) _);
      reflexivity.
  - intros state plan.
    unfold PrivateNetworkEndpointResource.changedAttributes, replaceRequired.
    destruct (String_.Equal (PrivateNetworkEndpointResource.Id state) _),
      (String_.Equal (PrivateNetworkEndpointResource.PrivateNetworkId state) _),
      (String_.Equal (PrivateNetworkEndpointResource.ServiceId state) _),
      (String_.Equal (PrivateNetworkEndpointResource.EnvironmentId state) _),
      (String_.Equal (PrivateNetworkEndpointResource.ServiceName state) _),
      (String_.Equal (PrivateNetworkEndpointResource.DnsName state) _),
      (List_.Equal (PrivateNetworkEndpointResource.PrivateIps state) _),
      (List_.Equal (PrivateNetworkEndpointResource.Tags state) _);
      reflexivity.
  - intros client plan state prior r. repeat split; reflexivity.
  - intros client plan state prior r. repeat split; reflexivity.
Qed.

(** ** Data sources *)

(** X19: a read of the project data source that the remote system answers
    keeps the configured id and takes the rest from the answer: the
    workspace id is null for a project without workspace, and the default
    environment is the first environment listed, null when none is. A
    read that fails adds an error and sets no state. *)
Theorem X19_project_data_source_read
        (client : DataSourceClient) (config : Stored ProjectDataSource.Model)
        (prior : option ProjectDataSource.Model) :
  let r := run prior (ProjectDataSource.Read client config) in
  HasError (GetDiagnostics config) = false ->
  match getProject client
          (String_.ValueString (ProjectDataSource.Id (Raw config))) with
  | Ok project =>
      State r
      = Some {| ProjectDataSource.Id := ProjectDataSource.Id (Raw config);
                ProjectDataSource.Name :=
                  types.StringValue (proj_Name project);
                ProjectDataSource.Description :=
                  types.StringValue (proj_Description project);
                ProjectDataSource.IsPublic :=
                  types.BoolValue (proj_IsPublic project);
                ProjectDataSource.HasPrDeploys :=
                  types.BoolValue (proj_PrDeploys project);
                ProjectDataSource.WorkspaceId :=
                  match proj_Workspace project with
                  | Some id => types.StringValue id
                  | None => types.StringNull
                  end;
                ProjectDataSource.DefaultEnvironment :=
                  match proj_Environments project with
                  | [] => types.StringNull
                  | oldest :: _ => types.StringValue oldest
                  end |}
      /\ Diagnostics_ r = GetDiagnostics config
  | Err err =>
      State r = prior /\ HasError (Diagnostics_ r) = true
  end.
Proof.
  intros r Hget. subst r.
  unfold ProjectDataSource.Read, ask. callback. rewrite Hget. simpl.
  destruct (getProject client _) as [project|err]; simpl.
  - rewrite app_nil_r.
    destruct (proj_Environments project); split; reflexivity.
  - split; [reflexivity | apply HasError_AddError].
Qed.

Lemma X19_project_data_source_witness :
  option_map ProjectDataSource.DefaultEnvironment
    (State (run None
              (ProjectDataSource.Read (dataClient ["e-old"; "e-new"])
                 (stored projectConfig))))
  = Some (types.StringValue "e-old")
  /\ option_map ProjectDataSource.DefaultEnvironment
       (State (run None
                 (ProjectDataSource.Read (dataClient [])
                    (stored projectConfig))))
     = Some types.StringNull.
Proof.
  split.
  - rewrite (proj1 (X19_project_data_source_read
                      (dataClient ["e-old"; "e-new"]) (stored projectConfig)
                      None eq_refl)).
    reflexivity.
  - rewrite (proj1 (X19_project_data_source_read
                      (dataClient []) (stored projectConfig)
                      None eq_refl)).
    reflexivity.
Defined.

(** The service and environment data sources read alike: the configured
    id with the name and project id of the answer, or an error and no
    state. *)
Lemma ServiceAndEnvironment_Read_result
        (client : DataSourceClient) :
  (forall (config : Stored ServiceDataSource.Model) prior,
      let r := run prior (ServiceDataSource.Read client config) in
      HasError (GetDiagnostics config) = false ->
      match getService client
              (String_.ValueString (ServiceDataSource.Id (Raw config))) with
      | Ok service =>
          State r
          = Some {| ServiceDataSource.Id := ServiceDataSource.Id (Raw config);
                    ServiceDataSource.Name :=
                      types.StringValue (svc_Name service);
                    ServiceDataSource.ProjectId :=
                      types.StringValue (svc_ProjectId service) |}
          /\ Diagnostics_ r = GetDiagnostics config
      | Err err => State r = prior /\ HasError (Diagnostics_ r) = true
      end)
  /\
  (forall (config : Stored EnvironmentDataSource.Model) prior,
      let r := run prior (EnvironmentDataSource.Read client config) in
      HasError (GetDiagnostics config) = false ->
      match getEnvironment client
              (String_.ValueString (EnvironmentDataSource.Id (Raw config))) with
      | Ok environment =>
          State r
          = Some {| EnvironmentDataSource.Id :=
                      EnvironmentDataSource.Id (Raw config);
                    EnvironmentDataSource.Name :=
                      types.StringValue (env_Name environment);
                    EnvironmentDataSource.ProjectId :=
                      types.StringValue (env_ProjectId environment) |}
          /\ Diagnostics_ r = GetDiagnostics config
      | Err err => State r = prior /\ HasError (Diagnostics_ r) = true
      end).
Proof.
  split; intros config prior r Hget; subst r.
  - unfold ServiceDataSource.Read, ask. callback. rewrite Hget. simpl.
    destruct (getService client _); simpl.
    + rewrite app_nil_r. split; reflexivity.
    + split; [reflexivity | apply HasError_AddError].
  - unfold EnvironmentDataSource.Read, ask. callback. rewrite Hget. simpl.
    destruct (getEnvironment client _); simpl.
    + rewrite app_nil_r. split; reflexivity.
    + split; [reflexivity | apply HasError_AddError].
Qed.

(** ** Type names *)

Lemma append_cancel (p a b : string) : p ++ a = p ++ b -> a = b.
Proof.
  induction p as [|c p IH]; simpl; intros H; [exact H|].
  injection H as H. exact (IH H).
Qed.

(** X20: under every provider name the four resources get four different
    type names, and so do the three data sources. *)
Theorem X20_type_names_are_distinct (ProviderTypeName : string) :
  NoDup [ ServiceLimits_Metadata ProviderTypeName;
          ServiceInstance_Metadata ProviderTypeName;
          PrivateNetwork_Metadata ProviderTypeName;
          PrivateNetworkEndpoint_Metadata ProviderTypeName ]
  /\ NoDup [ ProjectDataSource.Metadata ProviderTypeName;
             ServiceDataSource.Metadata ProviderTypeName;
             EnvironmentDataSource.Metadata ProviderTypeName ].
Proof.
  unfold ServiceLimits_Metadata, ServiceInstance_Metadata,
    PrivateNetwork_Metadata, PrivateNetworkEndpoint_Metadata,
    ProjectDataSource.Metadata, ServiceDataSource.Metadata,
    EnvironmentDataSource.Metadata.
  split;
    repeat (constructor;
            [ simpl; intros Hin;
              repeat match goal with
                     | H : _ \/ _ |- _ => destruct H as [H|H]
                     | H : _ ++ _ = _ ++ _ |- _ =>
                         apply append_cancel in H; discriminate H
                     | H : False |- _ => destruct H
                     end
            | ]);
    constructor.
Qed.
